(** * Verification of [hooks/diagnostics_parser.py]

    A shallow embedding of the diagnostics hook: the retrying reader
    ([DiagnosticsChecker.load_diagnostics]), the statistics aggregator
    ([analyze_statistics]), the report renderer
    ([generate_reason_markdown]) and the dispatch in [main].

    Python values are the values [json.loads] returns; every operation
    that can raise in Python returns a [result].  Effects (sleeping,
    querying the file system, printing) are recorded in a trace. *)

From Stdlib Require Import ZArith Ascii String List DecimalString Lia.
From Stdlib Require Import Floats.SpecFloat.
From stdpp Require Import base option list gmap strings fin_maps.

#[local] Set Warnings "-register-all".
#[local] Open Scope string_scope.
#[local] Open Scope list_scope.
#[local] Open Scope nat_scope.

(** ** Python values *)

(** What [json.loads] can return.  A JSON number without fraction or
    exponent is a Python [int] (unbounded, hence [Z]); any other number
    is a binary float.  [JObj] lists the items of a [dict] in insertion
    order; the keys of a parsed object are pairwise distinct. *)
Inductive json : Type :=
| JNull
| JBool (b : bool)
| JInt (z : Z)
| JFloat (f : spec_float)
| JStr (s : string)
| JArr (xs : list json)
| JObj (kvs : list (string * json)).

(** The exception classes the script names or that its operations raise. *)
Inductive exn : Type :=
| JSONDecodeError
| OSError
| PermissionError
| ValueError
| UnicodeEncodeError
| AttributeError
| TypeError
| KeyError
| RuntimeError
| RecursionError
| UnicodeDecodeError
| KeyboardInterrupt.

Inductive result (A : Type) : Type :=
| Ok (a : A)
| Raise (e : exn).
Arguments Ok {A} a.
Arguments Raise {A} e.

#[global] Instance result_ret : MRet result := fun _ a => Ok a.
#[global] Instance result_bind : MBind result := fun _ _ f m =>
  match m with
  | Ok a => f a
  | Raise e => Raise e
  end.

(** [for x in xs: acc = f(acc, x)] where the body may raise. *)
Fixpoint foldlM {A B : Type} (f : A → B → result A) (acc : A) (xs : list B)
  : result A :=
  match xs with
  | [] => Ok acc
  | x :: rest => acc' ← f acc x; foldlM f acc' rest
  end.

(** A generator or comprehension [g(x) for x in xs]. *)
Fixpoint mapMr {A B : Type} (f : A → result B) (xs : list A) : result (list B) :=
  match xs with
  | [] => Ok []
  | x :: rest => y ← f x; ys ← mapMr f rest; Ok (y :: ys)
  end.

Definition nl : string := String "010"%char EmptyString.

(** ["sep".join(parts)] *)
Definition join (sep : string) (parts : list string) : string :=
  String.concat sep parts.

(** [str(n)] for a non-negative and for an arbitrary [int]. *)
Definition str_of_nat (n : nat) : string := NilZero.string_of_uint (Nat.to_uint n).
Definition str_of_Z (z : Z) : string := NilZero.string_of_int (Z.to_int z).

(** Lookup in the items of a [dict] with [str] keys. *)
Fixpoint assoc {A : Type} (k : string) (kvs : list (string * A)) : option A :=
  match kvs with
  | [] => None
  | (k', v) :: rest => if String.eqb k' k then Some v else assoc k rest
  end.

(** [d.get(k, dflt)]: only a [dict] has the method. *)
Definition dict_get (d : json) (k : string) (dflt : json) : result json :=
  match d with
  | JObj kvs => Ok (default dflt (assoc k kvs))
  | _ => Raise AttributeError
  end.

(** [d[k]] for a [str] key [k]. *)
Definition dict_item (d : json) (k : string) : result json :=
  match d with
  | JObj kvs =>
      match assoc k kvs with
      | Some v => Ok v
      | None => Raise KeyError
      end
  | _ => Raise TypeError
  end.

(** [bool(v)], as tested by [if v] and [not v]. *)
Definition truthy (v : json) : bool :=
  match v with
  | JNull => false
  | JBool b => b
  | JInt z => negb (z =? 0)%Z
  | JFloat (S754_zero _) => false
  | JFloat _ => true
  | JStr s => negb (String.eqb s "")
  | JArr xs => match xs with [] => false | _ => true end
  | JObj kvs => match kvs with [] => false | _ => true end
  end.

(** Python strings are sequences of code points; the model stores their
    UTF-8 bytes.  [utf8_chars] cuts a string before every byte that is
    not a continuation byte. *)
Definition is_continuation (c : ascii) : bool :=
  (128 <=? nat_of_ascii c) && (nat_of_ascii c <? 192).

Fixpoint utf8_chars (s : string) : list string :=
  match s with
  | EmptyString => []
  | String c rest =>
      match utf8_chars rest with
      | (String c' _ as h) :: t =>
          if is_continuation c' then String c h :: t
          else String c EmptyString :: h :: t
      | t => String c EmptyString :: t
      end
  end.

(** [iter(v)]: the elements a [for] loop visits. *)
Definition py_iter (v : json) : result (list json) :=
  match v with
  | JArr xs => Ok xs
  | JObj kvs => Ok (JStr <$> kvs.*1)
  | JStr s => Ok (JStr <$> utf8_chars s)
  | _ => Raise TypeError
  end.

(** [len(v)] *)
Definition py_len (v : json) : result nat :=
  match v with
  | JArr xs => Ok (length xs)
  | JObj kvs => Ok (length kvs)
  | JStr s => Ok (length (utf8_chars s))
  | _ => Raise TypeError
  end.

(** [v == k] for an [int] literal [k]: [bool] is a subclass of [int],
    and a float compares by its exact value. *)
Definition float_eq_int (f : spec_float) (k : Z) : bool :=
  match f with
  | S754_zero _ => (k =? 0)%Z
  | S754_finite s m e =>
      let v := if s then Z.neg m else Z.pos m in
      if (0 <=? e)%Z then (v * 2 ^ e =? k)%Z else (v =? k * 2 ^ (- e))%Z
  | _ => false
  end.

Definition py_eq_int (v : json) (k : Z) : bool :=
  match v with
  | JInt z => (z =? k)%Z
  | JBool b => ((if b then 1 else 0) =? k)%Z
  | JFloat f => float_eq_int f k
  | _ => false
  end.

(** Lists and dicts are unhashable: using one as a key raises. *)
Definition hashable (v : json) : bool :=
  match v with
  | JArr _ | JObj _ => false
  | _ => true
  end.

(** [m.get(key, dflt)] on a dict [m] whose keys are [int] literals. *)
Definition int_dict_get {A : Type} (m : list (Z * A)) (key : json) (dflt : A)
  : result A :=
  if hashable key
  then Ok (default dflt (snd <$> find (λ kv, py_eq_int key kv.1) m))
  else Raise TypeError.

(** ** The class constants *)

Definition SEVERITY_MAP : list (Z * string) :=
  [(0%Z, "Error"); (1%Z, "Warning"); (2%Z, "Information"); (3%Z, "Hint")].

Definition SEVERITY_ICONS : list (string * string) :=
  [("Error", "❌"); ("Warning", "⚠️"); ("Information", "ℹ️"); ("Hint", "💡")].

(** ** Statistics aggregator *)

(** A [collections.Counter]: reading a missing key gives 0, and
    [c[k] += 1] creates the key. *)
Definition counter_get (c : gmap string nat) (k : string) : nat :=
  default 0 (c !! k).
Definition counter_incr (k : string) (c : gmap string nat) : gmap string nat :=
  <[k := counter_get c k + 1]> c.

(** The dict [analyze_statistics] returns. *)
Record stats : Type := Stats {
  total_files : nat;
  total_diagnostics : nat;
  by_severity : gmap string nat
}.

(** [self.SEVERITY_MAP.get(diag.get("severity", 0), "Unknown")] *)
Definition severity_name (diag : json) : result string :=
  sev ← dict_get diag "severity" (JInt 0);
  int_dict_get SEVERITY_MAP sev "Unknown".

(** Body of the inner loop of [analyze_statistics]. *)
Definition count_diag (severity_count : gmap string nat) (diag : json)
  : result (gmap string nat) :=
  sev ← severity_name diag;
  Ok (counter_incr sev severity_count).

(** Body of the outer loop of [analyze_statistics]. *)
Definition count_file (acc : stats) (file_data : json) : result stats :=
  let total_files := total_files acc + 1 in
  diagnostics ← dict_get file_data "diagnostics" (JArr []);
  n ← py_len diagnostics;
  let total_diagnostics := total_diagnostics acc + n in
  diags ← py_iter diagnostics;
  severity_count ← foldlM count_diag (by_severity acc) diags;
  Ok (Stats total_files total_diagnostics severity_count).

Definition analyze_statistics (data : json) : result stats :=
  files ← py_iter data;
  foldlM count_file (Stats 0 0 ∅) files.

(** ** The Python library

    Functions of the standard library that the script calls and whose
    code is not part of the repository.  [py_repr] is [repr] of a float,
    list or dict; the [pathlib] operations depend on the platform and on
    the file system. *)

(** Why [json.loads] rejects a text: it is not JSON
    ([json.JSONDecodeError]), it nests deeper than the recursion limit
    ([RecursionError]), or it holds an integer literal with more digits
    than the interpreter converts ([ValueError]). *)
Inductive loads_failure : Type := NotJson | TooDeep | TooManyDigits.

Inductive loaded : Type :=
| Loaded (v : json)
| NotLoaded (why : loads_failure).

(** Why [Path(p).resolve()] raises: the path holds a null character
    ([ValueError]), or its symbolic links form a loop ([RuntimeError],
    before Python 3.13). *)
Inductive resolve_failure : Type := NullCharacter | SymlinkLoop.

Class PyLib : Type := {
  py_repr : json → string;
  (** [Path(p).name] *)
  path_name : string → string;
  (** [Path(p).resolve()], when it returns: it does for a path that
      [exists()] has just found, whose links were then followed. *)
  path_resolve : string → string;
  (** The failure of [Path(p).resolve()] for an arbitrary path, [None]
      when it returns [path_resolve p]. *)
  resolve_fails : string → option resolve_failure;
  (** [p.relative_to(self._project_root()).as_posix()]; [None] stands for
      the [ValueError] raised when [p] is not below the project root. *)
  relative_to_root : string → option string;
  (** [s.strip()] *)
  py_strip : string → string;
  (** [json.loads(s)] *)
  json_loads : string → loaded
}.

(** ** Report renderer: the lines of the report *)

Section Renderer.

Context `{lib : PyLib}.

(** [str(v)], which an f-string applies to the value of a field. *)
Definition py_str (v : json) : string :=
  match v with
  | JNull => "None"
  | JBool true => "True"
  | JBool false => "False"
  | JInt z => str_of_Z z
  | JStr s => s
  | _ => py_repr v
  end.

(** [Path(file_path)]: the constructor accepts a [str] only. *)
Definition path_of (file_path : json) : result string :=
  match file_path with
  | JStr s => Ok s
  | _ => Raise TypeError
  end.

(** [Path(file_path).resolve()] for a path read from the snapshot. *)
Definition resolve (file_path : string) : result string :=
  match resolve_fails file_path with
  | None => Ok (path_resolve file_path)
  | Some NullCharacter => Raise ValueError
  | Some SymlinkLoop => Raise RuntimeError
  end.

(** The [try] of [_relativize] catches [ValueError] only. *)
Definition _relativize (file_path : string) : result string :=
  match resolve file_path with
  | Ok p =>
      match relative_to_root p with
      | Some rel => Ok rel
      | None => Ok file_path
      end
  | Raise ValueError => Ok file_path
  | Raise e => Raise e
  end.

(** [sum(1 for d in diagnostics if d.get("severity") == k)] *)
Definition explicit_severity (k : Z) (d : json) : result bool :=
  sev ← dict_get d "severity" JNull;
  Ok (py_eq_int sev k).

Definition count_severity (k : Z) (diagnostics : json) : result nat :=
  ds ← py_iter diagnostics;
  flags ← mapMr (explicit_severity k) ds;
  Ok (length (filter (λ b : bool, b = true) flags)).

(** The list [summary_parts] after the four conditional appends. *)
Definition summary_parts (file_errors file_warnings file_infos file_hints : nat)
  : list string :=
  ((if file_errors is 0 then [] else [str_of_nat file_errors +:+ "个error"]) ++
   (if file_warnings is 0 then [] else [str_of_nat file_warnings +:+ "个warning"]) ++
   (if file_infos is 0 then [] else [str_of_nat file_infos +:+ "个information"]) ++
   (if file_hints is 0 then [] else [str_of_nat file_hints +:+ "个hint"]))%list.

Definition file_heading (file_name summary_text : string) : string :=
  "### 📄 " +:+ file_name +:+ " (" +:+ summary_text +:+ ")".

(** The lines appended for one diagnostic of the file [file_path]. *)
Definition diagnostic_lines (file_path : string) (diagnostic : json)
  : result (list string) :=
  severity_name ← severity_name diagnostic;
  let icon := default "📋" (assoc severity_name SEVERITY_ICONS) in
  start ← dict_get diagnostic "start" (JObj []);
  end_ ← dict_get diagnostic "end" (JObj []);
  line ← dict_get start "line" (JInt 0);
  start_char ← dict_get start "character" (JInt 0);
  end_char ← dict_get end_ "character" (JInt 0);
  message ← dict_get diagnostic "message" (JStr "无");
  source ← dict_get diagnostic "source" JNull;
  source_lines ←
    (if truthy source
     then s ← dict_item diagnostic "source"; Ok ["- **来源**: " +:+ py_str s]
     else Ok []);
  code ← dict_get diagnostic "code" JNull;
  code_lines ←
    (if truthy code
     then c ← dict_item diagnostic "code"; Ok ["- **错误代码**: " +:+ py_str c]
     else Ok []);
  relative ← _relativize file_path;
  Ok (["**第" +:+ py_str line +:+ "行:" +:+ py_str start_char +:+ "-"
         +:+ py_str end_char +:+ "** - " +:+ icon +:+ " " +:+ severity_name;
       "- **消息**: " +:+ py_str message]
      ++ source_lines ++ code_lines
      ++ ["- **文件路径**: `" +:+ relative +:+ "`"; ""])%list.

(** Body of the loop over [data] in [generate_reason_markdown]: the
    lines one file contributes to [detail_lines]. *)
Definition file_lines (file_data : json) : result (list string) :=
  diagnostics ← dict_get file_data "diagnostics" (JArr []);
  if negb (truthy diagnostics) then Ok []
  else
    file_path ← dict_item file_data "file";
    file_path ← path_of file_path;
    let file_name := path_name file_path in
    file_errors ← count_severity 0 diagnostics;
    file_warnings ← count_severity 1 diagnostics;
    file_infos ← count_severity 2 diagnostics;
    file_hints ← count_severity 3 diagnostics;
    let summary_text :=
      join ", " (summary_parts file_errors file_warnings file_infos file_hints) in
    ds ← py_iter diagnostics;
    entries ← mapMr (diagnostic_lines file_path) ds;
    Ok ([file_heading file_name summary_text; ""] ++ concat entries)%list.

Definition detail_lines (data : json) : result (list string) :=
  files ← py_iter data;
  sections ← mapMr file_lines files;
  Ok (concat sections).

Definition header (errors warnings : nat) : list string :=
  ["### 诊断摘要";
   "";
   "- ❌ Error: " +:+ str_of_nat errors;
   "- ⚠️ Warning: " +:+ str_of_nat warnings;
   ""].

End Renderer.

(** ** Effects: the trace of a run *)

(** The program point at which the file system is queried: the
    constructor of [DiagnosticsChecker], the check after the settle
    period, the second resolution, and attempt [i] of the reader. *)
Inductive phase : Type :=
| AtInit
| AtSettle
| AtRelocate
| AtAttempt (i : nat).

Inductive fs_op : Type := OpExists | OpStat | OpRead.

(** A line on standard output: [print(json.dumps(v, ensure_ascii=False))]
    or [print(s)]. *)
Inductive output : Type :=
| OutJson (v : json)
| OutText (s : string).

Inductive event : Type :=
| EvSleep (seconds : nat)
| EvQuery (op : fs_op) (ph : phase) (path : string)
| EvStdout (o : output)
| EvStderr (line : string)
    (** the line the reader prints after its last attempt failed *)
| EvReadFailed (attempt : nat) (e : exn)
    (** the error report [main] prints for an unexpected exception *)
| EvHookException (e : exn).

(** A file-system call returns or raises [OSError], possibly its
    subclass [PermissionError].  Signals are not modelled, so
    [KeyboardInterrupt] is never raised. *)
Inductive os_error : Type := OtherOSError | PermissionDenied.

Inductive sys (A : Type) : Type :=
| SysOk (a : A)
| SysErr (e : os_error).
Arguments SysOk {A} a.
Arguments SysErr {A} e.

Definition of_sys {A : Type} (r : sys A) : result A :=
  match r with
  | SysOk a => Ok a
  | SysErr OtherOSError => Raise OSError
  | SysErr PermissionDenied => Raise PermissionError
  end.

(** Opening the file and reading it as UTF-8 text: the text, an
    [OSError] from [open()] or [read()], or the [UnicodeDecodeError] of
    [read()] on bytes that are not UTF-8 (a file cut inside a character,
    for one). *)
Inductive read_result : Type :=
| ReadText (text : string)
| ReadOSError (e : os_error)
| ReadUndecodable.

Definition of_read (r : read_result) : result string :=
  match r with
  | ReadText text => Ok text
  | ReadOSError e => of_sys (A := string) (SysErr e)
  | ReadUndecodable => Raise UnicodeDecodeError
  end.

(** What the program observes of its surroundings.  The snapshot file is
    written by another process, so every query may see a different
    state. *)
Record world : Type := World {
  (** the three candidate locations of [vscode-diagnostics.json] *)
  w_possible_paths : list string;
  (** [Path.exists()] *)
  w_exists : phase → string → sys bool;
  (** [Path.stat().st_size] in attempt [i] *)
  w_size : nat → string → sys Z;
  (** [open(encoding="utf-8")] followed by [read()] in attempt [i] *)
  w_read : nat → string → read_result;
  (** can standard output encode the line? *)
  w_encodable : output → bool
}.

Definition io (A : Type) : Type := list event * result A.

#[global] Instance io_ret : MRet io := λ _ a, ([], Ok a).
#[global] Instance io_bind : MBind io := λ _ _ f m,
  match m with
  | (t, Ok a) => let '(t', r) := f a in (t ++ t', r)
  | (t, Raise e) => (t, Raise e)
  end.

Definition emit (e : event) : io unit := ([e], Ok tt).
Definition lift {A : Type} (r : result A) : io A := ([], r).
Definition raise {A : Type} (e : exn) : io A := ([], Raise e).

(** [try: body  except ... as e: handler(e)] *)
Definition try_except {A : Type} (body : io A) (handler : exn → io A) : io A :=
  match body with
  | (t, Ok a) => (t, Ok a)
  | (t, Raise e) => let '(t', r) := handler e in (t ++ t', r)
  end.

Definition sleep (seconds : nat) : io unit := emit (EvSleep seconds).

(** ** Locator and retrying reader *)

Record DiagnosticsChecker : Type := Checker {
  diagnostics_file : option string
}.

(** What one iteration of a loop does next. *)
Inductive control (A : Type) : Type :=
| Continue
| Return (a : A).
Arguments Continue {A}.
Arguments Return {A} a.

Section Hook.

Context `{lib : PyLib}.
Variable w : world.

Definition fs_exists (ph : phase) (path : string) : io bool :=
  emit (EvQuery OpExists ph path);; lift (of_sys (w_exists w ph path)).
Definition fs_size (attempt : nat) (path : string) : io Z :=
  emit (EvQuery OpStat (AtAttempt attempt) path);; lift (of_sys (w_size w attempt path)).
Definition fs_read (attempt : nat) (path : string) : io string :=
  emit (EvQuery OpRead (AtAttempt attempt) path);; lift (of_read (w_read w attempt path)).

Definition print (o : output) : io unit :=
  if w_encodable w o then emit (EvStdout o) else raise UnicodeEncodeError.

Fixpoint first_existing (ph : phase) (paths : list string) : io (option string) :=
  match paths with
  | [] => mret None
  | json_file :: rest =>
      ex ← fs_exists ph json_file;
      if ex : bool then mret (Some (path_resolve json_file))
      else first_existing ph rest
  end.

Definition _locate_diagnostics_file (ph : phase) : io (option string) :=
  first_existing ph (w_possible_paths w).

(** [DiagnosticsChecker()] *)
Definition new_checker : io DiagnosticsChecker :=
  f ← _locate_diagnostics_file AtInit;
  mret (Checker f).

(** [except (json.JSONDecodeError, OSError, PermissionError)] *)
Definition caught (e : exn) : bool :=
  match e with
  | JSONDecodeError | OSError | PermissionError => true
  | _ => false
  end.

Definition loads (content : string) : result json :=
  match json_loads content with
  | Loaded v => Ok v
  | NotLoaded NotJson => Raise JSONDecodeError
  | NotLoaded TooDeep => Raise RecursionError
  | NotLoaded TooManyDigits => Raise ValueError
  end.

(** One iteration of the retry loop of [load_diagnostics]. *)
Definition attempt_once (path : string) (attempt : nat) : io (control json) :=
  try_except
    (ex ← fs_exists (AtAttempt attempt) path;
     if negb ex then sleep 1;; mret Continue
     else
       file_size ← fs_size attempt path;
       if (file_size =? 0)%Z then sleep 1;; mret Continue
       else
         raw ← fs_read attempt path;
         let content := py_strip raw in
         if negb (truthy (JStr content)) then sleep 1;; mret Continue
         else data ← lift (loads content); mret (Return data))
    (λ e,
       if caught e then
         if attempt <? 4 then sleep 1;; mret Continue
         else emit (EvReadFailed (attempt + 1) e);; mret Continue
       else raise e).

(** [for attempt in attempts: ...] followed by [return []]. *)
Fixpoint retry (path : string) (attempts : list nat) : io json :=
  match attempts with
  | [] => mret (JArr [])
  | attempt :: rest =>
      c ← attempt_once path attempt;
      match c with
      | Return data => mret data
      | Continue => retry path rest
      end
  end.

Definition load_diagnostics (self : DiagnosticsChecker) : io json :=
  match diagnostics_file self with
  | None => mret (JArr [])
  | Some path => retry path (seq 0 5)
  end.

(** ** Report renderer *)

Definition debug_log (debug_mode : bool) (msg : string) : io unit :=
  if debug_mode then emit (EvStderr ("[DIAG_DEBUG] " +:+ msg)) else mret tt.

(** [generate_reason_markdown] from [data = self.load_diagnostics()] on. *)
Definition render (debug_mode : bool) (data : json) : io (option string) :=
  if negb (truthy data) then
    debug_log debug_mode "诊断数据为空或加载失败";; mret None
  else
    stats ← lift (analyze_statistics data);
    let errors := default 0 (by_severity stats !! "Error") in
    let warnings := default 0 (by_severity stats !! "Warning") in
    debug_log debug_mode
      ("诊断统计: " +:+ str_of_nat errors +:+ "个错误, "
         +:+ str_of_nat warnings +:+ "个警告");;
    if (errors =? 0) && (warnings =? 0) then
      debug_log debug_mode "没有错误或警告，静默退出";; mret None
    else
      debug_log debug_mode "发现问题，生成详细报告";;
      detail_lines ← lift (detail_lines data);
      mret (Some (join nl (header errors warnings ++ detail_lines)%list)).

(** The second resolution after the extra wait. *)
Definition relocate (debug_mode : bool) : io DiagnosticsChecker :=
  debug_log debug_mode "诊断文件不存在，等待2秒后重新定位";;
  sleep 2;;
  f ← _locate_diagnostics_file AtRelocate;
  mret (Checker f).

(** The check after the settle period: without a location, or when
    the file is not there, wait and resolve the location again. *)
Definition settle (self : DiagnosticsChecker) (debug_mode : bool)
  : io DiagnosticsChecker :=
  match diagnostics_file self with
  | None => relocate debug_mode
  | Some path =>
      ex ← fs_exists AtSettle path;
      if ex : bool then mret self else relocate debug_mode
  end.

Definition log_location (self : DiagnosticsChecker) (debug_mode : bool) : io unit :=
  match diagnostics_file self with
  | Some path => debug_log debug_mode ("使用诊断文件: " +:+ path)
  | None => debug_log debug_mode "未找到诊断文件"
  end.

Definition generate_reason_markdown (self : DiagnosticsChecker) (debug_mode : bool)
  : io (option string) :=
  debug_log debug_mode "开始诊断检查";;
  debug_log debug_mode "等待3秒让诊断文件稳定";;
  sleep 3;;
  self ← settle self debug_mode;
  log_location self debug_mode;;
  data ← load_diagnostics self;
  render debug_mode data.

(** ** Dispatch policy *)

(** [if reason_md]: neither [None] nor the empty string. *)
Definition report_present (reason_md : option string) : option string :=
  match reason_md with
  | Some r => if String.eqb r "" then None else Some r
  | None => None
  end.

Definition block_decision (reason_md : string) : json :=
  JObj [("decision", JStr "block"); ("reason", JStr reason_md)].

Definition check_and_report (self : DiagnosticsChecker) (debug_mode : bool)
  : io bool :=
  reason_md ← generate_reason_markdown self debug_mode;
  match report_present reason_md with
  | None => mret false
  | Some reason_md =>
      print (OutJson (block_decision reason_md));;
      mret true
  end.

Definition emphasis : string :=
  "⚠️ 优先级提示" +:+ nl +:+ nl +:+
  "请暂停当前任务与后续输出，先修复以下代码错误/警告，再继续原始任务。" +:+ nl +:+
  "建议执行顺序：" +:+ nl +:+
  "1) 逐个修复下列 Error（阻断项）" +:+ nl +:+
  "2) 处理 Warning（非阻断但建议修复）" +:+ nl +:+
  "3) 重新构建/分析，确认无 Error 后再回答最初的问题。" +:+ nl +:+ nl +:+
  "---" +:+ nl +:+ nl.

Definition additional_context (injected : string) : json :=
  JObj [("hookSpecificOutput",
         JObj [("hookEventName", JStr "UserPromptSubmit");
               ("additionalContext", JStr injected)])].

(** [v == s] for a [str] literal [s]. *)
Definition py_eq_str (v : json) (s : string) : bool :=
  match v with
  | JStr s' => String.eqb s' s
  | _ => false
  end.

(** The [try] block of [main], up to [sys.exit(0)].  [hook_input] is
    the dict [get_hook_input()] returned, [debug_mode] the value both
    branches compute from the arguments and the environment. *)
Definition dispatch (hook_input : json) (debug_mode : bool) : io unit :=
  hook_event_name ← lift (dict_get hook_input "hook_event_name" (JStr "Unknown"));
  if py_eq_str hook_event_name "PostToolUse" then
    checker ← new_checker;
    check_and_report checker debug_mode;;
    mret tt
  else if py_eq_str hook_event_name "UserPromptSubmit" then
    checker ← new_checker;
    reason_md ← generate_reason_markdown checker debug_mode;
    match report_present reason_md with
    | Some reason_md =>
        let injected := emphasis +:+ reason_md in
        print (OutJson (additional_context injected))
    | None => mret tt
    end
  else
    try_except
      (print (OutText (py_str hook_event_name +:+ "：钩子触发")))
      (λ e,
         match e with
         | UnicodeEncodeError =>
             print (OutText (py_str hook_event_name
                               +:+ ": Hook Triggered (Encoding Fallback)"))
         | _ => raise e
         end).

(** [main]: the trace of the run and the exit status of the process. *)
Definition main (hook_input : json) (debug_mode : bool) : list event * Z :=
  match dispatch hook_input debug_mode with
  | (t, Ok _) => (t, 0%Z)
  | (t, Raise KeyboardInterrupt) => (t, 130%Z)
  | (t, Raise e) => (t ++ [EvHookException e], 1%Z)
  end.

End Hook.

(** ** Observations on a trace *)

Definition is_attempt (e : event) : bool :=
  match e with
  | EvQuery OpExists (AtAttempt _) _ => true
  | _ => false
  end.

(** How many iterations of the retry loop were started. *)
Definition attempts_made (t : list event) : nat :=
  length (filter (λ e, is_attempt e = true) t).

(** The total time spent in [time.sleep]. *)
Definition total_sleep (t : list event) : nat :=
  foldr (λ e acc, match e with EvSleep n => n + acc | _ => acc end) 0 t.

(** The lines printed on standard output, in order. *)
Definition stdout_of (t : list event) : list output :=
  omap (λ e, match e with EvStdout o => Some o | _ => None end) t.

(** ** Well-shaped snapshots

    The shape of the input file: an array of file objects, each with a
    string [file] and an array [diagnostics] of objects.  Every field of
    a diagnostic is optional; [severity] may be any scalar, and [start]
    and [end] are objects when present. *)

Definition is_obj (v : json) : bool :=
  match v with
  | JObj _ => true
  | _ => false
  end.

(** The value of the [severity] field, if the entry has one. *)
Definition severity_field (d : json) : option json :=
  match d with
  | JObj kvs => assoc "severity" kvs
  | _ => None
  end.

Definition entry_shaped (d : json) : bool :=
  match d with
  | JObj kvs =>
      hashable (default (JInt 0) (assoc "severity" kvs))
      && is_obj (default (JObj []) (assoc "start" kvs))
      && is_obj (default (JObj []) (assoc "end" kvs))
  | _ => false
  end.

(** The entries of a file object. *)
Definition entries_of (file_data : json) : list json :=
  match file_data with
  | JObj kvs =>
      match default (JArr []) (assoc "diagnostics" kvs) with
      | JArr ds => ds
      | _ => []
      end
  | _ => []
  end.

Definition file_shaped (file_data : json) : bool :=
  match file_data with
  | JObj kvs =>
      match assoc "file" kvs with
      | Some (JStr _) => true
      | _ => false
      end
      && match default (JArr []) (assoc "diagnostics" kvs) with
         | JArr ds => forallb entry_shaped ds
         | _ => false
         end
  | _ => false
  end.

Definition is_snapshot (data : json) : bool :=
  match data with
  | JArr files => forallb file_shaped files
  | _ => false
  end.

(** The files of a snapshot and all its entries, in snapshot order. *)
Definition files_of (data : json) : list json :=
  match data with
  | JArr files => files
  | _ => []
  end.

Definition all_entries (data : json) : list json :=
  concat (entries_of <$> files_of data).

(** The severity label of a code: 0 Error, 1 Warning, 2 Information,
    3 Hint, anything else Unknown. *)
Definition label_of_code (code : json) : string :=
  if py_eq_int code 0 then "Error"
  else if py_eq_int code 1 then "Warning"
  else if py_eq_int code 2 then "Information"
  else if py_eq_int code 3 then "Hint"
  else "Unknown".

(** The label under which an entry is counted: a missing severity
    field stands for code 0. *)
Definition label (d : json) : string :=
  label_of_code (default (JInt 0) (severity_field d)).

(** How many of the entries carry the label [l]. *)
Definition count_label (l : string) (ds : list json) : nat :=
  length (filter (λ d, label d = l) ds).

(** The entry states the severity code [k] itself. *)
Definition states_code (k : Z) (d : json) : bool :=
  match severity_field d with
  | Some v => py_eq_int v k
  | None => false
  end.

Definition count_stated (k : Z) (ds : list json) : nat :=
  length (filter (λ d, states_code k d = true) ds).

(** The file's path, read from a well-shaped file object. *)
Definition file_path_of (file_data : json) : string :=
  match file_data with
  | JObj kvs =>
      match assoc "file" kvs with
      | Some (JStr s) => s
      | _ => ""
      end
  | _ => ""
  end.


(** Two entries are alike up to the severity default: they are equal, or
    one lacks the [severity] field where the other states code 0. *)
Definition missing_or_zero (d d' : json) : Prop :=
  d = d'
  ∨ (severity_field d = None ∧ severity_field d' = Some (JInt 0))
  ∨ (severity_field d = Some (JInt 0) ∧ severity_field d' = None).

(** Two snapshots have the same number of files and, file by file, the
    same number of entries, related pairwise by [R]. *)
Definition entrywise (R : json → json → Prop) (data data' : json) : Prop :=
  Forall2 (λ f f', Forall2 R (entries_of f) (entries_of f'))
          (files_of data) (files_of data').

(** ** How an attempt of the reader ends

    With parsed content, with a wait (the file is absent, empty or
    blank), with an exception the [except] clause of the loop catches,
    or with one it lets out. *)
Inductive attempt_outcome : Type :=
| Parsed (v : json)
| Waits
| Fails (e : exn)
| Escapes (e : exn).

Definition failure (e : exn) : attempt_outcome :=
  if caught e then Fails e else Escapes e.

Definition outcome `{lib : PyLib} (w : world) (path : string) (i : nat)
  : attempt_outcome :=
  match of_sys (w_exists w (AtAttempt i) path) with
  | Raise e => failure e
  | Ok false => Waits
  | Ok true =>
      match of_sys (w_size w i path) with
      | Raise e => failure e
      | Ok size =>
          if (size =? 0)%Z then Waits
          else
            match of_read (w_read w i path) with
            | Raise e => failure e
            | Ok raw =>
                if String.eqb (py_strip raw) "" then Waits
                else
                  match loads (py_strip raw) with
                  | Ok v => Parsed v
                  | Raise e => failure e
                  end
            end
      end
  end.

(** The attempt ends with a wait or a caught exception: the loop goes
    on to the next attempt. *)
Definition goes_on (o : attempt_outcome) : bool :=
  match o with
  | Waits | Fails _ => true
  | _ => false
  end.

(** What the loop does after an attempt, by the outcome of the attempt. *)
Definition next_step (o : attempt_outcome) : result (control json) :=
  match o with
  | Parsed v => Ok (Return v)
  | Waits | Fails _ => Ok Continue
  | Escapes e => Raise e
  end.

(** The file is absent whenever the reader looks. *)
Definition always_absent (w : world) (path : string) : Prop :=
  ∀ i, i < 5 → w_exists w (AtAttempt i) path = SysOk false.

(** At every attempt the file is there and holds text that is not
    JSON. *)
Definition always_unparsable `{lib : PyLib} (w : world) (path : string) : Prop :=
  ∀ i, i < 5 →
    ∃ size raw,
      w_exists w (AtAttempt i) path = SysOk true
      ∧ w_size w i path = SysOk size ∧ size ≠ 0%Z
      ∧ w_read w i path = ReadText raw ∧ py_strip raw ≠ ""
      ∧ json_loads (py_strip raw) = NotLoaded NotJson.

(** Every attempt ends with a wait or a caught exception: the file is
    missing, empty or blank, a file-system call fails, or the text is
    not JSON. *)
Definition never_parses `{lib : PyLib} (w : world) : Prop :=
  ∀ path i, i < 5 → goes_on (outcome w path i) = true.

(** No attempt meets an exception the [except] clause does not name. *)
Definition never_escapes `{lib : PyLib} (w : world) : Prop :=
  ∀ path i e, i < 5 → outcome w path i ≠ Escapes e.

(** Resolving the path does not fail with a symlink loop. *)
Definition resolves `{lib : PyLib} (file_path : string) : bool :=
  match resolve_fails file_path with
  | Some SymlinkLoop => false
  | _ => true
  end.

(** The paths of the files that list diagnostics resolve. *)
Definition paths_resolve `{lib : PyLib} (data : json) : bool :=
  forallb (λ f, match entries_of f with
                | [] => true
                | _ => resolves (file_path_of f)
                end) (files_of data).

(** Whatever an attempt parses is a well-shaped snapshot whose paths
    resolve. *)
Definition parses_snapshots `{lib : PyLib} (w : world) : Prop :=
  ∀ path i v, i < 5 → outcome w path i = Parsed v →
              is_snapshot v = true ∧ paths_resolve v = true.

(** Outside the retry loop [Path.exists()] answers without raising. *)
Definition locator_answers (w : world) : Prop :=
  ∀ ph path, (∀ i, ph ≠ AtAttempt i) → ∃ b, w_exists w ph path = SysOk b.

(** The hook was triggered by one of the two events that read the
    diagnostics. *)
Definition event_name (hook_input : json) : result json :=
  dict_get hook_input "hook_event_name" (JStr "Unknown").

Definition diagnostics_event (hook_input : json) : Prop :=
  event_name hook_input = Ok (JStr "PostToolUse")
  ∨ event_name hook_input = Ok (JStr "UserPromptSubmit").

(** The last event of a trace. *)
Definition last_event (t : list event) : option event := last t.

(** ** Sample inputs *)

Module Demo.

(** The last component of a POSIX path. *)
Fixpoint basename_from (acc s : string) : string :=
  match s with
  | EmptyString => acc
  | String c rest =>
      if Ascii.eqb c "/"%char then basename_from rest rest
      else basename_from acc rest
  end.

Definition strip_prefix (p s : string) : option string :=
  if String.prefix p s
  then Some (String.substring (String.length p) (String.length s - String.length p) s)
  else None.

Definition dq : string := String "034"%char EmptyString.
Definition quoted (s : string) : string := dq +:+ s +:+ dq.

(** Scenario A of the specification: one Error in [/proj/a.py]. *)
Definition scenario_a : json :=
  JArr [JObj [("file", JStr "/proj/a.py");
              ("diagnostics",
               JArr [JObj [("severity", JInt 0);
                           ("message", JStr "bad syntax");
                           ("start", JObj [("line", JInt 3); ("character", JInt 1)]);
                           ("end", JObj [("line", JInt 3); ("character", JInt 5)])]])]].

Definition scenario_a_text : string :=
  "[{" +:+ quoted "file" +:+ ": " +:+ quoted "/proj/a.py" +:+ ", "
    +:+ quoted "diagnostics" +:+ ": [{" +:+ quoted "severity" +:+ ":0,"
    +:+ quoted "message" +:+ ":" +:+ quoted "bad syntax" +:+ ","
    +:+ quoted "start" +:+ ":{" +:+ quoted "line" +:+ ":3,"
    +:+ quoted "character" +:+ ":1}," +:+ quoted "end" +:+ ":{"
    +:+ quoted "line" +:+ ":3," +:+ quoted "character" +:+ ":5}}]}]".

(** Scenario B: one Information entry. *)
Definition scenario_b : json :=
  JArr [JObj [("file", JStr "/proj/b.py");
              ("diagnostics",
               JArr [JObj [("severity", JInt 2); ("message", JStr "note")]])]].

(** A file whose only entry has no [severity] field. *)
Definition no_severity_entry : json := JObj [("message", JStr "m")].
Definition no_severity_file : json :=
  JObj [("file", JStr "/proj/c.py"); ("diagnostics", JArr [no_severity_entry])].
Definition no_severity : json := JArr [no_severity_file].


(** The same file with the severity of the entry written out as 0. *)
Definition zero_severity : json :=
  JArr [JObj [("file", JStr "/proj/c.py");
              ("diagnostics",
               JArr [JObj [("severity", JInt 0); ("message", JStr "m")]])]].

(** A file object without the [file] field, with an Error entry. *)
Definition no_file_field : json :=
  JArr [JObj [("diagnostics", JArr [JObj [("severity", JInt 0)]])]].
Definition no_file_field_text : string :=
  "[{" +:+ quoted "diagnostics" +:+ ": [{" +:+ quoted "severity" +:+ ": 0}]}]".

(** [json.loads] on the sample texts; every other text is rejected. *)
Definition sample_texts : list (string * json) :=
  [("[]", JArr []);
   (scenario_a_text, scenario_a);
   (quoted "abc", JStr "abc");
   ("5", JInt 5);
   (no_file_field_text, no_file_field)].

Definition lib : PyLib := {|
  py_repr := λ _, "";
  path_name := λ s, basename_from s s;
  path_resolve := λ s, s;
  resolve_fails := λ _, None;
  relative_to_root := strip_prefix "/proj/";
  py_strip := λ s, s;
  json_loads := λ s,
    match assoc s sample_texts with
    | Some v => Loaded v
    | None => NotLoaded NotJson
    end
|}.

(** The same library on a file system where every path of the snapshot
    runs into a loop of symbolic links. *)
Definition lib_looping : PyLib := {|
  py_repr := λ _, "";
  path_name := λ s, basename_from s s;
  path_resolve := λ s, s;
  resolve_fails := λ _, Some SymlinkLoop;
  relative_to_root := strip_prefix "/proj/";
  py_strip := λ s, s;
  json_loads := λ s,
    match assoc s sample_texts with
    | Some v => Loaded v
    | None => NotLoaded NotJson
    end
|}.

Definition snapshot_path : string := "/proj/vscode-diagnostics.json".

(** The snapshot file holds [content] from attempt [from] on and is
    absent before; the console encodes everything. *)
Definition world_with (from : nat) (content : string) : world := {|
  w_possible_paths := [snapshot_path];
  w_exists := λ ph _,
    match ph with
    | AtAttempt i => SysOk (from <=? i)
    | _ => SysOk true
    end;
  w_size := λ _ _, SysOk (Z.of_nat (String.length content));
  w_read := λ _ _, ReadText content;
  w_encodable := λ _, true
|}.

(** The snapshot file is there, and its bytes are not UTF-8. *)
Definition world_undecodable : world := {|
  w_possible_paths := [snapshot_path];
  w_exists := λ _ _, SysOk true;
  w_size := λ _ _, SysOk 3%Z;
  w_read := λ _ _, ReadUndecodable;
  w_encodable := λ _, true
|}.

(** The snapshot file holds [content]; the console encodes nothing. *)
Definition world_mute (content : string) : world := {|
  w_possible_paths := [snapshot_path];
  w_exists := λ _ _, SysOk true;
  w_size := λ _ _, SysOk (Z.of_nat (String.length content));
  w_read := λ _ _, ReadText content;
  w_encodable := λ _, false
|}.

(** The snapshot file never exists. *)
Definition world_absent : world := {|
  w_possible_paths := [snapshot_path];
  w_exists := λ _ _, SysOk false;
  w_size := λ _ _, SysErr OtherOSError;
  w_read := λ _ _, ReadOSError OtherOSError;
  w_encodable := λ _, true
|}.

Definition checker : DiagnosticsChecker := Checker (Some snapshot_path).

Definition post_tool_use : json := JObj [("hook_event_name", JStr "PostToolUse")].
Definition user_prompt_submit : json :=
  JObj [("hook_event_name", JStr "UserPromptSubmit")].

End Demo.

(** ** Path normalisation of the hook payload

    [normalize_paths_in_json] rewrites, in the text read from standard
    input, every double-quoted Windows drive path and every
    double-quoted UNC path with forward slashes.  Bytes stand for
    characters: the patterns name ASCII characters only, and no byte of
    a multi-byte UTF-8 character is ASCII. *)

Definition backslash : ascii := "092"%char.
Definition dquote : ascii := "034"%char.
Definition slash : ascii := "/"%char.

(** The character class [[A-Za-z]]. *)
Definition is_letter (c : ascii) : bool :=
  let n := nat_of_ascii c in
  ((65 <=? n) && (n <=? 90)) || ((97 <=? n) && (n <=? 122)).

(** [s] without its prefix [p], when [p] is a prefix of [s]. *)
Fixpoint strip_prefix (p s : string) : option string :=
  match p, s with
  | EmptyString, _ => Some s
  | String a p', String b s' => if Ascii.eqb a b then strip_prefix p' s' else None
  | String _ _, EmptyString => None
  end.

(** [s.replace(old, new)] for a non-empty [old]: the occurrences of
    [old] are found from left to right and do not overlap.  Every step
    consumes a character, so the length of [s] is enough fuel. *)
Fixpoint replace_fuel (fuel : nat) (old new s : string) : string :=
  match fuel with
  | 0 => s
  | S fuel' =>
      match strip_prefix old s with
      | Some rest => new +:+ replace_fuel fuel' old new rest
      | None =>
          match s with
          | EmptyString => EmptyString
          | String c rest => String c (replace_fuel fuel' old new rest)
          end
      end
  end.

Definition py_replace (old new s : string) : string :=
  replace_fuel (String.length s) old new s.

(** The characters before the first double quote of [s], and the text
    after that quote: what [[^"]*"] matches at the start of [s]. *)
Fixpoint until_quote (s : string) : option (string * string) :=
  match s with
  | EmptyString => None
  | String c rest =>
      if Ascii.eqb c dquote then Some (EmptyString, rest)
      else
        match until_quote rest with
        | Some (body, after) => Some (String c body, after)
        | None => None
        end
  end.

(** A match of [windows_path_pattern] at the start of [s]: group 1 and
    the text after the match. *)
Definition match_windows_path (s : string) : option (string * string) :=
  match s with
  | String q (String c (String colon (String b1 (String b2 rest)))) =>
      if Ascii.eqb q dquote && is_letter c && Ascii.eqb colon ":"%char
         && Ascii.eqb b1 backslash && Ascii.eqb b2 backslash
      then
        match until_quote rest with
        | Some (body, after) =>
            Some (String c (String colon (String b1 (String b2 body))), after)
        | None => None
        end
      else None
  | _ => None
  end.

(** A match of [unc_pattern] at the start of [s]. *)
Definition match_unc_path (s : string) : option (string * string) :=
  match s with
  | String q (String b1 (String b2 (String b3 (String b4 rest)))) =>
      if Ascii.eqb q dquote && Ascii.eqb b1 backslash && Ascii.eqb b2 backslash
         && Ascii.eqb b3 backslash && Ascii.eqb b4 backslash
      then
        match until_quote rest with
        | Some (body, after) =>
            Some (String b1 (String b2 (String b3 (String b4 body))), after)
        | None => None
        end
      else None
  | _ => None
  end.

(** [re.sub(pattern, repl, s)] for a pattern that matches no empty
    text: [match_at] gives the match at the start of a text, the search
    goes on after each match. *)
Fixpoint re_sub_fuel (fuel : nat) (match_at : string → option (string * string))
    (repl : string → string) (s : string) : string :=
  match fuel with
  | 0 => s
  | S fuel' =>
      match match_at s with
      | Some (group, after) => repl group +:+ re_sub_fuel fuel' match_at repl after
      | None =>
          match s with
          | EmptyString => EmptyString
          | String c rest => String c (re_sub_fuel fuel' match_at repl rest)
          end
      end
  end.

Definition re_sub (match_at : string → option (string * string))
    (repl : string → string) (s : string) : string :=
  re_sub_fuel (String.length s) match_at repl s.

Definition quote_text (s : string) : string :=
  String dquote s +:+ String dquote EmptyString.

Definition bs1 : string := String backslash EmptyString.
Definition bs2 : string := bs1 +:+ bs1.
Definition bs4 : string := bs2 +:+ bs2.

Definition replace_path (path : string) : string :=
  let normalized_path := py_replace bs2 "/" path in
  let normalized_path := py_replace bs1 "/" normalized_path in
  quote_text normalized_path.

Definition replace_unc_path (path : string) : string :=
  let normalized_path := py_replace bs4 "//" path in
  let normalized_path := py_replace bs2 "/" normalized_path in
  let normalized_path := py_replace bs1 "/" normalized_path in
  quote_text normalized_path.

Definition normalize_paths_in_json (json_text : string) : string :=
  let normalized_text := re_sub match_windows_path replace_path json_text in
  re_sub match_unc_path replace_unc_path normalized_text.

(** ** Resolving the hook event *)

(** What [get_hook_input] reads: the parsed arguments, the environment,
    standard input and the marks of a Claude session.  The texts are
    those the debug lines print with [str]. *)
Inductive stdin_state : Type :=
  (** [sys.stdin.isatty()] is true *)
| StdinTty
  (** [sys.stdin.read()] returns the text *)
| StdinPiped (content : string)
  (** [isatty] or [read] raises an exception, printed as [text] *)
| StdinError (text : string).

Record hook_sources : Type := HookSources {
  args_event : option string;
  args_debug : bool;
  argv_text : string;
  env_hook_event : option string;
  stdin : stdin_state;
  (** [str(e)] of the decode error, when the payload does not parse *)
  decode_error_text : string;
  env_project_dir : option string;
  env_user_id : option string;
  env_session_id : option string;
  script_in_claude_dir : bool;
  argv_mentions_claude : bool;
  (** [str] of the list of the indicators that hold *)
  indicators_text : string
}.

(** [if s]: a string that is there and not empty. *)
Definition present (s : option string) : option string :=
  match s with
  | Some v => if String.eqb v "" then None else Some v
  | None => None
  end.

Definition event_dict (name : string) : json :=
  JObj [("hook_event_name", JStr name)].

(** The truth value of an environment variable: set and not empty. *)
Definition has_text (s : option string) : bool :=
  match present s with
  | Some _ => true
  | None => false
  end.

(** [any(claude_indicators)] *)
Definition any_indicator (src : hook_sources) : bool :=
  has_text (env_project_dir src)
  || has_text (env_user_id src)
  || has_text (env_session_id src)
  || script_in_claude_dir src
  || argv_mentions_claude src.

Section HookInput.

Context `{lib : PyLib}.
Variable src : hook_sources.

(** The [debug_log] of [get_hook_input]. *)
Definition hook_debug (msg : string) : io unit :=
  if args_debug src then emit (EvStderr ("[DEBUG] " +:+ msg)) else mret tt.

(** The [try] block that reads standard input: [Some data] when the
    function returns the parsed payload. *)
Definition read_stdin : io (option json) :=
  hook_debug "尝试从stdin读取输入";;
  match stdin src with
  | StdinError text =>
      hook_debug ("stdin读取异常: " +:+ text);; mret None
  | StdinTty =>
      hook_debug "检测到交互式终端，没有stdin管道输入";; mret None
  | StdinPiped content =>
      let input_data := py_strip content in
      hook_debug ("从stdin读取到数据长度: "
                    +:+ str_of_nat (length (utf8_chars input_data)));;
      if String.eqb input_data "" then mret None
      else
        let normalized_input := normalize_paths_in_json input_data in
        match loads normalized_input with
        | Ok data =>
            hook_debug ("成功解析JSON: " +:+ py_str data);; mret (Some data)
        | Raise JSONDecodeError =>
            hook_debug ("JSON解析失败: " +:+ decode_error_text src);; mret None
        | Raise _ =>
            hook_debug ("stdin读取异常: " +:+ decode_error_text src);; mret None
        end
  end.

(** The default when no source names an event. *)
Definition default_event : io json :=
  if any_indicator src then
    hook_debug ("检测到Claude环境指标: " +:+ indicators_text src);;
    hook_debug "使用默认PostToolUse事件";;
    mret (event_dict "PostToolUse")
  else
    hook_debug "所有输入方法都失败，使用Unknown事件";;
    mret (event_dict "Unknown").

Definition get_hook_input : io json :=
  hook_debug ("脚本启动，参数: " +:+ argv_text src);;
  match present (args_event src) with
  | Some event =>
      hook_debug ("使用命令行参数事件: " +:+ event);; mret (event_dict event)
  | None =>
      match present (env_hook_event src) with
      | Some env_event =>
          hook_debug ("使用环境变量事件: " +:+ env_event);;
          mret (event_dict env_event)
      | None =>
          payload ← read_stdin;
          match payload with
          | Some data => mret data
          | None => default_event
          end
      end
  end.

(** [main()] as a whole: the sources are resolved inside the [try] of
    [main], then the event is dispatched. *)
Definition run_main (w : world) (debug_mode : bool) : list event * Z :=
  match get_hook_input with
  | (t, Ok hook_input) =>
      let '(t', status) := main w hook_input debug_mode in (t ++ t', status)
  | (t, Raise KeyboardInterrupt) => (t, 130%Z)
  | (t, Raise e) => (t ++ [EvHookException e], 1%Z)
  end.

End HookInput.

(** ** Further observations on runs *)

(** A string without its slashes of either kind. *)
Fixpoint erase_slashes (s : string) : string :=
  match s with
  | EmptyString => EmptyString
  | String c rest =>
      if Ascii.eqb c backslash || Ascii.eqb c slash then erase_slashes rest
      else String c (erase_slashes rest)
  end.

(** Does the string hold the character? *)
Fixpoint has_char (c : ascii) (s : string) : bool :=
  match s with
  | EmptyString => false
  | String c' rest => Ascii.eqb c' c || has_char c rest
  end.

(** The failure lines of the reader in a trace. *)
Definition read_failures (t : list event) : list (nat * exn) :=
  omap (λ e, match e with EvReadFailed n x => Some (n, x) | _ => None end) t.

(** The queries to the file system in a trace. *)
Definition is_query (e : event) : bool :=
  match e with
  | EvQuery _ _ _ => true
  | _ => false
  end.

Definition fs_queries (t : list event) : list event :=
  filter (λ e, is_query e = true) t.

(** The debug lines of a trace, and the trace without them. *)
Definition is_debug_line (e : event) : bool :=
  match e with
  | EvStderr _ => true
  | _ => false
  end.

Definition without_debug (t : list event) : list event :=
  filter (λ e, is_debug_line e = false) t.

(** Every candidate location is absent when the locator looks. *)
Definition nothing_located (w : world) (ph : phase) : Prop :=
  ∀ path, In path (w_possible_paths w) → w_exists w ph path = SysOk false.

(** The number of entries of a list that lack the severity field. *)
Definition count_unstated (ds : list json) : nat :=
  length (filter (λ d, severity_field d = None) ds).

(** The file object lists no diagnostics. *)
Definition no_diagnostics (file_data : json) : Prop :=
  ∃ kvs, file_data = JObj kvs
         ∧ (assoc "diagnostics" kvs = None ∨ assoc "diagnostics" kvs = Some (JArr [])).

(** Two runs agree on their result and on their traces apart from the
    debug lines. *)
Definition same_but_debug {A : Type} (m m' : io A) : Prop :=
  m.2 = m'.2 ∧ without_debug m.1 = without_debug m'.1.

(** The event name is none of the two that read the diagnostics. *)
Definition other_event (name : json) : Prop :=
  py_eq_str name "PostToolUse" = false ∧ py_eq_str name "UserPromptSubmit" = false.

(** The two lines [main] may print for another event. *)
Definition echo_line `{lib : PyLib} (name : json) : output :=
  OutText (py_str name +:+ "：钩子触发").
Definition echo_fallback_line `{lib : PyLib} (name : json) : output :=
  OutText (py_str name +:+ ": Hook Triggered (Encoding Fallback)").

(** A world in which the snapshot file is there when the checker is
    built and at the second resolution, but not after the settle period
    and at no attempt of the reader. *)
Definition world_flicker : world := {|
  w_possible_paths := [Demo.snapshot_path];
  w_exists := λ ph _,
    match ph with
    | AtInit | AtRelocate => SysOk true
    | _ => SysOk false
    end;
  w_size := λ _ _, SysErr OtherOSError;
  w_read := λ _ _, ReadOSError OtherOSError;
  w_encodable := λ _, true
|}.


(** The hook input names its event through the command line or, when
    the command line names none, through the environment. *)
Definition names_event (src : hook_sources) (event : string) : Prop :=
  present (args_event src) = Some event
  ∨ (present (args_event src) = None ∧ present (env_hook_event src) = Some event).

Definition unnamed (src : hook_sources) : Prop :=
  present (args_event src) = None ∧ present (env_hook_event src) = None.

(** Standard input hands over no payload: it is a terminal, reading it
    fails, it is blank, or its text does not parse. *)
Definition no_payload `{lib : PyLib} (src : hook_sources) : Prop :=
  match stdin src with
  | StdinPiped content =>
      py_strip content = ""
      ∨ ∃ why, json_loads (normalize_paths_in_json (py_strip content)) = NotLoaded why
  | _ => True
  end.

(** Standard input holds text that parses to [data] once its Windows
    paths are normalised. *)
Definition stdin_payload `{lib : PyLib} (src : hook_sources) (data : json) : Prop :=
  ∃ content,
    stdin src = StdinPiped content
    ∧ py_strip content ≠ ""
    ∧ json_loads (normalize_paths_in_json (py_strip content)) = Loaded data.

Definition is_object (v : json) : bool :=
  match v with
  | JObj _ => true
  | _ => false
  end.

(** Sample sources: nothing but a terminal, and a pipe with [content]. *)
Definition sources_with (event env_event : option string) (input : stdin_state)
    (project_dir : option string) : hook_sources := {|
  args_event := event;
  args_debug := true;
  argv_text := "['diagnostics_parser.py', '--debug']";
  env_hook_event := env_event;
  stdin := input;
  decode_error_text := "Expecting value: line 1 column 1 (char 0)";
  env_project_dir := project_dir;
  env_user_id := None;
  env_session_id := None;
  script_in_claude_dir := false;
  argv_mentions_claude := false;
  indicators_text := "[]"
|}.

(** A payload that names the event [Stop], and a library that parses it. *)
Definition stop_text : string :=
  "{" +:+ Demo.quoted "hook_event_name" +:+ ": " +:+ Demo.quoted "Stop" +:+ "}".

Definition stdin_lib : PyLib := {|
  py_repr := λ _, "";
  path_name := λ s, s;
  path_resolve := λ s, s;
  resolve_fails := λ _, None;
  relative_to_root := λ _, None;
  py_strip := λ s, s;
  json_loads := λ s,
    if String.eqb s stop_text then Loaded (event_dict "Stop")
    else NotLoaded NotJson
|}.

(** The sum of the counts of a counter. *)
Definition sum_counts (c : gmap string nat) : nat :=
  map_fold (λ _ n acc, n + acc) 0 c.

(** The statistics with one more file and the same entries. *)
Definition one_more_file (s : stats) : stats :=
  Stats (total_files s + 1) (total_diagnostics s) (by_severity s).
(** * Properties *)

(** ** Statistics aggregator *)

Lemma severity_lookup (v : json) :
  default "Unknown" (snd <$> find (λ kv : Z * string, py_eq_int v kv.1) SEVERITY_MAP)
  = label_of_code v.
Proof.
  unfold label_of_code, SEVERITY_MAP. simpl.
  repeat case_match; simpl in *; try done; congruence.
Qed.

Lemma severity_name_label (d : json) :
  entry_shaped d = true → severity_name d = Ok (label d).
Proof.
  destruct d as [| | | | | |kvs]; try done. simpl.
  intros [[Hh _]%andb_prop _]%andb_prop.
  unfold severity_name, label, int_dict_get, severity_field, dict_get.
  cbn [mbind result_bind]. rewrite Hh. by rewrite severity_lookup.
Qed.

Lemma count_diag_shaped (c : gmap string nat) (d : json) :
  entry_shaped d = true → count_diag c d = Ok (counter_incr (label d) c).
Proof. intros Hd. unfold count_diag. by rewrite (severity_name_label d Hd). Qed.

(** The counter after counting the entries [ds] into [c]. *)
Lemma count_entries (ds : list json) (c : gmap string nat) :
  forallb entry_shaped ds = true →
  foldlM count_diag c ds = Ok (foldl (λ c d, counter_incr (label d) c) c ds).
Proof.
  revert c. induction ds as [|d ds IH]; intros c; cbn [foldlM forallb]; [done|].
  intros [Hd Hds]%andb_prop.
  rewrite (count_diag_shaped c d Hd). cbn [mbind result_bind foldl]. by apply IH.
Qed.

Lemma count_file_shaped (acc : stats) (f : json) :
  file_shaped f = true →
  count_file acc f =
    Ok (Stats (total_files acc + 1)
              (total_diagnostics acc + length (entries_of f))
              (foldl (λ c d, counter_incr (label d) c) (by_severity acc) (entries_of f))).
Proof.
  destruct f as [| | | | | |kvs]; try done.
  cbn [file_shaped entries_of]. intros [_ Hds]%andb_prop.
  unfold count_file, dict_get. cbn [mbind result_bind].
  destruct (default (JArr []) (assoc "diagnostics" kvs)) as [| | | | |ds|]; try done.
  cbn [py_len py_iter mbind result_bind].
  by rewrite (count_entries ds _ Hds).
Qed.

Lemma sum_list_cons (n : nat) (ns : list nat) :
  sum_list (n :: ns) = n + sum_list ns.
Proof. done. Qed.

Lemma count_files_shaped (files : list json) (acc : stats) :
  forallb file_shaped files = true →
  foldlM count_file acc files =
    Ok (Stats (total_files acc + length files)
              (total_diagnostics acc + sum_list ((λ f, length (entries_of f)) <$> files))
              (foldl (λ c d, counter_incr (label d) c) (by_severity acc)
                     (concat (entries_of <$> files)))).
Proof.
  revert acc. induction files as [|f files IH]; intros acc; cbn [foldlM forallb].
  - intros _. destruct acc; simpl. by rewrite !Nat.add_0_r.
  - intros [Hf Hfs]%andb_prop. rewrite (count_file_shaped acc f Hf).
    cbn [mbind result_bind]. rewrite (IH _ Hfs).
    cbn [total_files total_diagnostics by_severity].
    f_equal. rewrite !fmap_cons, sum_list_cons. cbn [length concat].
    rewrite foldl_app. f_equal; lia.
Qed.

Lemma analyze_snapshot (data : json) :
  is_snapshot data = true →
  analyze_statistics data =
    Ok (Stats (length (files_of data))
              (sum_list ((λ f, length (entries_of f)) <$> files_of data))
              (foldl (λ c d, counter_incr (label d) c) ∅ (all_entries data))).
Proof.
  destruct data as [| | | | |files|]; try done. cbn [is_snapshot]. intros H.
  unfold analyze_statistics. cbn [py_iter mbind result_bind].
  by rewrite (count_files_shaped files _ H).
Qed.

Lemma count_label_cons (l : string) (d : json) (ds : list json) :
  count_label l (d :: ds) = (if decide (label d = l) then 1 else 0) + count_label l ds.
Proof. unfold count_label. rewrite filter_cons. by case_decide. Qed.

Lemma tally_from_lookup (ds : list json) (c : gmap string nat) (l : string) :
  foldl (λ c d, counter_incr (label d) c) c ds !! l =
    if decide (count_label l ds = 0) then c !! l
    else Some (counter_get c l + count_label l ds).
Proof.
  revert c. induction ds as [|d ds IH]; intros c.
  - done.
  - cbn [foldl]. rewrite IH, count_label_cons.
    unfold counter_incr, counter_get.
    destruct (decide (label d = l)) as [->|Hne].
    + rewrite lookup_insert_eq. repeat case_decide; try lia; simpl; f_equal; lia.
    + rewrite lookup_insert_ne by done. repeat case_decide; try lia; done.
Qed.

Lemma tally_lookup (ds : list json) (l : string) :
  foldl (λ c d, counter_incr (label d) c) ∅ ds !! l =
    if decide (count_label l ds = 0) then None else Some (count_label l ds).
Proof. rewrite tally_from_lookup, lookup_empty. by case_decide. Qed.

Lemma tally_get (ds : list json) (l : string) :
  counter_get (foldl (λ c d, counter_incr (label d) c) ∅ ds) l = count_label l ds.
Proof. unfold counter_get. rewrite tally_lookup. by case_decide. Qed.

Lemma count_label_perm (l : string) (ds ds' : list json) :
  ds ≡ₚ ds' → count_label l ds = count_label l ds'.
Proof. intros H. unfold count_label. by rewrite H. Qed.

Lemma tally_perm (ds ds' : list json) :
  ds ≡ₚ ds' →
  foldl (λ c d, counter_incr (label d) c) ∅ ds
  = foldl (λ c d, counter_incr (label d) c) ∅ ds'.
Proof.
  intros H. apply map_eq. intros l.
  by rewrite !tally_lookup, (count_label_perm l ds ds' H).
Qed.

Lemma all_entries_perm (files files' : list json) :
  files ≡ₚ files' → all_entries (JArr files) ≡ₚ all_entries (JArr files').
Proof. intros H. unfold all_entries. cbn [files_of]. by rewrite H. Qed.

Lemma is_snapshot_perm (files files' : list json) :
  files ≡ₚ files' → is_snapshot (JArr files) = true → is_snapshot (JArr files') = true.
Proof.
  intros H. cbn [is_snapshot]. rewrite !forallb_forall.
  intros Hall f Hf. apply Hall. apply list_elem_of_In. rewrite H. by apply list_elem_of_In.
Qed.

Lemma label_missing_or_zero (d d' : json) :
  missing_or_zero d d' → label d = label d'.
Proof.
  unfold label. intros [->|[[-> ->]|[-> ->]]]; done.
Qed.

Lemma count_label_alike (l : string) (ds ds' : list json) :
  Forall2 missing_or_zero ds ds' → count_label l ds = count_label l ds'.
Proof.
  induction 1 as [|d d' ds ds' Hd _ IH]; [done|].
  by rewrite !count_label_cons, (label_missing_or_zero d d' Hd), IH.
Qed.

Lemma count_label_app (l : string) (ds ds' : list json) :
  count_label l (ds ++ ds') = count_label l ds + count_label l ds'.
Proof. unfold count_label. by rewrite filter_app, length_app. Qed.

Lemma entrywise_alike (data data' : json) :
  entrywise missing_or_zero data data' →
  length (files_of data) = length (files_of data')
  ∧ sum_list ((λ f, length (entries_of f)) <$> files_of data)
    = sum_list ((λ f, length (entries_of f)) <$> files_of data')
  ∧ ∀ l, count_label l (all_entries data) = count_label l (all_entries data').
Proof.
  unfold entrywise, all_entries.
  induction 1 as [|f f' fs fs' Hf _ (IH1 & IH2 & IH3)]; [done|].
  rewrite !fmap_cons, !sum_list_cons. cbn [length concat].
  split_and!.
  - by rewrite IH1.
  - by rewrite (Forall2_length _ _ _ Hf), IH2.
  - intros l. by rewrite !count_label_app, (count_label_alike l _ _ Hf), IH3.
Qed.

Lemma file_entries_shaped (f : json) :
  file_shaped f = true → forallb entry_shaped (entries_of f) = true.
Proof.
  destruct f as [| | | | | |kvs]; try done. cbn [file_shaped entries_of].
  intros [_ H]%andb_prop.
  by destruct (default (JArr []) (assoc "diagnostics" kvs)).
Qed.

Lemma snapshot_entries_shaped (data : json) :
  is_snapshot data = true → forallb entry_shaped (all_entries data) = true.
Proof.
  destruct data as [| | | | |files|]; try done. unfold all_entries.
  cbn [is_snapshot files_of]. induction files as [|f files IH]; [done|].
  cbn [forallb]. intros [Hf Hfs]%andb_prop.
  rewrite fmap_cons. cbn [concat]. rewrite forallb_app.
  by rewrite (file_entries_shaped f Hf), (IH Hfs).
Qed.

Lemma label_error (d : json) :
  label d = "Error" ↔ severity_field d = None ∨ states_code 0 d = true.
Proof.
  unfold label, states_code. destruct (severity_field d) as [v|]; cbn [default from_option id].
  - unfold label_of_code. split.
    + destruct (py_eq_int v 0); [by right|].
      by destruct (py_eq_int v 1), (py_eq_int v 2), (py_eq_int v 3).
    + intros [H| ->]; done.
  - split; [by left | done].
Qed.

Lemma count_label_error (ds : list json) :
  count_label "Error" ds = count_stated 0 ds + count_unstated ds.
Proof.
  unfold count_stated, count_unstated. induction ds as [|d ds IH]; [done|].
  rewrite count_label_cons, !filter_cons, IH.
  pose proof (label_error d) as Hd. unfold states_code in *.
  destruct (severity_field d) as [v|] eqn:Hv.
  - destruct (py_eq_int v 0) eqn:Hz; repeat case_decide; cbn [length];
      try lia; try done; exfalso; intuition congruence.
  - repeat case_decide; cbn [length]; try lia; try done; exfalso; intuition congruence.
Qed.

(** C4: counting an entry without the severity field, like counting one
    that states severity 0, raises the count of the label Error by one
    and leaves every other label as it is; two snapshots that differ
    only in that entries lacking the field in one state severity 0 in
    the other have the same statistics; and the Error count of a
    snapshot is the number of its entries that state code 0 plus the
    number of those that lack the field. *)
Theorem C4_missing_severity_is_error (data data' : json) :
  is_snapshot data = true →
  is_snapshot data' = true →
  entrywise missing_or_zero data data' →
  (∀ d, In d (all_entries data ++ all_entries data') →
        severity_field d = None ∨ severity_field d = Some (JInt 0) →
        ∀ c, ∃ c', count_diag c d = Ok c'
                   ∧ c' !! "Error" = Some (default 0 (c !! "Error") + 1)
                   ∧ ∀ l, l ≠ "Error" → c' !! l = c !! l)
  ∧ analyze_statistics data = analyze_statistics data'
  ∧ ∃ s, analyze_statistics data = Ok s
         ∧ default 0 (by_severity s !! "Error")
           = count_stated 0 (all_entries data) + count_unstated (all_entries data).
Proof.
  intros Hs Hs' Hrel. split; [|split].
  - intros d Hin Hsev c.
    assert (entry_shaped d = true) as Hd.
    { apply in_app_or in Hin as [Hin|Hin];
        [apply snapshot_entries_shaped in Hs as H
        |apply snapshot_entries_shaped in Hs' as H];
        rewrite forallb_forall in H; by apply H. }
    rewrite (count_diag_shaped c d Hd).
    assert (label d = "Error") as -> by (unfold label; by destruct Hsev as [-> | ->]).
    eexists. split; [reflexivity|]. unfold counter_incr, counter_get. split.
    + by rewrite lookup_insert_eq.
    + intros l Hl. by rewrite lookup_insert_ne.
  - rewrite (analyze_snapshot data Hs), (analyze_snapshot data' Hs').
    destruct (entrywise_alike data data' Hrel) as (H1 & H2 & H3).
    rewrite H1, H2. do 2 f_equal. apply map_eq. intros l.
    by rewrite !tally_lookup, H3.
  - eexists. split; [exact (analyze_snapshot data Hs)|]. cbn [by_severity].
    rewrite <- count_label_error. apply tally_get.
Qed.

Lemma C4_witness :
  (∃ c', count_diag ∅ Demo.no_severity_entry = Ok c' ∧ c' !! "Error" = Some 1)
  ∧ analyze_statistics Demo.no_severity = analyze_statistics Demo.zero_severity
  ∧ ∃ s, analyze_statistics Demo.no_severity = Ok s
         ∧ default 0 (by_severity s !! "Error") = 0 + 1.
Proof.
  destruct (C4_missing_severity_is_error Demo.no_severity Demo.zero_severity)
    as (Hentry & Hstats & Herror).
  - reflexivity.
  - reflexivity.
  - unfold entrywise. cbn.
    constructor; [|constructor]. constructor; [|constructor].
    right. left. split; reflexivity.
  - split; [|split; [exact Hstats | exact Herror]].
    destruct (Hentry Demo.no_severity_entry) with (c := (∅ : gmap string nat))
      as (c' & Hc & He & _); [simpl; tauto | left; reflexivity |].
    exists c'. split; [exact Hc | exact He].
Defined.

(** C5: the aggregator counts every file object once, sums the numbers
    of entries of the files, and returns the same statistics for every
    permutation of the files. *)
Theorem C5_totals_and_file_order (files : list json) :
  is_snapshot (JArr files) = true →
  ∃ s, analyze_statistics (JArr files) = Ok s
       ∧ total_files s = length files
       ∧ total_diagnostics s = sum_list ((λ f, length (entries_of f)) <$> files)
       ∧ ∀ files', files ≡ₚ files' → analyze_statistics (JArr files') = Ok s.
Proof.
  intros Hs. eexists. split; [exact (analyze_snapshot _ Hs)|].
  cbn [total_files total_diagnostics files_of]. split_and!; try done.
  intros files' Hp.
  rewrite (analyze_snapshot _ (is_snapshot_perm files files' Hp Hs)).
  cbn [files_of]. do 2 f_equal.
  - by rewrite Hp.
  - by rewrite Hp.
  - symmetry. by apply tally_perm, all_entries_perm.
Qed.

Lemma C5_witness :
  ∃ s, analyze_statistics (JArr [Demo.no_severity_file; JObj [("file", JStr "e.py")]]) = Ok s
       ∧ total_files s = 2
       ∧ total_diagnostics s = 1
       ∧ analyze_statistics (JArr [JObj [("file", JStr "e.py")]; Demo.no_severity_file]) = Ok s.
Proof.
  destruct (C5_totals_and_file_order [Demo.no_severity_file; JObj [("file", JStr "e.py")]])
    as (s & Hs & Hf & Hd & Hperm); [reflexivity|].
  exists s. split_and!; [exact Hs | exact Hf | exact Hd |].
  apply Hperm. apply perm_swap.
Defined.

(** C6, as the code has it: a severity label is a key of [by_severity]
    exactly when at least one entry carries it, its value is the number
    of those entries, and reading a label with default 0 gives that
    number also when the label is absent. *)
Theorem C6_by_severity_keys (data : json) :
  is_snapshot data = true →
  ∃ s, analyze_statistics data = Ok s
       ∧ (∀ l n, by_severity s !! l = Some n
                 ↔ 0 < n ∧ n = count_label l (all_entries data))
       ∧ (∀ l, by_severity s !! l = None ↔ count_label l (all_entries data) = 0)
       ∧ (∀ l, default 0 (by_severity s !! l) = count_label l (all_entries data)).
Proof.
  intros Hs. eexists. split; [exact (analyze_snapshot _ Hs)|].
  cbn [by_severity]. split; [|split].
  - intros l n. rewrite tally_lookup. case_decide as Hzero; split.
    + done.
    + intros [Hpos ->]. lia.
    + intros [= <-]. split; [lia | done].
    + by intros [_ ->].
  - intros l. rewrite tally_lookup. by case_decide.
  - intros l. apply tally_get.
Qed.

Lemma C6_witness :
  ∃ s, analyze_statistics Demo.scenario_a = Ok s
       ∧ by_severity s !! "Error" = Some 1
       ∧ by_severity s !! "Hint" = None.
Proof.
  destruct (C6_by_severity_keys Demo.scenario_a) as (s & Hs & Hsome & Hnone & _);
    [reflexivity|].
  exists s. split_and!; [exact Hs | |].
  - apply Hsome. split; [lia | reflexivity].
  - apply Hnone. reflexivity.
Defined.

(** C6 as stated fails: for a snapshot with one Information entry the
    mapping has the single key Information. *)
Lemma C6_counterexample :
  ∃ s, analyze_statistics Demo.scenario_b = Ok s
       ∧ by_severity s !! "Information" = Some 1
       ∧ by_severity s !! "Error" = None
       ∧ by_severity s !! "Warning" = None
       ∧ by_severity s !! "Hint" = None.
Proof. eexists. split; [reflexivity|]. vm_compute. tauto. Qed.

(** ** Retrying reader *)

Section Reader.

Context `{lib : PyLib}.
Variable w : world.

Lemma attempts_made_app (t t' : list event) :
  attempts_made (t ++ t') = attempts_made t + attempts_made t'.
Proof. unfold attempts_made. by rewrite filter_app, length_app. Qed.

Lemma total_sleep_app (t t' : list event) :
  total_sleep (t ++ t') = total_sleep t + total_sleep t'.
Proof.
  unfold total_sleep. induction t as [|e t IH]; [done|].
  cbn [app foldr]. rewrite IH. destruct e; lia.
Qed.

Lemma stdout_of_app (t t' : list event) :
  stdout_of (t ++ t') = stdout_of t ++ stdout_of t'.
Proof. unfold stdout_of. apply omap_app. Qed.

Lemma read_failures_app (t t' : list event) :
  read_failures (t ++ t') = read_failures t ++ read_failures t'.
Proof. unfold read_failures. apply omap_app. Qed.

(** The retry loop, one iteration unfolded. *)
Lemma retry_cons (path : string) (attempt : nat) (rest : list nat) :
  retry w path (attempt :: rest) =
    match attempt_once w path attempt with
    | (t, Ok (Return data)) => (t ++ [], Ok data)
    | (t, Ok Continue) => (t ++ (retry w path rest).1, (retry w path rest).2)
    | (t, Raise e) => (t, Raise e)
    end.
Proof.
  cbn [retry]. unfold mbind at 1, io_bind.
  destruct (attempt_once w path attempt) as [t [[|data]|e]]; try done.
  by destruct (retry w path rest).
Qed.

(** One attempt, by its outcome: what it hands to the loop, how long it
    sleeps and what it prints. *)
Lemma attempt_once_outcome (path : string) (i : nat) :
  ∃ t, attempt_once w path i = (t, next_step (outcome w path i))
       ∧ attempts_made t = 1
       ∧ stdout_of t = []
       ∧ total_sleep t = match outcome w path i with
                         | Waits => 1
                         | Fails _ => if i <? 4 then 1 else 0
                         | _ => 0
                         end
       ∧ read_failures t = match outcome w path i with
                           | Fails e => if i <? 4 then [] else [(i + 1, e)]
                           | _ => []
                           end.
Proof.
  unfold outcome, failure, attempt_once, fs_exists, fs_size, fs_read, loads.
  destruct (w_exists w (AtAttempt i) path) as [[|]|[|]]; cbn;
    [|try destruct (i <=? 3) eqn:Hi; eexists; (split; [reflexivity|]);
      cbn; rewrite ?Hi; done ..].
  destruct (w_size w i path) as [size|[|]]; cbn;
    [|try destruct (i <=? 3) eqn:Hi; eexists; (split; [reflexivity|]);
      cbn; rewrite ?Hi; done ..].
  destruct (size =? 0)%Z; cbn;
    [eexists; (split; [reflexivity|]); by cbn|].
  destruct (w_read w i path) as [raw|[|]|]; cbn;
    [|try destruct (i <=? 3) eqn:Hi; eexists; (split; [reflexivity|]);
      cbn; rewrite ?Hi; done ..].
  destruct (String.eqb (py_strip raw) ""); cbn;
    [eexists; (split; [reflexivity|]); by cbn|].
  destruct (json_loads (py_strip raw)) as [v|[| |]]; cbn;
    try destruct (i <=? 3) eqn:Hi; eexists; (split; [reflexivity|]);
    cbn; rewrite ?Hi; done.
Qed.

(** An attempt that finds the file absent sleeps and goes on. *)
Lemma attempt_once_absent (path : string) (i : nat) :
  w_exists w (AtAttempt i) path = SysOk false →
  attempt_once w path i =
    ([EvQuery OpExists (AtAttempt i) path; EvSleep 1], Ok Continue).
Proof.
  intros H. unfold attempt_once, fs_exists. by rewrite H.
Qed.

(** The loop over attempts each of which waits or fails with a caught
    exception: it sleeps once for every attempt that waits and for every
    attempt before the fifth that fails, prints a failure line for a
    failing fifth attempt, and hands over to what follows. *)
Lemma retry_goes_on (path : string) (pre : list nat) :
  Forall (λ i, goes_on (outcome w path i) = true) pre →
  ∃ t, (∀ rest, retry w path (pre ++ rest)
                = (t ++ (retry w path rest).1, (retry w path rest).2))
       ∧ attempts_made t = length pre
       ∧ stdout_of t = []
       ∧ total_sleep t
         = length (filter (λ i, match outcome w path i with
                                | Fails _ => i <? 4
                                | _ => true
                                end = true) pre)
       ∧ read_failures t
         = omap (λ i, match outcome w path i with
                      | Fails e => if i <? 4 then None else Some (i + 1, e)
                      | _ => None
                      end) pre.
Proof.
  induction 1 as [|i pre Hi _ (t' & Hr & Ha & Ho & Hs & Hf)].
  - exists []. split_and!; try done. intros rest. cbn [app]. by destruct (retry w path rest).
  - destruct (attempt_once_outcome path i) as (t & Ht & Hta & Hto & Hts & Htf).
    exists (t ++ t'). split_and!.
    + intros rest. rewrite <- app_comm_cons, retry_cons, Ht, Hr.
      destruct (outcome w path i); try done; cbn [next_step fst snd];
        by rewrite app_assoc.
    + rewrite attempts_made_app, Hta, Ha. done.
    + by rewrite stdout_of_app, Hto, Ho.
    + rewrite total_sleep_app, Hts, Hs, filter_cons.
      destruct (outcome w path i); try done.
      destruct (i <? 4); case_decide; cbn [length]; done || lia.
    + rewrite read_failures_app, Htf, Hf. cbn [omap list_omap].
      destruct (outcome w path i); try done. by destruct (i <? 4).
Qed.

(** The loop ends at the first attempt that parses or lets an exception
    out, and with the empty list when there is none. *)
Lemma retry_result (path : string) (attempts : list nat) :
  attempts_made (retry w path attempts).1 ≤ length attempts
  ∧ stdout_of (retry w path attempts).1 = []
  ∧ match (retry w path attempts).2 with
    | Ok data =>
        data = JArr []
        ∨ ∃ i, In i attempts ∧ outcome w path i = Parsed data
    | Raise e => ∃ i, In i attempts ∧ outcome w path i = Escapes e
    end.
Proof.
  induction attempts as [|i attempts (Ha & Ho & Hd)].
  - split_and!; [done..|]. by left.
  - destruct (attempt_once_outcome path i) as (t & Ht & Hta & Hto & _).
    rewrite retry_cons, Ht.
    destruct (outcome w path i) as [v| |e|e] eqn:Hi; cbn [next_step fst snd length].
    + rewrite app_nil_r. split_and!; [lia | done |].
      right. exists i. split; [by left | done].
    + rewrite attempts_made_app, stdout_of_app, Hta, Hto, Ho.
      split_and!; [lia | done |].
      destruct ((retry w path attempts).2) as [data|e'].
      * destruct Hd as [->|(j & Hj & Hv)]; [by left|].
        right. exists j. split; [by right | done].
      * destruct Hd as (j & Hj & Hv). exists j. split; [by right | done].
    + rewrite attempts_made_app, stdout_of_app, Hta, Hto, Ho.
      split_and!; [lia | done |].
      destruct ((retry w path attempts).2) as [data|e'].
      * destruct Hd as [->|(j & Hj & Hv)]; [by left|].
        right. exists j. split; [by right | done].
      * destruct Hd as (j & Hj & Hv). exists j. split; [by right | done].
    + split_and!; [lia | done |]. exists i. split; [by left | done].
Qed.

(** The file is absent at every attempt: the reader sleeps after each
    of them, the last one included. *)
Lemma retry_absent (path : string) (attempts : list nat) :
  Forall (λ i, w_exists w (AtAttempt i) path = SysOk false) attempts →
  retry w path attempts =
    (flat_map (λ i, [EvQuery OpExists (AtAttempt i) path; EvSleep 1]) attempts,
     Ok (JArr [])).
Proof.
  induction 1 as [|i attempts Hi _ IH]; [done|].
  by rewrite retry_cons, (attempt_once_absent path i Hi), IH.
Qed.

Lemma absent_trace (path : string) (attempts : list nat) :
  let t := flat_map (λ i, [EvQuery OpExists (AtAttempt i) path; EvSleep 1]) attempts in
  attempts_made t = length attempts
  ∧ total_sleep t = length attempts
  ∧ (attempts ≠ [] → last_event t = Some (EvSleep 1)).
Proof.
  induction attempts as [|i attempts (IH1 & IH2 & IH3)]; [done|].
  cbn [flat_map app length]. split_and!.
  - change (attempts_made (EvQuery OpExists (AtAttempt i) path :: EvSleep 1 :: ?t))
      with (S (attempts_made t)). by rewrite IH1.
  - cbn [total_sleep foldr]. f_equal. exact IH2.
  - intros _. destruct attempts as [|j attempts]; [done|].
    unfold last_event in *. change (last (?a :: ?b :: ?l)) with (last (b :: l)).
    change (last (?a :: ?b :: ?l)) with (last (b :: l)). by apply IH3.
Qed.

Lemma seq_split (i n : nat) : i < n → seq 0 n = seq 0 i ++ i :: seq (S i) (n - S i).
Proof.
  intros Hi. replace n with (i + S (n - S i)) at 1 by lia.
  by rewrite seq_app.
Qed.

(** The attempts up to the first that parses, on the way to it. *)
Lemma retry_first_parsed (path : string) (i n : nat) (v : json) :
  i < n →
  (∀ j, j < i → goes_on (outcome w path j) = true) →
  outcome w path i = Parsed v →
  ∃ t, retry w path (seq 0 n) = (t, Ok v)
       ∧ attempts_made t = i + 1
       ∧ stdout_of t = []
       ∧ total_sleep t
         = length (filter (λ j, match outcome w path j with
                                | Fails _ => j <? 4
                                | _ => true
                                end = true) (seq 0 i))
       ∧ read_failures t
         = omap (λ j, match outcome w path j with
                      | Fails e => if j <? 4 then None else Some (j + 1, e)
                      | _ => None
                      end) (seq 0 i).
Proof.
  intros Hi Hpre Hv. rewrite (seq_split i n Hi).
  destruct (retry_goes_on path (seq 0 i)) as (t & Hr & Ha & Ho & Hs & Hf).
  { apply Forall_forall. intros j Hj%list_elem_of_In%in_seq. apply Hpre. lia. }
  destruct (attempt_once_outcome path i) as (ti & Hti & Hta & Hto & Hts & Htf).
  rewrite Hr, retry_cons, Hti, Hv. cbn [next_step fst snd].
  rewrite Hv in Hts, Htf. eexists. split; [reflexivity|].
  rewrite app_nil_r, attempts_made_app, stdout_of_app, total_sleep_app,
    read_failures_app, Ha, Ho, Hs, Hf, Hta, Hto, Hts, Htf, length_seq.
  rewrite Nat.add_0_r, !app_nil_r. done.
Qed.

(** An attempt that reads text that is not JSON: only the last attempt
    does not sleep. *)
Lemma attempt_once_unparsable (path : string) (i : nat) (size : Z) (raw : string) :
  w_exists w (AtAttempt i) path = SysOk true →
  w_size w i path = SysOk size → size ≠ 0%Z →
  w_read w i path = ReadText raw → py_strip raw ≠ "" →
  json_loads (py_strip raw) = NotLoaded NotJson →
  attempt_once w path i =
    ([EvQuery OpExists (AtAttempt i) path;
      EvQuery OpStat (AtAttempt i) path;
      EvQuery OpRead (AtAttempt i) path;
      if i <? 4 then EvSleep 1 else EvReadFailed (i + 1) JSONDecodeError],
     Ok Continue).
Proof.
  intros He Hs Hsize Hr Hblank Hv.
  unfold attempt_once, fs_exists, fs_size, fs_read, loads.
  rewrite He, Hs, Hr. cbn.
  apply Z.eqb_neq in Hsize. rewrite Hsize. cbn.
  apply String.eqb_neq in Hblank. rewrite Hblank. cbn. rewrite Hv. cbn.
  by destruct (i <=? 3).
Qed.

End Reader.

(** The exceptions the [except] clause of the reader does not name:
    the decoding error of [read()] and the two errors of [json.loads]
    that are not decoding errors of JSON. *)
Lemma outcome_escapes `{lib : PyLib} (w : world) (path : string) (i : nat) (e : exn) :
  outcome w path i = Escapes e →
  e = UnicodeDecodeError ∨ e = RecursionError ∨ e = ValueError.
Proof.
  unfold outcome, failure, loads.
  destruct (w_exists w (AtAttempt i) path) as [[|]|[|]]; cbn; try done.
  destruct (w_size w i path) as [size|[|]]; cbn; try done.
  destruct (size =? 0)%Z; [done|].
  destruct (w_read w i path) as [raw|[|]|]; cbn; try done; [|intros [= <-]; by left].
  destruct (String.eqb (py_strip raw) ""); [done|].
  destruct (json_loads (py_strip raw)) as [v|[| |]]; cbn; try done;
    intros [= <-]; auto.
Qed.

(** C3, as the code has it: the reader makes at most five attempts; an
    exception leaves it only when [read()] cannot decode the file or
    [json.loads] fails with an error that is not a decoding error, and
    without such an attempt the reader returns; the first attempt whose
    content parses, after attempts that waited or failed with a caught
    exception, ends the loop with that content; and when the file is
    absent at every attempt the reader makes exactly five attempts and
    returns the empty list. *)
Theorem C3_reader_attempts `{lib : PyLib} (w : world) (self : DiagnosticsChecker) :
  attempts_made (load_diagnostics w self).1 ≤ 5
  ∧ (∀ e, (load_diagnostics w self).2 = Raise e →
          (e = UnicodeDecodeError ∨ e = RecursionError ∨ e = ValueError)
          ∧ ∃ path i, diagnostics_file self = Some path ∧ i < 5
                      ∧ outcome w path i = Escapes e)
  ∧ ((∀ path i e, diagnostics_file self = Some path → i < 5 →
                  outcome w path i ≠ Escapes e) →
     ∃ data, (load_diagnostics w self).2 = Ok data)
  ∧ (∀ path i v,
       diagnostics_file self = Some path → i < 5 →
       (∀ j, j < i → goes_on (outcome w path j) = true) →
       outcome w path i = Parsed v →
       (load_diagnostics w self).2 = Ok v
       ∧ attempts_made (load_diagnostics w self).1 = i + 1)
  ∧ (∀ path,
       diagnostics_file self = Some path → always_absent w path →
       (load_diagnostics w self).2 = Ok (JArr [])
       ∧ attempts_made (load_diagnostics w self).1 = 5).
Proof.
  unfold load_diagnostics. destruct self as [[path|]]; cbn [diagnostics_file].
  - destruct (retry_result w path (seq 0 5)) as (Ha & _ & Hd).
    rewrite length_seq in Ha. split_and!.
    + exact Ha.
    + intros e He. rewrite He in Hd. destruct Hd as (i & Hi%in_seq & Hesc).
      split; [by apply (outcome_escapes w path i)|].
      exists path, i. split_and!; [done | lia | done].
    + intros Hnone. destruct ((retry w path (seq 0 5)).2) as [data|e]; [by exists data|].
      destruct Hd as (i & Hi%in_seq & Hesc). by destruct (Hnone path i e eq_refl ltac:(lia)).
    + intros ? i v [= <-] Hi Hpre Hv.
      destruct (retry_first_parsed w path i 5 v Hi Hpre Hv) as (t & -> & Ha' & _).
      done.
    + intros ? [= <-] Habs. rewrite (retry_absent w path (seq 0 5)).
      * cbn [fst snd]. split; [done|].
        destruct (absent_trace path (seq 0 5)) as (-> & _). by rewrite length_seq.
      * apply Forall_forall. intros j Hj%list_elem_of_In%in_seq. apply Habs. lia.
  - split_and!; [cbn; lia | done | by exists (JArr []) | done | done].
Qed.

Lemma C3_witness :
  (load_diagnostics (lib := Demo.lib) (Demo.world_with 2 Demo.scenario_a_text)
                    Demo.checker).2 = Ok Demo.scenario_a
  ∧ attempts_made
      (load_diagnostics (lib := Demo.lib) (Demo.world_with 2 Demo.scenario_a_text)
                        Demo.checker).1 = 3
  ∧ (load_diagnostics (lib := Demo.lib) Demo.world_absent Demo.checker).2 = Ok (JArr [])
  ∧ attempts_made
      (load_diagnostics (lib := Demo.lib) Demo.world_absent Demo.checker).1 = 5.
Proof.
  destruct (C3_reader_attempts (lib := Demo.lib)
              (Demo.world_with 2 Demo.scenario_a_text) Demo.checker)
    as (_ & _ & _ & Hfirst & _).
  destruct (C3_reader_attempts (lib := Demo.lib) Demo.world_absent Demo.checker)
    as (_ & _ & _ & _ & Habsent).
  destruct (Hfirst Demo.snapshot_path 2 Demo.scenario_a) as [H1 H2].
  - reflexivity.
  - lia.
  - intros j Hj. destruct j as [|[|j]]; [reflexivity | reflexivity | lia].
  - reflexivity.
  - destruct (Habsent Demo.snapshot_path) as [H3 H4].
    + reflexivity.
    + intros i _. reflexivity.
    + split_and!; [exact H1 | exact H2 | exact H3 | exact H4].
Defined.

(** C3 as stated fails: a file whose bytes are not UTF-8 makes [read()]
    raise [UnicodeDecodeError], which the [except] clause does not name:
    the reader raises at its first attempt. *)
Lemma C3_counterexample :
  (load_diagnostics (lib := Demo.lib) Demo.world_undecodable Demo.checker).2
  = Raise UnicodeDecodeError
  ∧ attempts_made
      (load_diagnostics (lib := Demo.lib) Demo.world_undecodable Demo.checker).1 = 1.
Proof. vm_compute. split; reflexivity. Qed.

(** When every attempt reads text that does not parse, the reader sleeps
    between the attempts only: four times, and the last event is the
    failure line. *)
Lemma load_unparsable_sleeps_four `{lib : PyLib} (w : world) (path : string) :
  always_unparsable w path →
  total_sleep (load_diagnostics w (Checker (Some path))).1 = 4
  ∧ last_event (load_diagnostics w (Checker (Some path))).1
    = Some (EvReadFailed 5 JSONDecodeError).
Proof.
  intros H. unfold load_diagnostics. cbn [diagnostics_file seq].
  destruct (H 0) as (s0 & r0 & ? & ? & ? & ? & ? & ?); [lia|].
  destruct (H 1) as (s1 & r1 & ? & ? & ? & ? & ? & ?); [lia|].
  destruct (H 2) as (s2 & r2 & ? & ? & ? & ? & ? & ?); [lia|].
  destruct (H 3) as (s3 & r3 & ? & ? & ? & ? & ? & ?); [lia|].
  destruct (H 4) as (s4 & r4 & ? & ? & ? & ? & ? & ?); [lia|].
  rewrite !retry_cons.
  rewrite (attempt_once_unparsable w path 0 s0 r0) by done.
  rewrite (attempt_once_unparsable w path 1 s1 r1) by done.
  rewrite (attempt_once_unparsable w path 2 s2 r2) by done.
  rewrite (attempt_once_unparsable w path 3 s3 r3) by done.
  rewrite (attempt_once_unparsable w path 4 s4 r4) by done.
  done.
Qed.

(** C9, at the failing input: when the file is absent at every attempt
    the reader sleeps after each of the five attempts, the last one
    included, five time units in all. *)
Theorem C9_absent_file_sleeps_five `{lib : PyLib} (w : world) (path : string) :
  always_absent w path →
  attempts_made (load_diagnostics w (Checker (Some path))).1 = 5
  ∧ total_sleep (load_diagnostics w (Checker (Some path))).1 = 5
  ∧ last_event (load_diagnostics w (Checker (Some path))).1 = Some (EvSleep 1).
Proof.
  intros Habs. unfold load_diagnostics. cbn [diagnostics_file].
  rewrite (retry_absent w path (seq 0 5)).
  - cbn [fst]. destruct (absent_trace path (seq 0 5)) as (-> & -> & ->); done.
  - apply Forall_forall. intros j Hj%list_elem_of_In%in_seq. apply Habs. lia.
Qed.

Lemma C9_witness :
  total_sleep (load_diagnostics (lib := Demo.lib) Demo.world_absent Demo.checker).1 = 5
  ∧ last_event (load_diagnostics (lib := Demo.lib) Demo.world_absent Demo.checker).1
    = Some (EvSleep 1).
Proof.
  destruct (C9_absent_file_sleeps_five (lib := Demo.lib) Demo.world_absent
              Demo.snapshot_path) as (_ & H1 & H2).
  - intros i _. reflexivity.
  - split; [exact H1 | exact H2].
Defined.

(** ** Report renderer *)

Lemma mapMr_ok {A B : Type} (f : A → result B) (g : A → B) (xs : list A) :
  Forall (λ x, f x = Ok (g x)) xs → mapMr f xs = Ok (g <$> xs).
Proof.
  induction 1 as [|x xs Hx _ IH]; [done|].
  cbn [mapMr]. rewrite Hx. cbn [mbind result_bind]. by rewrite IH.
Qed.

Lemma mapMr_total {A B : Type} (f : A → result B) (xs : list A) :
  Forall (λ x, ∃ y, f x = Ok y) xs → ∃ ys, mapMr f xs = Ok ys.
Proof.
  induction 1 as [|x xs [y Hx] _ [ys IH]]; [by exists []|].
  cbn [mapMr]. rewrite Hx. cbn [mbind result_bind]. rewrite IH. by eexists.
Qed.

Lemma forallb_Forall {A : Type} (p : A → bool) (xs : list A) :
  forallb p xs = true → Forall (λ x, p x = true) xs.
Proof. rewrite forallb_forall, Forall_forall. intros H x Hx. by apply H, list_elem_of_In. Qed.

Lemma explicit_severity_states (k : Z) (d : json) :
  entry_shaped d = true → explicit_severity k d = Ok (states_code k d).
Proof.
  destruct d as [| | | | | |kvs]; try done. intros _.
  unfold explicit_severity, states_code, severity_field, dict_get.
  cbn [mbind result_bind]. by destruct (assoc "severity" kvs).
Qed.

Lemma count_flags (k : Z) (ds : list json) :
  length (filter (λ b : bool, b = true) (states_code k <$> ds)) = count_stated k ds.
Proof.
  unfold count_stated. induction ds as [|d ds IH]; [done|].
  rewrite fmap_cons, !filter_cons. repeat case_decide; try done; cbn [length]; by rewrite IH.
Qed.

Lemma count_severity_shaped (k : Z) (ds : list json) :
  forallb entry_shaped ds = true →
  count_severity k (JArr ds) = Ok (count_stated k ds).
Proof.
  intros H. unfold count_severity. cbn [py_iter mbind result_bind].
  rewrite (mapMr_ok _ (states_code k)).
  - cbn [mbind result_bind]. by rewrite count_flags.
  - eapply Forall_impl; [exact (forallb_Forall _ _ H)|].
    intros d Hd. by apply explicit_severity_states.
Qed.

Section Lines.

Context `{lib : PyLib}.

Lemma relativize_ok (file_path : string) :
  resolves file_path = true → ∃ relative, _relativize file_path = Ok relative.
Proof.
  unfold resolves, _relativize, resolve.
  destruct (resolve_fails file_path) as [[|]|]; [by eexists | done |].
  intros _. destruct (relative_to_root (path_resolve file_path)); by eexists.
Qed.

Lemma relativize_raises (file_path : string) (e : exn) :
  _relativize file_path = Raise e → e = RuntimeError ∧ resolves file_path = false.
Proof.
  unfold resolves, _relativize, resolve.
  destruct (resolve_fails file_path) as [[|]|]; [done | by intros [= <-] |].
  by destruct (relative_to_root (path_resolve file_path)).
Qed.

(** The lines of a well-shaped entry: nothing but the path of the file
    can make them fail. *)
Lemma diagnostic_lines_shaped (file_path : string) (d : json) :
  entry_shaped d = true →
  ∃ lines : string → list string,
    diagnostic_lines file_path d
    = (relative ← _relativize file_path; Ok (lines relative)).
Proof.
  intros Hd. unfold diagnostic_lines. rewrite (severity_name_label d Hd).
  destruct d as [| | | | | |kvs]; try done.
  cbn [entry_shaped] in Hd. apply andb_prop in Hd as [[_ Hstart]%andb_prop Hend].
  unfold dict_get, dict_item. cbn [mbind result_bind].
  destruct (default (JObj []) (assoc "start" kvs)) as [| | | | | |start]; try done.
  destruct (default (JObj []) (assoc "end" kvs)) as [| | | | | |end_]; try done.
  cbn [mbind result_bind].
  destruct (assoc "source" kvs) as [source|]; cbn [default];
    destruct (assoc "code" kvs) as [code|]; cbn [default truthy];
    repeat (match goal with |- context [if ?b then _ else _] => destruct b end;
            cbn [mbind result_bind]);
    by eexists (λ relative, _).
Qed.

Lemma entries_lines (file_path : string) (ds : list json) :
  forallb entry_shaped ds = true →
  match _relativize file_path with
  | Ok _ => ∃ entries, mapMr (diagnostic_lines file_path) ds = Ok entries
  | Raise e => ds = [] ∨ mapMr (diagnostic_lines file_path) ds = Raise e
  end.
Proof.
  induction ds as [|d ds IH]; cbn [forallb mapMr].
  - intros _. destruct (_relativize file_path); [by eexists | by left].
  - intros [Hd Hds]%andb_prop. specialize (IH Hds).
    destruct (diagnostic_lines_shaped file_path d Hd) as [lines ->].
    destruct (_relativize file_path) as [relative|e]; cbn [mbind result_bind].
    + destruct IH as [entries ->]. by eexists.
    + by right.
Qed.

(** The lines a well-shaped file contributes: none without entries,
    else the heading with the stated codes counted, an empty line and
    the lines of the entries. *)
Lemma file_lines_shaped (f : json) :
  file_shaped f = true →
  file_lines f =
    match entries_of f with
    | [] => Ok []
    | ds =>
        entries ← mapMr (diagnostic_lines (file_path_of f)) ds;
        Ok (file_heading (path_name (file_path_of f))
              (join ", " (summary_parts (count_stated 0 ds) (count_stated 1 ds)
                                        (count_stated 2 ds) (count_stated 3 ds)))
            :: "" :: concat entries)
    end.
Proof.
  destruct f as [| | | | | |kvs]; try done.
  cbn [file_shaped entries_of file_path_of]. intros [Hfile Hds]%andb_prop.
  unfold file_lines, dict_get, dict_item. cbn [mbind result_bind].
  destruct (default (JArr []) (assoc "diagnostics" kvs)) as [| | | | |ds|]; try done.
  destruct ds as [|d ds]; [done|].
  cbn [truthy negb].
  destruct (assoc "file" kvs) as [[| | | |path| |]|]; try done.
  cbn [mbind result_bind path_of].
  rewrite !(count_severity_shaped _ _ Hds). cbn [mbind result_bind py_iter].
  by destruct (mapMr (diagnostic_lines path) (d :: ds)).
Qed.

Lemma file_lines_returns (f : json) :
  file_shaped f = true →
  match entries_of f with
  | [] => true
  | _ => resolves (file_path_of f)
  end = true →
  ∃ ls, file_lines f = Ok ls.
Proof.
  intros Hf Hres. rewrite (file_lines_shaped f Hf).
  pose proof (entries_lines (file_path_of f) (entries_of f) (file_entries_shaped f Hf))
    as Hentries.
  destruct (entries_of f) as [|d ds]; [by eexists|]. cbv beta iota zeta.
  destruct (relativize_ok _ Hres) as [relative Hrel]. rewrite Hrel in Hentries.
  destruct Hentries as [entries ->]. by eexists.
Qed.

Lemma file_lines_raises (f : json) (e : exn) :
  file_shaped f = true →
  file_lines f = Raise e →
  e = RuntimeError
  ∧ match entries_of f with
    | [] => true
    | _ => resolves (file_path_of f)
    end = false.
Proof.
  intros Hf. rewrite (file_lines_shaped f Hf).
  pose proof (entries_lines (file_path_of f) (entries_of f) (file_entries_shaped f Hf))
    as Hentries.
  destruct (entries_of f) as [|d ds]; [done|]. cbv beta iota zeta.
  destruct (_relativize (file_path_of f)) as [relative|e'] eqn:Hrel.
  - destruct Hentries as [entries ->]. done.
  - destruct Hentries as [Hnil| ->]; [done|]. cbn [mbind result_bind]. intros [= <-].
    by apply relativize_raises.
Qed.

Lemma detail_lines_total (data : json) :
  is_snapshot data = true → paths_resolve data = true →
  ∃ ls, detail_lines data = Ok ls.
Proof.
  destruct data as [| | | | |files|]; try done.
  unfold paths_resolve. cbn [is_snapshot files_of]. intros H Hres.
  unfold detail_lines. cbn [py_iter mbind result_bind].
  destruct (mapMr_total file_lines files) as [sections ->]; [|by eexists].
  apply forallb_Forall in H, Hres. apply Forall_forall. intros f Hf.
  rewrite Forall_forall in H, Hres. by apply file_lines_returns; [apply H | apply Hres].
Qed.

Lemma detail_lines_raises (data : json) (e : exn) :
  is_snapshot data = true → detail_lines data = Raise e →
  e = RuntimeError ∧ paths_resolve data = false.
Proof.
  destruct data as [| | | | |files|]; try done.
  unfold paths_resolve. cbn [is_snapshot files_of]. intros H.
  unfold detail_lines. cbn [py_iter mbind result_bind].
  induction files as [|f files IH]; [done|].
  cbn [forallb mapMr] in *. apply andb_prop in H as [Hf Hfs].
  destruct (file_lines f) as [ls|e'] eqn:Hlines; cbn [mbind result_bind].
  - destruct (mapMr file_lines files) as [sections|e'']; [done|].
    cbn [mbind result_bind] in *. intros He. destruct (IH Hfs He) as [-> ->].
    by rewrite andb_false_r.
  - intros [= <-]. destruct (file_lines_raises f e' Hf Hlines) as [-> ->]. done.
Qed.

End Lines.

(** ** Traces and results of composed runs *)

Lemma io_bind_snd {A B : Type} (m : io A) (f : A → io B) :
  (m ≫= f).2 = match m.2 with
               | Ok a => (f a).2
               | Raise e => Raise e
               end.
Proof.
  destruct m as [t [a|e]]; [|done]. unfold mbind, io_bind. cbn [fst snd].
  by destruct (f a).
Qed.

Lemma io_bind_fst {A B : Type} (m : io A) (f : A → io B) :
  (m ≫= f).1 = match m.2 with
               | Ok a => m.1 ++ (f a).1
               | Raise _ => m.1
               end.
Proof.
  destruct m as [t [a|e]]; [|done]. unfold mbind, io_bind. cbn [fst snd].
  by destruct (f a).
Qed.

Lemma io_bind_silent {A B : Type} (m : io A) (f : A → io B) :
  stdout_of m.1 = [] → (∀ a, stdout_of (f a).1 = []) → stdout_of (m ≫= f).1 = [].
Proof.
  intros Hm Hf. rewrite io_bind_fst. destruct (m.2) as [a|e]; [|done].
  unfold stdout_of in *. by rewrite omap_app, Hm, Hf.
Qed.

Lemma debug_log_result (debug_mode : bool) (msg : string) :
  (debug_log debug_mode msg).2 = Ok tt.
Proof. by destruct debug_mode. Qed.

Lemma debug_log_silent (debug_mode : bool) (msg : string) :
  stdout_of (debug_log debug_mode msg).1 = [].
Proof. by destruct debug_mode. Qed.

Section Rendering.

Context `{lib : PyLib}.

(** The value [render] returns does not depend on the debug flag. *)
Lemma render_result (debug_mode : bool) (data : json) :
  (render debug_mode data).2 =
    if negb (truthy data) then Ok None
    else
      stats ← analyze_statistics data;
      let errors := counter_get (by_severity stats) "Error" in
      let warnings := counter_get (by_severity stats) "Warning" in
      if (errors =? 0) && (warnings =? 0) then Ok None
      else
        ls ← detail_lines data;
        Ok (Some (join nl (header errors warnings ++ ls))).
Proof.
  unfold render. destruct (negb (truthy data)).
  - by rewrite io_bind_snd, debug_log_result.
  - rewrite io_bind_snd. unfold lift at 1. cbn [snd].
    destruct (analyze_statistics data) as [stats|e]; [|done].
    cbn [mbind result_bind]. rewrite io_bind_snd, debug_log_result.
    unfold counter_get.
    destruct ((default 0 (by_severity stats !! "Error") =? 0)
              && (default 0 (by_severity stats !! "Warning") =? 0)).
    + by rewrite io_bind_snd, debug_log_result.
    + rewrite io_bind_snd, debug_log_result, io_bind_snd. unfold lift. cbn [snd].
      by destruct (detail_lines data).
Qed.

Lemma render_silent (debug_mode : bool) (data : json) :
  stdout_of (render debug_mode data).1 = [].
Proof.
  unfold render. destruct (negb (truthy data)).
  - apply io_bind_silent; [apply debug_log_silent | done].
  - apply io_bind_silent; [done|]. intros stats.
    apply io_bind_silent; [apply debug_log_silent|]. intros _.
    match goal with |- context [if ?b then _ else _] => destruct b end.
    + apply io_bind_silent; [apply debug_log_silent | done].
    + apply io_bind_silent; [apply debug_log_silent|]. intros _.
      apply io_bind_silent; done.
Qed.

(** A report begins with the lines of the summary header. *)
Lemma render_some (debug_mode : bool) (data : json) (report : string) :
  (render debug_mode data).2 = Ok (Some report) →
  ∃ errors warnings ls, report = join nl (header errors warnings ++ ls).
Proof.
  rewrite render_result. destruct (negb (truthy data)); [done|].
  destruct (analyze_statistics data) as [stats|e]; [|done].
  cbn [mbind result_bind].
  match goal with |- context [if ?b then _ else _] => destruct b end; [done|].
  destruct (detail_lines data) as [ls|e]; [|done].
  cbn [mbind result_bind]. intros [= <-]. by do 3 eexists.
Qed.

(** On a well-shaped snapshot [render] returns nothing when no entry is
    labelled Error or Warning, and else the header with the two counts
    followed by the detail lines, when those can be built. *)
Lemma render_snapshot (debug_mode : bool) (data : json) :
  is_snapshot data = true →
  (render debug_mode data).2 =
    if (count_label "Error" (all_entries data) =? 0)
       && (count_label "Warning" (all_entries data) =? 0)
    then Ok None
    else
      ls ← detail_lines data;
      Ok (Some (join nl (header (count_label "Error" (all_entries data))
                                (count_label "Warning" (all_entries data))
                         ++ ls))).
Proof.
  intros Hs. rewrite render_result, (analyze_snapshot data Hs).
  cbn [mbind result_bind by_severity]. rewrite !tally_get.
  destruct (negb (truthy data)) eqn:Hempty; [|done].
  by destruct data as [| | | | |[|f files]|].
Qed.

End Rendering.

Lemma count_label_pos (l : string) (ds : list json) :
  0 < count_label l ds ↔ ∃ d, In d ds ∧ label d = l.
Proof.
  induction ds as [|d ds IH].
  - split; [cbn; lia | by intros (d & [] & _)].
  - rewrite count_label_cons. case_decide as Hd.
    + split; [|lia]. intros _. exists d. split; [by left | done].
    + rewrite Nat.add_0_l, IH. split.
      * intros (d' & Hin & Hl). exists d'. split; [by right | done].
      * intros (d' & [->|Hin] & Hl); [done|]. by exists d'.
Qed.

Lemma no_error_no_warning (ds : list json) :
  (∀ d, In d ds → label d = "Information" ∨ label d = "Hint") →
  count_label "Error" ds = 0 ∧ count_label "Warning" ds = 0.
Proof.
  intros Hall. split.
  - destruct (count_label "Error" ds) eqn:Hn; [done|].
    destruct (proj1 (count_label_pos "Error" ds)) as (d & Hin & Hl); [lia|].
    destruct (Hall d Hin) as [H|H]; rewrite H in Hl; discriminate.
  - destruct (count_label "Warning" ds) eqn:Hn; [done|].
    destruct (proj1 (count_label_pos "Warning" ds)) as (d & Hin & Hl); [lia|].
    destruct (Hall d Hin) as [H|H]; rewrite H in Hl; discriminate.
Qed.

(** C1, as the code has it: on a snapshot the renderer returns nothing
    when the aggregated counts of Error and of Warning are both 0, so
    for a snapshot of Information and Hint entries and for the empty
    snapshot; whenever it returns, it returns a report exactly when one
    of the two counts is positive; it returns when the paths of the
    files that list diagnostics resolve; and it raises only with a
    positive count, when resolving such a path fails with
    [RuntimeError]. *)
Theorem C1_report_iff_error_or_warning `{lib : PyLib} (debug_mode : bool) (data : json) :
  is_snapshot data = true →
  ∃ stats,
    analyze_statistics data = Ok stats
    ∧ (∀ out, (render debug_mode data).2 = Ok out →
              (is_Some out ↔ 0 < counter_get (by_severity stats) "Error"
                             ∨ 0 < counter_get (by_severity stats) "Warning"))
    ∧ (paths_resolve data = true → ∃ out, (render debug_mode data).2 = Ok out)
    ∧ (∀ e, (render debug_mode data).2 = Raise e →
            e = RuntimeError ∧ paths_resolve data = false
            ∧ (0 < counter_get (by_severity stats) "Error"
               ∨ 0 < counter_get (by_severity stats) "Warning"))
    ∧ (counter_get (by_severity stats) "Error" = 0
       ∧ counter_get (by_severity stats) "Warning" = 0 →
       (render debug_mode data).2 = Ok None)
    ∧ ((∀ d, In d (all_entries data) → label d = "Information" ∨ label d = "Hint")
       → (render debug_mode data).2 = Ok None)
    ∧ (data = JArr [] → (render debug_mode data).2 = Ok None).
Proof.
  intros Hs. eexists. split; [exact (analyze_snapshot data Hs)|].
  cbn [by_severity]. rewrite !tally_get, (render_snapshot debug_mode data Hs).
  assert (∀ E W, E = 0 ∧ W = 0 → (E =? 0) && (W =? 0) = true) as Hzero.
  { by intros ?? [-> ->]. }
  split_and!.
  - intros out.
    destruct (Nat.eqb_spec (count_label "Error" (all_entries data)) 0) as [He|He];
      destruct (Nat.eqb_spec (count_label "Warning" (all_entries data)) 0) as [Hw|Hw];
      cbn [andb].
    1: { intros [= <-]. split; [by intros [? [=]] | lia]. }
    all: destruct (detail_lines data) as [ls|e]; cbn [mbind result_bind]; [|done];
      intros [= <-]; split; [intros _; lia | by eexists].
  - intros Hres. destruct (detail_lines_total data Hs Hres) as [ls ->].
    cbn [mbind result_bind]. destruct (_ && _); by eexists.
  - intros e.
    destruct (Nat.eqb_spec (count_label "Error" (all_entries data)) 0) as [He|He];
      destruct (Nat.eqb_spec (count_label "Warning" (all_entries data)) 0) as [Hw|Hw];
      cbn [andb]; [done|..].
    all: destruct (detail_lines data) as [ls|e'] eqn:Hd; cbn [mbind result_bind]; [done|];
      intros [= <-]; destruct (detail_lines_raises data e' Hs Hd) as [-> ->];
      split_and!; [done | done | lia].
  - intros H. by rewrite (Hzero _ _ H).
  - intros Hall. by rewrite (Hzero _ _ (no_error_no_warning _ Hall)).
  - by intros ->.
Qed.

Lemma C1_witness :
  (∃ report, (render (lib := Demo.lib) false Demo.scenario_a).2 = Ok (Some report))
  ∧ (render (lib := Demo.lib) false Demo.scenario_b).2 = Ok None.
Proof.
  destruct (C1_report_iff_error_or_warning (lib := Demo.lib) false Demo.scenario_a)
    as (sa & Hsa & Hiff & Hret & _); [reflexivity|].
  destruct (C1_report_iff_error_or_warning (lib := Demo.lib) false Demo.scenario_b)
    as (sb & _ & _ & _ & _ & _ & Hinfo & _); [reflexivity|].
  split.
  - destruct (Hret eq_refl) as [out Hout].
    destruct (proj2 (Hiff out Hout)) as [report ->].
    + left. injection Hsa as <-. vm_compute. lia.
    + by exists report.
  - apply Hinfo. intros d [<-|[]]. left. reflexivity.
Defined.

(** C1 as stated fails: the snapshot of scenario A has one Error, and
    where resolving the path of its file runs into a loop of symbolic
    links the renderer raises [RuntimeError] instead of returning a
    report. *)
Lemma C1_counterexample :
  (∃ stats, analyze_statistics Demo.scenario_a = Ok stats
            ∧ counter_get (by_severity stats) "Error" = 1)
  ∧ (render (lib := Demo.lib_looping) false Demo.scenario_a).2 = Raise RuntimeError.
Proof. split; [eexists; split; reflexivity | vm_compute; reflexivity]. Qed.

(** C2: when a snapshot has an entry labelled Error or Warning, what the
    renderer returns is a report that begins with the summary header,
    whose two count lines carry the icons and the counts the aggregator
    computed for Error and for Warning; the renderer returns when the
    paths of the files that list diagnostics resolve. *)
Theorem C2_header_counts `{lib : PyLib} (debug_mode : bool) (data : json) :
  is_snapshot data = true →
  (∃ d, In d (all_entries data) ∧ (label d = "Error" ∨ label d = "Warning")) →
  ∃ stats,
    analyze_statistics data = Ok stats
    ∧ (∀ out, (render debug_mode data).2 = Ok out →
         ∃ detail,
           out = Some (join nl
                         (["### 诊断摘要";
                           "";
                           "- ❌ Error: "
                             +:+ str_of_nat (counter_get (by_severity stats) "Error");
                           "- ⚠️ Warning: "
                             +:+ str_of_nat (counter_get (by_severity stats) "Warning");
                           ""] ++ detail)))
    ∧ (paths_resolve data = true → ∃ out, (render debug_mode data).2 = Ok out)
    ∧ counter_get (by_severity stats) "Error" = count_label "Error" (all_entries data)
    ∧ counter_get (by_severity stats) "Warning" = count_label "Warning" (all_entries data).
Proof.
  intros Hs (d & Hin & Hl).
  eexists. split; [exact (analyze_snapshot data Hs)|].
  cbn [by_severity]. rewrite !tally_get, (render_snapshot debug_mode data Hs).
  assert (0 < count_label "Error" (all_entries data)
          ∨ 0 < count_label "Warning" (all_entries data)) as Hpos.
  { destruct Hl as [Hl|Hl]; [left|right]; apply count_label_pos; by exists d. }
  assert ((count_label "Error" (all_entries data) =? 0)
          && (count_label "Warning" (all_entries data) =? 0) = false) as ->.
  { destruct (Nat.eqb_spec (count_label "Error" (all_entries data)) 0);
      destruct (Nat.eqb_spec (count_label "Warning" (all_entries data)) 0);
      cbn [andb]; done || lia. }
  split_and!; [| |done|done].
  - intros out. destruct (detail_lines data) as [ls|e]; cbn [mbind result_bind]; [|done].
    intros [= <-]. by exists ls.
  - intros Hres. destruct (detail_lines_total data Hs Hres) as [ls ->]. by eexists.
Qed.

Lemma C2_witness :
  ∃ detail,
    (render (lib := Demo.lib) false Demo.scenario_a).2 =
      Ok (Some (join nl (["### 诊断摘要"; ""; "- ❌ Error: 1"; "- ⚠️ Warning: 0"; ""]
                         ++ detail))).
Proof.
  destruct (C2_header_counts (lib := Demo.lib) false Demo.scenario_a)
    as (stats & Hstats & Hhead & Hret & _).
  - reflexivity.
  - eexists. split; [left; reflexivity | left; reflexivity].
  - destruct (Hret eq_refl) as [out Hout].
    destruct (Hhead out Hout) as [detail ->].
    exists detail. injection Hstats as <-. exact Hout.
Defined.






(** ** Generating the report and dispatching *)

Section Dispatch.

Context `{lib : PyLib}.
Variable w : world.

Lemma lift_bind {A B : Type} (a : A) (f : A → io B) : (lift (Ok a) ≫= f) = f a.
Proof. unfold lift, mbind, io_bind. by destruct (f a). Qed.

Lemma run_bind {A B : Type} (t : list event) (a : A) (f : A → io B) :
  mbind (M := io) f (t, Ok a) = (t ++ (f a).1, (f a).2).
Proof. unfold mbind, io_bind. by destruct (f a). Qed.

Lemma fs_exists_silent (ph : phase) (path : string) :
  stdout_of (fs_exists w ph path).1 = [].
Proof. unfold fs_exists. apply io_bind_silent; done. Qed.

Lemma first_existing_silent (ph : phase) (paths : list string) :
  stdout_of (first_existing w ph paths).1 = [].
Proof.
  induction paths as [|p paths IH]; [done|]. cbn [first_existing].
  apply io_bind_silent; [apply fs_exists_silent|]. by intros [|].
Qed.

Lemma new_checker_silent : stdout_of (new_checker w).1 = [].
Proof.
  unfold new_checker, _locate_diagnostics_file.
  apply io_bind_silent; [apply first_existing_silent | done].
Qed.

Lemma relocate_silent (debug_mode : bool) : stdout_of (relocate w debug_mode).1 = [].
Proof.
  unfold relocate, _locate_diagnostics_file.
  apply io_bind_silent; [apply debug_log_silent|]. intros _.
  apply io_bind_silent; [done|]. intros _.
  apply io_bind_silent; [apply first_existing_silent | done].
Qed.

Lemma load_silent (self : DiagnosticsChecker) :
  stdout_of (load_diagnostics w self).1 = [].
Proof.
  unfold load_diagnostics. destruct (diagnostics_file self) as [path|]; [|done].
  by destruct (retry_result w path (seq 0 5)) as (_ & Ho & _).
Qed.

(** The reader returns the empty list or what one of its attempts
    parsed, or raises what one of its attempts let out. *)
Lemma load_result (self : DiagnosticsChecker) :
  match (load_diagnostics w self).2 with
  | Ok data => data = JArr [] ∨ ∃ path i, i < 5 ∧ outcome w path i = Parsed data
  | Raise e => ∃ path i, i < 5 ∧ outcome w path i = Escapes e
  end.
Proof.
  unfold load_diagnostics. destruct (diagnostics_file self) as [path|]; [|by left].
  destruct (retry_result w path (seq 0 5)) as (_ & _ & Hd).
  destruct ((retry w path (seq 0 5)).2) as [data|e].
  - destruct Hd as [->|(i & Hi%in_seq & Hv)]; [by left|].
    right. exists path, i. split; [lia | done].
  - destruct Hd as (i & Hi%in_seq & Hv). exists path, i. split; [lia | done].
Qed.

Lemma settle_silent (self : DiagnosticsChecker) (debug_mode : bool) :
  stdout_of (settle w self debug_mode).1 = [].
Proof.
  unfold settle. destruct (diagnostics_file self) as [path|]; [|apply relocate_silent].
  apply io_bind_silent; [apply fs_exists_silent|].
  intros [|]; [done | apply relocate_silent].
Qed.

Lemma log_location_silent (self : DiagnosticsChecker) (debug_mode : bool) :
  stdout_of (log_location self debug_mode).1 = [].
Proof. unfold log_location. destruct (diagnostics_file self); apply debug_log_silent. Qed.

Lemma log_location_result (self : DiagnosticsChecker) (debug_mode : bool) :
  (log_location self debug_mode).2 = Ok tt.
Proof. unfold log_location. destruct (diagnostics_file self); apply debug_log_result. Qed.

Lemma generate_silent (self : DiagnosticsChecker) (debug_mode : bool) :
  stdout_of (generate_reason_markdown w self debug_mode).1 = [].
Proof.
  unfold generate_reason_markdown.
  apply io_bind_silent; [apply debug_log_silent|]. intros _.
  apply io_bind_silent; [apply debug_log_silent|]. intros _.
  apply io_bind_silent; [done|]. intros _.
  apply io_bind_silent; [apply settle_silent|]. intros self'.
  apply io_bind_silent; [apply log_location_silent|]. intros _. apply io_bind_silent; [apply load_silent|].
  intros data. apply render_silent.
Qed.

(** What [generate_reason_markdown] returns is what [render] returns
    for the data the reader loaded. *)
Lemma generate_result (self : DiagnosticsChecker) (debug_mode : bool)
      (out : option string) :
  (generate_reason_markdown w self debug_mode).2 = Ok out →
  ∃ self' data,
    (load_diagnostics w self').2 = Ok data
    ∧ (render debug_mode data).2 = Ok out.
Proof.
  unfold generate_reason_markdown.
  rewrite !io_bind_snd, !debug_log_result. cbn [sleep emit snd].
  destruct ((settle w self debug_mode).2) as [self'|e]; [|done].
  rewrite !io_bind_snd.
  rewrite log_location_result.
  destruct ((load_diagnostics w self').2) as [data|e] eqn:Hload; [|done].
  intros Hr. by exists self', data.
Qed.

Lemma report_begins (errors warnings : nat) (ls : list string) :
  ∃ rest, join nl (header errors warnings ++ ls) = "### 诊断摘要" +:+ rest.
Proof. unfold join, header. cbn [app String.concat]. by eexists. Qed.

(** A report is not empty: it begins with the summary header. *)
Lemma generate_some (self : DiagnosticsChecker) (debug_mode : bool) (report : string) :
  (generate_reason_markdown w self debug_mode).2 = Ok (Some report) →
  ∃ rest, report = "### 诊断摘要" +:+ rest.
Proof.
  intros (self' & data & _ & Hr)%generate_result.
  apply render_some in Hr as (errors & warnings & ls & ->).
  apply report_begins.
Qed.

Lemma first_existing_answers (ph : phase) (paths : list string) :
  (∀ path, ∃ b, w_exists w ph path = SysOk b) →
  ∃ found, (first_existing w ph paths).2 = Ok found.
Proof.
  intros Hex. induction paths as [|p paths [found IH]]; [by exists None|].
  cbn [first_existing]. rewrite io_bind_snd. unfold fs_exists at 1.
  rewrite io_bind_snd. cbn [emit snd lift].
  destruct (Hex p) as [[|] ->]; cbn [of_sys]; [by eexists|].
  by exists found.
Qed.

Lemma new_checker_answers :
  locator_answers w → ∃ checker, (new_checker w).2 = Ok checker.
Proof.
  intros Hloc. unfold new_checker, _locate_diagnostics_file. rewrite io_bind_snd.
  destruct (first_existing_answers AtInit (w_possible_paths w)) as [found ->].
  { intros path. by apply Hloc. }
  by eexists.
Qed.

Lemma relocate_answers (debug_mode : bool) :
  locator_answers w → ∃ checker, (relocate w debug_mode).2 = Ok checker.
Proof.
  intros Hloc. unfold relocate, _locate_diagnostics_file.
  rewrite io_bind_snd, debug_log_result, io_bind_snd. cbn [sleep emit snd].
  rewrite io_bind_snd.
  destruct (first_existing_answers AtRelocate (w_possible_paths w)) as [found ->].
  { intros path. by apply Hloc. }
  by eexists.
Qed.

Lemma settle_answers (self : DiagnosticsChecker) (debug_mode : bool) :
  locator_answers w → ∃ self', (settle w self debug_mode).2 = Ok self'.
Proof.
  intros Hloc. unfold settle.
  destruct (diagnostics_file self) as [path|]; [|by apply relocate_answers].
  rewrite io_bind_snd. unfold fs_exists. rewrite io_bind_snd. cbn [emit snd lift].
  destruct (Hloc AtSettle path) as [[|] ->]; [done| |];
    cbn [of_sys]; [by eexists | by apply relocate_answers].
Qed.

(** With a locator that answers, attempts that let no exception out and
    that parse nothing but well-shaped snapshots whose paths resolve,
    generating the report does not raise; it returns nothing when no
    attempt parses. *)
Lemma generate_answers (self : DiagnosticsChecker) (debug_mode : bool) :
  locator_answers w → never_escapes w → parses_snapshots w →
  ∃ out, (generate_reason_markdown w self debug_mode).2 = Ok out
         ∧ (never_parses w → out = None).
Proof.
  intros Hloc Hesc Hsnap. unfold generate_reason_markdown.
  rewrite !io_bind_snd, !debug_log_result. cbn [sleep emit snd].
  destruct (settle_answers self debug_mode Hloc) as [self' ->].
  rewrite !io_bind_snd.
  rewrite log_location_result.
  pose proof (load_result self') as Hdata.
  destruct ((load_diagnostics w self').2) as [data|e];
    [|destruct Hdata as (path & i & Hi & Hv); by destruct (Hesc path i e Hi)].
  assert (is_snapshot data = true ∧ paths_resolve data = true) as [Hs Hres].
  { destruct Hdata as [->|(path & i & Hi & Hv)]; [done|]. by eapply Hsnap. }
  rewrite (render_snapshot debug_mode data Hs).
  destruct (detail_lines_total data Hs Hres) as [ls ->]. cbn [mbind result_bind].
  destruct Hdata as [->|(path & i & Hi & Hv)]; [by exists None|].
  destruct (_ && _); eexists; (split; [reflexivity|]); intros Hnever;
    specialize (Hnever path i Hi); by rewrite Hv in Hnever.
Qed.

End Dispatch.

Lemma report_present_header (rest : string) :
  report_present (Some ("### 诊断摘要" +:+ rest)) = Some ("### 诊断摘要" +:+ rest).
Proof. reflexivity. Qed.

(** The banner, line by line, in front of a report. *)
Lemma emphasis_lines (report : string) :
  emphasis +:+ report
  = join nl ["⚠️ 优先级提示";
             "";
             "请暂停当前任务与后续输出，先修复以下代码错误/警告，再继续原始任务。";
             "建议执行顺序：";
             "1) 逐个修复下列 Error（阻断项）";
             "2) 处理 Warning（非阻断但建议修复）";
             "3) 重新构建/分析，确认无 Error 后再回答最初的问题。";
             "";
             "---";
             "";
             report].
Proof. reflexivity. Qed.

(** C7, as the code has it: on a prompt-submission event for which the
    renderer produced a report, the report begins with its summary
    header; when the console can encode it, the only line [main] prints
    is the payload that injects, as additional context, the lines of
    the banner followed by the report, and the process ends with status
    0; when the console cannot encode the payload nothing is printed and
    the process ends with status 1; no block decision is printed in
    either case. *)
Theorem C7_prompt_submission_injects_report `{lib : PyLib} (w : world)
    (hook_input : json) (debug_mode : bool) (t0 t1 : list event)
    (checker : DiagnosticsChecker) (report : string) :
  event_name hook_input = Ok (JStr "UserPromptSubmit") →
  new_checker w = (t0, Ok checker) →
  generate_reason_markdown w checker debug_mode = (t1, Ok (Some report)) →
  let payload :=
    OutJson
      (JObj [("hookSpecificOutput",
              JObj [("hookEventName", JStr "UserPromptSubmit");
                    ("additionalContext",
                     JStr (join nl
                             ["⚠️ 优先级提示";
                              "";
                              "请暂停当前任务与后续输出，先修复以下代码错误/警告，再继续原始任务。";
                              "建议执行顺序：";
                              "1) 逐个修复下列 Error（阻断项）";
                              "2) 处理 Warning（非阻断但建议修复）";
                              "3) 重新构建/分析，确认无 Error 后再回答最初的问题。";
                              "";
                              "---";
                              "";
                              report]))])]) in
  (∃ rest, report = "### 诊断摘要" +:+ rest)
  ∧ (if w_encodable w payload
     then stdout_of (main w hook_input debug_mode).1 = [payload]
          ∧ (main w hook_input debug_mode).2 = 0%Z
     else stdout_of (main w hook_input debug_mode).1 = []
          ∧ (main w hook_input debug_mode).2 = 1%Z)
  ∧ (∀ reason,
       ¬ In (OutJson (JObj [("decision", JStr "block"); ("reason", JStr reason)]))
            (stdout_of (main w hook_input debug_mode).1)).
Proof.
  intros Hev Hnew Hgen payload.
  assert (∃ rest, report = "### 诊断摘要" +:+ rest) as Hbegin.
  { apply (generate_some w checker debug_mode). by rewrite Hgen. }
  assert (stdout_of t0 = []) as Ht0.
  { pose proof (new_checker_silent w) as H. by rewrite Hnew in H. }
  assert (stdout_of t1 = []) as Ht1.
  { pose proof (generate_silent w checker debug_mode) as H. by rewrite Hgen in H. }
  assert (main w hook_input debug_mode =
            if w_encodable w payload
            then (t0 ++ t1 ++ [EvStdout payload], 0%Z)
            else ((t0 ++ t1 ++ []) ++ [EvHookException UnicodeEncodeError], 1%Z))
    as Hmain.
  { unfold main, dispatch. unfold event_name in Hev. rewrite Hev, lift_bind.
    change (py_eq_str (JStr "UserPromptSubmit") "PostToolUse") with false.
    change (py_eq_str (JStr "UserPromptSubmit") "UserPromptSubmit") with true.
    cbv beta iota. rewrite Hnew, run_bind. cbv beta. rewrite Hgen, run_bind. cbv beta.
    destruct Hbegin as [rest ->]. rewrite report_present_header.
    cbv zeta. rewrite emphasis_lines.
    unfold print, additional_context. fold payload.
    by destruct (w_encodable w payload). }
  split; [exact Hbegin|]. rewrite Hmain.
  destruct (w_encodable w payload); cbn [fst snd];
    rewrite ?stdout_of_app, Ht0, Ht1; cbn; (split; [done|]).
  - intros reason [H|[]]. discriminate H.
  - by intros reason [].
Qed.

Lemma C7_witness :
  ∃ report,
    stdout_of (main (lib := Demo.lib) (Demo.world_with 0 Demo.scenario_a_text)
                    Demo.user_prompt_submit false).1
    = [OutJson
         (JObj [("hookSpecificOutput",
                 JObj [("hookEventName", JStr "UserPromptSubmit");
                       ("additionalContext",
                        JStr (join nl
                                ["⚠️ 优先级提示";
                                 "";
                                 "请暂停当前任务与后续输出，先修复以下代码错误/警告，再继续原始任务。";
                                 "建议执行顺序：";
                                 "1) 逐个修复下列 Error（阻断项）";
                                 "2) 处理 Warning（非阻断但建议修复）";
                                 "3) 重新构建/分析，确认无 Error 后再回答最初的问题。";
                                 "";
                                 "---";
                                 "";
                                 report]))])])]
    ∧ (main (lib := Demo.lib) (Demo.world_with 0 Demo.scenario_a_text)
            Demo.user_prompt_submit false).2 = 0%Z.
Proof.
  eexists.
  destruct (C7_prompt_submission_injects_report (lib := Demo.lib)
              (Demo.world_with 0 Demo.scenario_a_text) Demo.user_prompt_submit false
              _ _ _ _ eq_refl eq_refl eq_refl) as (_ & Hout & _).
  exact Hout.
Defined.

(** C7 as stated fails: the renderer produces the report of scenario A,
    but on a console that cannot encode the payload [print] raises
    [UnicodeEncodeError]; nothing is emitted and the process ends with
    status 1. *)
Lemma C7_counterexample :
  (∃ report,
     (generate_reason_markdown (lib := Demo.lib) (Demo.world_mute Demo.scenario_a_text)
        Demo.checker false).2 = Ok (Some report))
  ∧ (new_checker (lib := Demo.lib) (Demo.world_mute Demo.scenario_a_text)).2
    = Ok Demo.checker
  ∧ stdout_of (main (lib := Demo.lib) (Demo.world_mute Demo.scenario_a_text)
                 Demo.user_prompt_submit false).1 = []
  ∧ (main (lib := Demo.lib) (Demo.world_mute Demo.scenario_a_text)
       Demo.user_prompt_submit false).2 = 1%Z.
Proof. split; [eexists|]; vm_compute; repeat split. Qed.

(** C8, as the code has it: on an event that reads the diagnostics, when
    the locator answers, the console encodes the output, no attempt of
    the reader meets an exception its [except] clause does not name, and
    everything an attempt parses is a well-shaped snapshot whose paths
    resolve, the process ends with status 0; and when every attempt
    waits or fails with a caught exception (file missing, empty or
    blank, a failing file-system call, text that is not JSON) it prints
    nothing. *)
Theorem C8_missing_or_well_shaped_data `{lib : PyLib} (w : world)
    (hook_input : json) (debug_mode : bool) :
  diagnostics_event hook_input →
  locator_answers w →
  (∀ o, w_encodable w o = true) →
  never_escapes w →
  parses_snapshots w →
  (main w hook_input debug_mode).2 = 0%Z
  ∧ (never_parses w → stdout_of (main w hook_input debug_mode).1 = []).
Proof.
  intros Hev Hloc Henc Hesc Hsnap.
  destruct (new_checker_answers w Hloc) as [checker Hnew].
  destruct (generate_answers w checker debug_mode Hloc Hesc Hsnap)
    as (out & Hgen & Hnone).
  pose proof (new_checker_silent w) as Ht0.
  pose proof (generate_silent w checker debug_mode) as Ht1.
  destruct (new_checker w) as [t0 r0] eqn:Hinit. cbn [fst snd] in Hnew, Ht0. subst r0.
  destruct (generate_reason_markdown w checker debug_mode) as [t1 r1] eqn:Hrun.
  cbn [fst snd] in Hgen, Ht1. subst r1.
  assert ((dispatch w hook_input debug_mode).2 = Ok tt
          ∧ (report_present out = None →
             stdout_of (dispatch w hook_input debug_mode).1 = [])) as [Hd1 Hd2].
  { unfold dispatch. unfold diagnostics_event, event_name in Hev.
    destruct Hev as [Hev|Hev]; rewrite Hev, lift_bind.
    - change (py_eq_str (JStr "PostToolUse") "PostToolUse") with true.
      cbv beta iota. rewrite Hinit, run_bind. cbv beta. unfold check_and_report.
      rewrite Hrun, run_bind. cbv beta.
      destruct (report_present out) as [reason|].
      + unfold print. rewrite Henc. unfold emit. rewrite run_bind. cbv beta.
        cbn [mret io_ret fst snd]. rewrite run_bind. by cbn [mret io_ret fst snd].
      + cbn [mret io_ret fst snd]. rewrite run_bind. cbn [mret io_ret fst snd].
        split; [done|]. intros _. by rewrite !stdout_of_app, Ht0, Ht1.
    - change (py_eq_str (JStr "UserPromptSubmit") "PostToolUse") with false.
      change (py_eq_str (JStr "UserPromptSubmit") "UserPromptSubmit") with true.
      cbv beta iota. rewrite Hinit, run_bind. cbv beta. rewrite Hrun, run_bind. cbv beta.
      destruct (report_present out) as [reason|].
      + unfold print. rewrite Henc. by cbn [emit fst snd].
      + cbn [mret io_ret fst snd].
        split; [done|]. intros _. by rewrite !stdout_of_app, Ht0, Ht1. }
  unfold main. destruct (dispatch w hook_input debug_mode) as [t r].
  cbn [fst snd] in Hd1, Hd2. subst r. cbn [fst snd]. split; [done|].
  intros Hnever. apply Hd2. by rewrite (Hnone Hnever).
Qed.

Lemma C8_witness :
  ((main (lib := Demo.lib) Demo.world_absent Demo.post_tool_use false).2 = 0%Z
   ∧ stdout_of (main (lib := Demo.lib) Demo.world_absent Demo.post_tool_use false).1 = [])
  ∧ ((main (lib := Demo.lib) (Demo.world_with 0 "{") Demo.post_tool_use false).2 = 0%Z
     ∧ stdout_of (main (lib := Demo.lib) (Demo.world_with 0 "{")
                    Demo.post_tool_use false).1 = [])
  ∧ (main (lib := Demo.lib) (Demo.world_with 0 Demo.scenario_a_text)
       Demo.user_prompt_submit false).2 = 0%Z.
Proof.
  split; [|split].
  - destruct (C8_missing_or_well_shaped_data (lib := Demo.lib) Demo.world_absent
                Demo.post_tool_use false) as [Hcode Hout].
    + left. reflexivity.
    + intros ph path _. exists false. reflexivity.
    + intros o. reflexivity.
    + intros path i e _ Hv. discriminate Hv.
    + intros path i v _ Hv. discriminate Hv.
    + split; [exact Hcode|]. apply Hout. intros path i _. reflexivity.
  - destruct (C8_missing_or_well_shaped_data (lib := Demo.lib) (Demo.world_with 0 "{")
                Demo.post_tool_use false) as [Hcode Hout].
    + left. reflexivity.
    + intros ph path _. destruct ph; by eexists.
    + intros o. reflexivity.
    + intros path i e _ Hv. discriminate Hv.
    + intros path i v _ Hv. discriminate Hv.
    + split; [exact Hcode|]. apply Hout. intros path i _. reflexivity.
  - apply (C8_missing_or_well_shaped_data (lib := Demo.lib)
             (Demo.world_with 0 Demo.scenario_a_text) Demo.user_prompt_submit false).
    + right. reflexivity.
    + intros ph path _. destruct ph; by eexists.
    + intros o. reflexivity.
    + intros path i e _ Hv. discriminate Hv.
    + intros path i v _ [= <-]. split; reflexivity.
Defined.

(** C8 as stated fails: content that parses to a JSON string, to a
    number, or to a file object without the [file] field raises in the
    aggregator or the renderer, and [main] reports an internal failure
    and ends with status 1; so does a file whose bytes are not UTF-8. *)
Lemma C8_counterexample :
  main (lib := Demo.lib) (Demo.world_with 0 (Demo.quoted "abc")) Demo.post_tool_use false
  = ([EvQuery OpExists AtInit Demo.snapshot_path;
      EvSleep 3;
      EvQuery OpExists AtSettle Demo.snapshot_path;
      EvQuery OpExists (AtAttempt 0) Demo.snapshot_path;
      EvQuery OpStat (AtAttempt 0) Demo.snapshot_path;
      EvQuery OpRead (AtAttempt 0) Demo.snapshot_path;
      EvHookException AttributeError], 1%Z)
  ∧ (main (lib := Demo.lib) (Demo.world_with 0 "5") Demo.post_tool_use false).2 = 1%Z
  ∧ last_event (main (lib := Demo.lib) (Demo.world_with 0 "5")
                     Demo.post_tool_use false).1
    = Some (EvHookException TypeError)
  ∧ (main (lib := Demo.lib) (Demo.world_with 0 Demo.no_file_field_text)
          Demo.post_tool_use false).2 = 1%Z
  ∧ last_event (main (lib := Demo.lib) (Demo.world_with 0 Demo.no_file_field_text)
                     Demo.post_tool_use false).1
    = Some (EvHookException KeyError)
  ∧ (main (lib := Demo.lib) Demo.world_undecodable Demo.post_tool_use false).2 = 1%Z
  ∧ last_event (main (lib := Demo.lib) Demo.world_undecodable Demo.post_tool_use false).1
    = Some (EvHookException UnicodeDecodeError).
Proof. vm_compute. repeat split. Qed.

(** ** The scenarios of the specification *)

(** Scenario A: one Error at line 3, characters 1 to 5. *)
Example scenario_a_report :
  (render (lib := Demo.lib) false Demo.scenario_a).2 =
    Ok (Some (join nl ["### 诊断摘要";
                       "";
                       "- ❌ Error: 1";
                       "- ⚠️ Warning: 0";
                       "";
                       "### 📄 a.py (1个error)";
                       "";
                       "**第3行:1-5** - ❌ Error";
                       "- **消息**: bad syntax";
                       "- **文件路径**: `a.py`";
                       ""])).
Proof. vm_compute. reflexivity. Qed.

(** Scenario B: an Information-only snapshot gives no report. *)
Example scenario_b_silent :
  (render (lib := Demo.lib) false Demo.scenario_b).2 = Ok None.
Proof. vm_compute. reflexivity. Qed.

(** Scenario C: the file holds the empty array. *)
Example scenario_c_empty :
  analyze_statistics (JArr []) = Ok (Stats 0 0 ∅)
  ∧ main (lib := Demo.lib) (Demo.world_with 0 "[]") Demo.post_tool_use false
    = ([EvQuery OpExists AtInit Demo.snapshot_path;
        EvSleep 3;
        EvQuery OpExists AtSettle Demo.snapshot_path;
        EvQuery OpExists (AtAttempt 0) Demo.snapshot_path;
        EvQuery OpStat (AtAttempt 0) Demo.snapshot_path;
        EvQuery OpRead (AtAttempt 0) Demo.snapshot_path], 0%Z).
Proof. split; vm_compute; reflexivity. Qed.

(** The post-action event blocks with the report of scenario A. *)
Example scenario_a_blocks :
  ∃ report,
    stdout_of (main (lib := Demo.lib) (Demo.world_with 0 Demo.scenario_a_text)
                    Demo.post_tool_use false).1
    = [OutJson (block_decision report)]
    ∧ (render (lib := Demo.lib) false Demo.scenario_a).2 = Ok (Some report).
Proof. eexists. split; vm_compute; reflexivity. Qed.

(** ** Path normalisation *)

Lemma strip_prefix_app (p s rest : string) :
  strip_prefix p s = Some rest → s = p +:+ rest.
Proof.
  revert s. induction p as [|a p IH]; intros s; cbn [strip_prefix].
  - by intros [= ->].
  - destruct s as [|b s]; [done|]. destruct (Ascii.eqb_spec a b) as [->|]; [|done].
    intros H. cbn. by rewrite (IH s H).
Qed.

Lemma append_cons (c : ascii) (a b : string) :
  String c a +:+ b = String c (a +:+ b).
Proof. reflexivity. Qed.

Lemma erase_slashes_app (a b : string) :
  erase_slashes (a +:+ b) = erase_slashes a +:+ erase_slashes b.
Proof.
  induction a as [|c a IH]; [done|]. rewrite append_cons. cbn [erase_slashes].
  destruct (Ascii.eqb c backslash || Ascii.eqb c slash);
    rewrite ?append_cons; by rewrite IH.
Qed.

Lemma length_append (a b : string) :
  String.length (a +:+ b) = String.length a + String.length b.
Proof.
  induction a as [|c a IH]; [done|]. rewrite append_cons. cbn [String.length].
  by rewrite IH.
Qed.

Lemma has_char_app (c : ascii) (a b : string) :
  has_char c (a +:+ b) = has_char c a || has_char c b.
Proof.
  induction a as [|c' a IH]; [done|]. rewrite append_cons. cbn [has_char].
  by rewrite IH, orb_assoc.
Qed.

(** Replacing slashes by slashes keeps everything else. *)
Lemma replace_fuel_erase (fuel : nat) (old new s : string) :
  erase_slashes old = erase_slashes new →
  erase_slashes (replace_fuel fuel old new s) = erase_slashes s.
Proof.
  intros Hon. revert s. induction fuel as [|fuel IH]; intros s; [done|].
  cbn [replace_fuel]. destruct (strip_prefix old s) as [rest|] eqn:Hp.
  - apply strip_prefix_app in Hp as ->. by rewrite !erase_slashes_app, IH, Hon.
  - destruct s as [|c s]; [done|]. cbn.
    destruct (Ascii.eqb c backslash || Ascii.eqb c slash); by rewrite IH.
Qed.

Lemma replace_fuel_length (fuel : nat) (old new s : string) :
  String.length new ≤ String.length old →
  String.length (replace_fuel fuel old new s) ≤ String.length s.
Proof.
  intros Hon. revert s. induction fuel as [|fuel IH]; intros s; [done|].
  cbn [replace_fuel]. destruct (strip_prefix old s) as [rest|] eqn:Hp.
  - apply strip_prefix_app in Hp as ->. rewrite !length_append. specialize (IH rest). lia.
  - destruct s as [|c s]; [done|]. cbn. specialize (IH s). lia.
Qed.

Lemma until_quote_split (s body after : string) :
  until_quote s = Some (body, after) →
  s = body +:+ String dquote after ∧ has_char dquote body = false.
Proof.
  revert body. induction s as [|c s IH]; intros body; [done|]. cbn [until_quote].
  destruct (Ascii.eqb_spec c dquote) as [->|Hc].
  - by intros [= <- <-].
  - destruct (until_quote s) as [[body' after']|]; [|done].
    intros [= <- <-]. destruct (IH body' eq_refl) as [-> Hb]. split; [done|].
    cbn. rewrite Hb. by destruct (Ascii.eqb_spec c dquote).
Qed.

Lemma append_quote (body after : string) :
  (body +:+ String dquote EmptyString) +:+ after = body +:+ String dquote after.
Proof.
  induction body as [|c body IH]; [done|]. by rewrite !append_cons, IH.
Qed.

(** A match covers the quoted group at the start of the text. *)
Lemma match_windows_path_split (s group after : string) :
  match_windows_path s = Some (group, after) → s = quote_text group +:+ after.
Proof.
  unfold match_windows_path.
  destruct s as [|q [|c [|colon [|b1 [|b2 rest]]]]]; try done.
  destruct (Ascii.eqb_spec q dquote) as [->|]; [|done]. cbn [andb].
  destruct (is_letter c && Ascii.eqb colon ":" && Ascii.eqb b1 backslash
            && Ascii.eqb b2 backslash); [|done].
  destruct (until_quote rest) as [[body after']|] eqn:Hq; [|done].
  intros [= <- <-]. apply until_quote_split in Hq as [Hrest _]. subst rest.
  unfold quote_text. by rewrite !append_cons, append_quote.
Qed.

Lemma match_unc_path_split (s group after : string) :
  match_unc_path s = Some (group, after) → s = quote_text group +:+ after.
Proof.
  unfold match_unc_path.
  destruct s as [|q [|b1 [|b2 [|b3 [|b4 rest]]]]]; try done.
  destruct (Ascii.eqb_spec q dquote) as [->|]; [|done]. cbn [andb].
  destruct (Ascii.eqb b1 backslash && Ascii.eqb b2 backslash
            && Ascii.eqb b3 backslash && Ascii.eqb b4 backslash); [|done].
  destruct (until_quote rest) as [[body after']|] eqn:Hq; [|done].
  intros [= <- <-]. apply until_quote_split in Hq as [Hrest _]. subst rest.
  unfold quote_text. by rewrite !append_cons, append_quote.
Qed.

Lemma erase_quote_text (s s' : string) :
  erase_slashes s = erase_slashes s' →
  erase_slashes (quote_text s) = erase_slashes (quote_text s').
Proof.
  intros H. unfold quote_text.
  change (String dquote ?x +:+ ?y) with (String dquote (x +:+ y)).
  cbn [erase_slashes]. change (Ascii.eqb dquote backslash || Ascii.eqb dquote slash) with false.
  cbv iota. by rewrite !erase_slashes_app, H.
Qed.

Lemma length_quote_text (s : string) :
  String.length (quote_text s) = String.length s + 2.
Proof.
  unfold quote_text. rewrite append_cons. cbn [String.length].
  rewrite length_append. cbn [String.length]. lia.
Qed.

Lemma replace_path_erase (path : string) :
  erase_slashes (replace_path path) = erase_slashes (quote_text path).
Proof.
  unfold replace_path, py_replace. apply erase_quote_text.
  by rewrite !replace_fuel_erase.
Qed.

Lemma replace_unc_path_erase (path : string) :
  erase_slashes (replace_unc_path path) = erase_slashes (quote_text path).
Proof.
  unfold replace_unc_path, py_replace. apply erase_quote_text.
  by rewrite !replace_fuel_erase.
Qed.

Lemma replace_path_length (path : string) :
  String.length (replace_path path) ≤ String.length (quote_text path).
Proof.
  unfold replace_path, py_replace. rewrite !length_quote_text.
  set (p1 := replace_fuel (String.length path) bs2 "/" path).
  assert (String.length p1 ≤ String.length path) as H1
    by (apply replace_fuel_length; vm_compute; lia).
  assert (String.length (replace_fuel (String.length p1) bs1 "/" p1)
          ≤ String.length p1) as H2
    by (apply replace_fuel_length; vm_compute; lia).
  lia.
Qed.

Lemma replace_unc_path_length (path : string) :
  String.length (replace_unc_path path) ≤ String.length (quote_text path).
Proof.
  unfold replace_unc_path, py_replace. rewrite !length_quote_text.
  set (p1 := replace_fuel (String.length path) bs4 "//" path).
  set (p2 := replace_fuel (String.length p1) bs2 "/" p1).
  assert (String.length p1 ≤ String.length path) as H1
    by (apply replace_fuel_length; vm_compute; lia).
  assert (String.length p2 ≤ String.length p1) as H2
    by (apply replace_fuel_length; vm_compute; lia).
  assert (String.length (replace_fuel (String.length p2) bs1 "/" p2)
          ≤ String.length p2) as H3
    by (apply replace_fuel_length; vm_compute; lia).
  lia.
Qed.

(** A substitution whose matches cover a quoted group and whose
    replacement keeps everything but slashes keeps everything but
    slashes, and does not lengthen the text if the replacement does not. *)
Lemma re_sub_fuel_erase (fuel : nat) (match_at : string → option (string * string))
    (repl : string → string) (s : string) :
  (∀ s group after, match_at s = Some (group, after) → s = quote_text group +:+ after) →
  (∀ group, erase_slashes (repl group) = erase_slashes (quote_text group)) →
  erase_slashes (re_sub_fuel fuel match_at repl s) = erase_slashes s.
Proof.
  intros Hm Hr. revert s. induction fuel as [|fuel IH]; intros s; [done|].
  cbn [re_sub_fuel]. destruct (match_at s) as [[group after]|] eqn:Hs.
  - rewrite (Hm _ _ _ Hs). by rewrite !erase_slashes_app, IH, Hr.
  - destruct s as [|c s]; [done|]. cbn.
    destruct (Ascii.eqb c backslash || Ascii.eqb c slash); by rewrite IH.
Qed.

Lemma re_sub_fuel_length (fuel : nat) (match_at : string → option (string * string))
    (repl : string → string) (s : string) :
  (∀ s group after, match_at s = Some (group, after) → s = quote_text group +:+ after) →
  (∀ group, String.length (repl group) ≤ String.length (quote_text group)) →
  String.length (re_sub_fuel fuel match_at repl s) ≤ String.length s.
Proof.
  intros Hm Hr. revert s. induction fuel as [|fuel IH]; intros s; [done|].
  cbn [re_sub_fuel]. destruct (match_at s) as [[group after]|] eqn:Hs.
  - rewrite (Hm _ _ _ Hs). rewrite !length_append.
    specialize (IH after). specialize (Hr group). lia.
  - destruct s as [|c s]; [done|]. cbn. specialize (IH s). lia.
Qed.

(** X1: normalisation changes slashes only: with the backslashes and the
    forward slashes erased, the normalised text and the original text
    are the same, and the normalised text is not longer. *)
Theorem normalize_changes_slashes_only (json_text : string) :
  erase_slashes (normalize_paths_in_json json_text) = erase_slashes json_text
  ∧ String.length (normalize_paths_in_json json_text) ≤ String.length json_text.
Proof.
  unfold normalize_paths_in_json, re_sub. split.
  - rewrite !re_sub_fuel_erase;
      auto using match_windows_path_split, match_unc_path_split,
                 replace_path_erase, replace_unc_path_erase.
  - etransitivity;
      [apply re_sub_fuel_length;
       auto using match_unc_path_split, replace_unc_path_length|].
    apply re_sub_fuel_length;
      auto using match_windows_path_split, replace_path_length.
Qed.

Lemma no_backslash_no_match (s : string) :
  has_char backslash s = false →
  match_windows_path s = None ∧ match_unc_path s = None.
Proof.
  unfold match_windows_path, match_unc_path.
  destruct s as [|q [|c [|c2 [|c3 [|c4 rest]]]]]; try done. cbn [has_char].
  intros H. repeat (apply orb_false_elim in H as [? H]).
  split.
  - destruct (Ascii.eqb_spec c3 backslash) as [->|]; [done|].
    by rewrite !andb_false_r.
  - destruct (Ascii.eqb_spec c backslash) as [->|]; [done|].
    by rewrite !andb_false_r.
Qed.

Lemma re_sub_fuel_no_match (fuel : nat) (match_at : string → option (string * string))
    (repl : string → string) (s : string) :
  (∀ s, has_char backslash s = false → match_at s = None) →
  has_char backslash s = false →
  re_sub_fuel fuel match_at repl s = s.
Proof.
  intros Hm. revert s. induction fuel as [|fuel IH]; intros s Hs; [done|].
  cbn [re_sub_fuel]. rewrite (Hm s Hs). destruct s as [|c s]; [done|].
  cbn [has_char] in Hs. apply orb_false_elim in Hs as [_ Hs]. by rewrite IH.
Qed.

(** X2: a text without any backslash is left as it is. *)
Theorem normalize_without_backslash (json_text : string) :
  has_char backslash json_text = false →
  normalize_paths_in_json json_text = json_text.
Proof.
  intros H. unfold normalize_paths_in_json, re_sub.
  rewrite (re_sub_fuel_no_match _ match_windows_path); [|apply no_backslash_no_match|done].
  apply re_sub_fuel_no_match; [apply no_backslash_no_match | done].
Qed.

Lemma normalize_without_backslash_witness :
  normalize_paths_in_json "[]" = "[]".
Proof. apply normalize_without_backslash. reflexivity. Defined.

Lemma append_nil_r (s : string) : s +:+ EmptyString = s.
Proof. induction s as [|c s IH]; [done|]. by rewrite append_cons, IH. Qed.

Lemma until_quote_closed (body after : string) :
  has_char dquote body = false →
  until_quote (body +:+ String dquote after) = Some (body, after).
Proof.
  induction body as [|c body IH]; intros H.
  - done.
  - rewrite append_cons. cbn [until_quote]. cbn [has_char] in H.
    apply orb_false_elim in H as [Hc Hb]. rewrite Hc, (IH Hb). done.
Qed.

Lemma re_sub_fuel_empty (fuel : nat) (match_at : string → option (string * string))
    (repl : string → string) :
  match_at EmptyString = None → re_sub_fuel fuel match_at repl EmptyString = EmptyString.
Proof. intros H. destruct fuel as [|fuel]; [done|]. cbn [re_sub_fuel]. by rewrite H. Qed.

Lemma re_sub_fuel_match (fuel : nat) (match_at : string → option (string * string))
    (repl : string → string) (s group after : string) :
  match_at s = Some (group, after) →
  re_sub_fuel (S fuel) match_at repl s
  = repl group +:+ re_sub_fuel fuel match_at repl after.
Proof. intros H. cbn [re_sub_fuel]. by rewrite H. Qed.

(** With the length of the text as fuel, replacing the single
    backslash leaves none. *)
Lemma replace_backslash_fuel (fuel : nat) (s : string) :
  String.length s ≤ fuel →
  has_char backslash (replace_fuel fuel bs1 "/" s) = false.
Proof.
  revert s. induction fuel as [|fuel IH]; intros s Hlen.
  - destruct s; [done | cbn in Hlen; lia].
  - cbn [replace_fuel]. destruct s as [|c s]; [done|].
    cbn [bs1 strip_prefix]. cbn [String.length] in Hlen.
    destruct (Ascii.eqb_spec backslash c) as [<-|Hc].
    + rewrite append_cons. cbn [has_char String.append].
      change (Ascii.eqb "/" backslash) with false. apply IH. lia.
    + cbn [has_char]. rewrite IH by lia.
      destruct (Ascii.eqb_spec c backslash); [congruence | done].
Qed.

Lemma replace_backslash_none (s : string) :
  has_char backslash (py_replace bs1 "/" s) = false.
Proof. apply replace_backslash_fuel. done. Qed.

Lemma has_char_quote_text (s : string) :
  has_char backslash (quote_text s) = has_char backslash s.
Proof.
  unfold quote_text. rewrite append_cons. cbn [has_char].
  rewrite has_char_app. cbn [has_char].
  change (Ascii.eqb dquote backslash) with false. by rewrite !orb_false_r.
Qed.

(** X3: a text that is one double-quoted drive path (a letter, a colon,
    two backslashes and any characters but the double quote) is
    replaced by the quoted path with every backslash turned into a
    forward slash: the result holds no backslash. *)
Theorem normalize_drive_path (c : ascii) (body : string) :
  is_letter c = true →
  has_char dquote body = false →
  normalize_paths_in_json
    (quote_text (String c (String ":" (String backslash (String backslash body)))))
  = quote_text
      (py_replace bs1 "/"
         (py_replace bs2 "/"
            (String c (String ":" (String backslash (String backslash body))))))
  ∧ has_char backslash
      (normalize_paths_in_json
         (quote_text (String c (String ":" (String backslash (String backslash body))))))
    = false.
Proof.
  intros Hc Hbody.
  set (path := String c (String ":" (String backslash (String backslash body)))).
  assert (match_windows_path (quote_text path) = Some (path, EmptyString)) as Hm.
  { unfold path, quote_text. rewrite !append_cons.
    unfold match_windows_path. rewrite Hc.
    change (Ascii.eqb dquote dquote) with true.
    change (Ascii.eqb ":" ":") with true.
    change (Ascii.eqb backslash backslash) with true. cbn [andb].
    by rewrite (until_quote_closed body EmptyString Hbody). }
  assert (re_sub match_windows_path replace_path (quote_text path) = replace_path path)
    as Hfirst.
  { unfold re_sub. rewrite length_quote_text, Nat.add_comm. cbn [Nat.add].
    rewrite re_sub_fuel_match with (group := path) (after := EmptyString) by done.
    rewrite re_sub_fuel_empty by done. apply append_nil_r. }
  assert (has_char backslash (replace_path path) = false) as Hnone.
  { unfold replace_path. rewrite has_char_quote_text. apply replace_backslash_none. }
  unfold normalize_paths_in_json. rewrite Hfirst.
  unfold re_sub. rewrite re_sub_fuel_no_match; [done | apply no_backslash_no_match | done].
Qed.

Lemma normalize_drive_path_witness :
  normalize_paths_in_json
    (quote_text ("C:" +:+ bs2 +:+ "proj" +:+ bs2 +:+ "a.py"))
  = quote_text "C:/proj/a.py".
Proof.
  destruct (normalize_drive_path "C"%char ("proj" +:+ bs2 +:+ "a.py")) as [H _].
  - reflexivity.
  - reflexivity.
  - exact H.
Defined.

(** The fuel of the two scanners is enough: more fuel than the length
    of the text gives the same result. *)
Lemma strip_prefix_shorter (p s rest : string) :
  p ≠ EmptyString → strip_prefix p s = Some rest → String.length rest < String.length s.
Proof.
  intros Hp H. apply strip_prefix_app in H as ->. rewrite length_append.
  destruct p; [done | cbn; lia].
Qed.

Lemma replace_fuel_enough (old new : string) (n m : nat) (s : string) :
  old ≠ EmptyString → String.length s ≤ n → String.length s ≤ m →
  replace_fuel n old new s = replace_fuel m old new s.
Proof.
  intros Hold. revert m s. induction n as [|n IH]; intros m s Hn Hm.
  - destruct s; [|cbn in Hn; lia]. destruct m; [done|]. cbn [replace_fuel].
    destruct old; done.
  - destruct m as [|m].
    + destruct s; [|cbn in Hm; lia]. cbn [replace_fuel]. destruct old; done.
    + cbn [replace_fuel]. destruct (strip_prefix old s) as [rest|] eqn:Hp.
      * pose proof (strip_prefix_shorter old s rest Hold Hp). f_equal. apply IH; lia.
      * destruct s as [|c s]; [done|]. cbn [String.length] in Hn, Hm.
        f_equal. apply IH; lia.
Qed.

Lemma re_sub_fuel_enough (match_at : string → option (string * string))
    (repl : string → string) (n m : nat) (s : string) :
  (∀ s group after, match_at s = Some (group, after) → s = quote_text group +:+ after) →
  String.length s ≤ n → String.length s ≤ m →
  re_sub_fuel n match_at repl s = re_sub_fuel m match_at repl s.
Proof.
  intros Hsplit. revert m s. induction n as [|n IH]; intros m s Hn Hm.
  - destruct s; [|cbn in Hn; lia]. destruct m; [done|]. cbn [re_sub_fuel].
    destruct (match_at EmptyString) as [[group after]|] eqn:H; [|done].
    apply Hsplit in H. discriminate H.
  - destruct m as [|m].
    + destruct s; [|cbn in Hm; lia]. cbn [re_sub_fuel].
      destruct (match_at EmptyString) as [[group after]|] eqn:H; [|done].
      apply Hsplit in H. discriminate H.
    + cbn [re_sub_fuel]. destruct (match_at s) as [[group after]|] eqn:H.
      * pose proof (Hsplit _ _ _ H) as Hs.
        assert (String.length after < String.length s).
        { rewrite Hs, length_append, length_quote_text. lia. }
        f_equal. apply IH; lia.
      * destruct s as [|c s]; [done|]. cbn [String.length] in Hn, Hm.
        f_equal. apply IH; lia.
Qed.

(** ** The reader, attempt by attempt *)

Lemma sleeps_before_fifth `{lib : PyLib} (w : world) (path : string) (i : nat) :
  i < 5 →
  length (filter (λ j, match outcome w path j with
                       | Fails _ => j <? 4
                       | _ => true
                       end = true) (seq 0 i)) = i.
Proof.
  intros Hi. induction i as [|i IH]; [done|].
  rewrite seq_S, filter_app, length_app, IH by lia. cbn [Nat.add].
  rewrite filter_cons. destruct (Nat.ltb_spec i 4); [|lia].
  destruct (outcome w path i); case_decide; rewrite ?filter_nil; cbn [length];
    done || lia.
Qed.

Lemma no_failure_before_fifth `{lib : PyLib} (w : world) (path : string) (i : nat) :
  i < 5 →
  omap (λ j, match outcome w path j with
             | Fails e => if j <? 4 then None else Some (j + 1, e)
             | _ => None
             end) (seq 0 i) = [].
Proof.
  intros Hi. induction i as [|i IH]; [done|].
  rewrite seq_S, omap_app, IH by lia. cbn [omap list_omap Nat.add].
  destruct (outcome w path i); try done.
  by destruct (Nat.ltb_spec i 4); [|lia].
Qed.

(** X4: when attempt [i] is the first whose content parses, after
    attempts that waited or failed with a caught exception, the reader
    returns that content after [i + 1] attempts, having slept exactly
    [i] seconds and printed no failure line. *)
Theorem reader_first_success_latency `{lib : PyLib} (w : world) (path : string)
    (i : nat) (v : json) :
  i < 5 →
  (∀ j, j < i → goes_on (outcome w path j) = true) →
  outcome w path i = Parsed v →
  (load_diagnostics w (Checker (Some path))).2 = Ok v
  ∧ attempts_made (load_diagnostics w (Checker (Some path))).1 = i + 1
  ∧ total_sleep (load_diagnostics w (Checker (Some path))).1 = i
  ∧ read_failures (load_diagnostics w (Checker (Some path))).1 = [].
Proof.
  intros Hi Hpre Hv. unfold load_diagnostics. cbn [diagnostics_file].
  destruct (retry_first_parsed w path i 5 v Hi Hpre Hv) as (t & -> & Ha & _ & Hs & Hf).
  cbn [fst snd]. rewrite Hs, Hf, sleeps_before_fifth, no_failure_before_fifth by done.
  done.
Qed.

Lemma reader_first_success_latency_witness :
  (load_diagnostics (lib := Demo.lib) (Demo.world_with 2 Demo.scenario_a_text)
     Demo.checker).2 = Ok Demo.scenario_a
  ∧ total_sleep (load_diagnostics (lib := Demo.lib)
                   (Demo.world_with 2 Demo.scenario_a_text) Demo.checker).1 = 2.
Proof.
  destruct (reader_first_success_latency (lib := Demo.lib)
              (Demo.world_with 2 Demo.scenario_a_text) Demo.snapshot_path 2
              Demo.scenario_a) as (H1 & _ & H2 & _).
  - lia.
  - intros [|[|j]] Hj; [reflexivity | reflexivity | lia].
  - reflexivity.
  - split; [exact H1 | exact H2].
Defined.

(** X5: when every attempt waits or fails with a caught exception, the
    reader returns the empty list after five attempts; it has slept
    four seconds if the fifth attempt failed with an exception, and then
    printed one failure line naming attempt 5 and that exception; it has
    slept five seconds and printed no failure line if the fifth attempt
    found the file absent, empty or blank. *)
Theorem reader_exhaustion `{lib : PyLib} (w : world) (path : string) :
  (∀ i, i < 5 → goes_on (outcome w path i) = true) →
  (load_diagnostics w (Checker (Some path))).2 = Ok (JArr [])
  ∧ attempts_made (load_diagnostics w (Checker (Some path))).1 = 5
  ∧ total_sleep (load_diagnostics w (Checker (Some path))).1
    = match outcome w path 4 with
      | Fails _ => 4
      | _ => 5
      end
  ∧ read_failures (load_diagnostics w (Checker (Some path))).1
    = match outcome w path 4 with
      | Fails e => [(5, e)]
      | _ => []
      end.
Proof.
  intros Hnone. unfold load_diagnostics. cbn [diagnostics_file].
  destruct (retry_goes_on w path (seq 0 5)) as (t & Hr & Ha & _ & Hs & Hf).
  { apply Forall_forall. intros j Hj%list_elem_of_In%in_seq. apply Hnone. lia. }
  specialize (Hr []). rewrite app_nil_r in Hr. rewrite Hr.
  cbn [retry mret io_ret fst snd]. rewrite app_nil_r, Ha, Hs, Hf. cbn [seq].
  split; [done|]. split; [done|].
  rewrite !filter_cons. cbn [omap list_omap].
  pose proof (Hnone 4 ltac:(lia)) as H4.
  destruct (outcome w path 0); destruct (outcome w path 1);
    destruct (outcome w path 2); destruct (outcome w path 3);
    destruct (outcome w path 4); try discriminate H4; done.
Qed.

Lemma reader_exhaustion_witness :
  total_sleep (load_diagnostics (lib := Demo.lib) (Demo.world_with 0 "{")
                 Demo.checker).1 = 4
  ∧ read_failures (load_diagnostics (lib := Demo.lib) (Demo.world_with 0 "{")
                     Demo.checker).1 = [(5, JSONDecodeError)].
Proof.
  destruct (reader_exhaustion (lib := Demo.lib) (Demo.world_with 0 "{")
              Demo.snapshot_path) as (_ & _ & H1 & H2).
  - intros i _. reflexivity.
  - split; [exact H1 | exact H2].
Defined.

(** ** Locator, settle period and waiting time *)

Section Waiting.

Context `{lib : PyLib}.
Variable w : world.

Lemma io_bind_run {A B : Type} (m : io A) (f : A → io B) (t : list event) (a : A) :
  m = (t, Ok a) → m ≫= f = (t ++ (f a).1, (f a).2).
Proof. intros ->. apply run_bind. Qed.

Lemma fs_exists_eq (ph : phase) (path : string) :
  fs_exists w ph path = ([EvQuery OpExists ph path], of_sys (w_exists w ph path)).
Proof. reflexivity. Qed.

Lemma fs_exists_run (ph : phase) (path : string) (b : bool) :
  w_exists w ph path = SysOk b →
  fs_exists w ph path = ([EvQuery OpExists ph path], Ok b).
Proof. intros H. unfold fs_exists. by rewrite H. Qed.


Lemma first_existing_none (ph : phase) (paths : list string) :
  (∀ q, In q paths → w_exists w ph q = SysOk false) →
  first_existing w ph paths = (EvQuery OpExists ph <$> paths, Ok None).
Proof.
  intros Hall. induction paths as [|q paths IH]; [done|]. cbn [first_existing].
  rewrite (io_bind_run _ _ _ _ (fs_exists_run ph q false (Hall q (or_introl eq_refl)))).
  cbv beta iota. rewrite IH; [done|]. intros q' Hq'. apply Hall. by right.
Qed.

Lemma total_sleep_bind {A B : Type} (m : io A) (f : A → io B) :
  total_sleep (m ≫= f).1
  = total_sleep m.1 + match m.2 with
                      | Ok a => total_sleep (f a).1
                      | Raise _ => 0
                      end.
Proof.
  rewrite io_bind_fst. destruct (m.2); [apply total_sleep_app | lia].
Qed.

Lemma attempts_made_bind {A B : Type} (m : io A) (f : A → io B) :
  attempts_made (m ≫= f).1
  = attempts_made m.1 + match m.2 with
                        | Ok a => attempts_made (f a).1
                        | Raise _ => 0
                        end.
Proof.
  rewrite io_bind_fst. destruct (m.2); [apply attempts_made_app | lia].
Qed.

Lemma debug_log_no_sleep (debug_mode : bool) (msg : string) :
  total_sleep (debug_log debug_mode msg).1 = 0.
Proof. by destruct debug_mode. Qed.

Lemma debug_log_no_attempt (debug_mode : bool) (msg : string) :
  attempts_made (debug_log debug_mode msg).1 = 0.
Proof. by destruct debug_mode. Qed.

Lemma first_existing_no_sleep (ph : phase) (paths : list string) :
  total_sleep (first_existing w ph paths).1 = 0.
Proof.
  induction paths as [|p paths IH]; [done|]. cbn [first_existing].
  rewrite total_sleep_bind, fs_exists_eq. cbn [fst snd total_sleep foldr].
  destruct (of_sys (w_exists w ph p)) as [[|]|]; done.
Qed.

Lemma relocate_sleep (debug_mode : bool) :
  total_sleep (relocate w debug_mode).1 = 2.
Proof.
  unfold relocate, _locate_diagnostics_file.
  rewrite total_sleep_bind, debug_log_no_sleep, debug_log_result.
  rewrite total_sleep_bind. cbn [sleep emit fst snd total_sleep foldr].
  rewrite total_sleep_bind, first_existing_no_sleep.
  by destruct ((first_existing w AtRelocate (w_possible_paths w)).2).
Qed.

Lemma settle_sleep (self : DiagnosticsChecker) (debug_mode : bool) :
  total_sleep (settle w self debug_mode).1 = 0
  ∨ total_sleep (settle w self debug_mode).1 = 2.
Proof.
  unfold settle. destruct (diagnostics_file self) as [path|];
    [|right; apply relocate_sleep].
  rewrite !total_sleep_bind, fs_exists_eq. cbn [fst snd total_sleep foldr].
  destruct (of_sys (w_exists w AtSettle path)) as [[|]|]; cbn [Nat.add];
    [by left | right; apply relocate_sleep | by left].
Qed.

Lemma retry_sleep_bound (path : string) (attempts : list nat) :
  total_sleep (retry w path attempts).1 ≤ length attempts.
Proof.
  induction attempts as [|i attempts IH]; [done|].
  destruct (attempt_once_outcome w path i) as (t & Ht & _ & _ & Hs & _).
  rewrite retry_cons, Ht. cbn [length].
  destruct (outcome w path i) as [v| |e|e]; cbn [next_step fst];
    rewrite ?total_sleep_app, Hs; [cbn; lia | lia | | lia].
  destruct (i <? 4); lia.
Qed.

Lemma load_sleep_bound (self : DiagnosticsChecker) :
  total_sleep (load_diagnostics w self).1 ≤ 5.
Proof.
  unfold load_diagnostics. destruct (diagnostics_file self) as [path|]; [|cbn; lia].
  pose proof (retry_sleep_bound path (seq 0 5)) as H. by rewrite length_seq in H.
Qed.

Lemma render_no_sleep (debug_mode : bool) (data : json) :
  total_sleep (render debug_mode data).1 = 0.
Proof.
  unfold render. destruct (negb (truthy data)).
  - by rewrite total_sleep_bind, debug_log_no_sleep, debug_log_result.
  - rewrite total_sleep_bind. unfold lift at 1 2. cbn [fst snd total_sleep foldr].
    destruct (analyze_statistics data) as [stats|e]; [|done].
    rewrite total_sleep_bind, debug_log_no_sleep, debug_log_result.
    match goal with |- context [if ?b then _ else _] => destruct b end.
    + by rewrite total_sleep_bind, debug_log_no_sleep, debug_log_result.
    + rewrite total_sleep_bind, debug_log_no_sleep, debug_log_result.
      rewrite total_sleep_bind. unfold lift. cbn [fst snd total_sleep foldr].
      by destruct (detail_lines data).
Qed.

End Waiting.



(** X7: generating the report always sleeps at least 3 and at most 10
    seconds: the settle period, at most one extra wait of 2 seconds
    before the second resolution, and at most 5 seconds in the reader. *)
Theorem generate_sleep_bounds `{lib : PyLib} (w : world) (self : DiagnosticsChecker)
    (debug_mode : bool) :
  3 ≤ total_sleep (generate_reason_markdown w self debug_mode).1
  ∧ total_sleep (generate_reason_markdown w self debug_mode).1 ≤ 10.
Proof.
  unfold generate_reason_markdown.
  rewrite !total_sleep_bind, !debug_log_no_sleep, !debug_log_result.
  cbn [sleep emit fst snd total_sleep foldr].
  pose proof (settle_sleep w self debug_mode) as Hsettle.
  destruct ((settle w self debug_mode).2) as [self'|e]; [|lia].
  rewrite total_sleep_bind.
  assert (total_sleep (log_location self' debug_mode).1 = 0) as ->
    by (unfold log_location; destruct (diagnostics_file self'); apply debug_log_no_sleep).
  rewrite log_location_result, total_sleep_bind.
  pose proof (load_sleep_bound w self') as Hload.
  destruct ((load_diagnostics w self').2) as [data|e]; [|lia].
  rewrite render_no_sleep. lia.
Qed.

(** The upper bound is reached when the file disappears after the
    settle period and is found again by the second resolution only. *)
Example generate_sleep_ten :
  total_sleep (generate_reason_markdown (lib := Demo.lib) world_flicker
                 Demo.checker false).1 = 10.
Proof. vm_compute. reflexivity. Qed.

(** ** The debug flag *)

Lemma without_debug_app (t t' : list event) :
  without_debug (t ++ t') = without_debug t ++ without_debug t'.
Proof. unfold without_debug. apply filter_app. Qed.

Lemma stdout_of_cons (e : event) (t : list event) :
  stdout_of (e :: t)
  = match e with EvStdout o => [o] | _ => [] end ++ stdout_of t.
Proof. by destruct e. Qed.

Lemma total_sleep_cons (e : event) (t : list event) :
  total_sleep (e :: t) = match e with EvSleep n => n | _ => 0 end + total_sleep t.
Proof. by destruct e. Qed.

Lemma attempts_made_cons (e : event) (t : list event) :
  attempts_made (e :: t) = (if is_attempt e then 1 else 0) + attempts_made t.
Proof.
  unfold attempts_made. rewrite filter_cons. destruct (is_attempt e); by case_decide.
Qed.

Lemma fs_queries_cons (e : event) (t : list event) :
  fs_queries (e :: t) = (if is_query e then [e] else []) ++ fs_queries t.
Proof.
  unfold fs_queries. rewrite filter_cons. destruct (is_query e); by case_decide.
Qed.

Lemma without_debug_cons (e : event) (t : list event) :
  without_debug (e :: t)
  = (if is_debug_line e then [] else [e]) ++ without_debug t.
Proof.
  unfold without_debug. rewrite filter_cons. destruct (is_debug_line e); by case_decide.
Qed.

Lemma stdout_without_debug (t : list event) :
  stdout_of (without_debug t) = stdout_of t.
Proof.
  induction t as [|e t IH]; [done|].
  rewrite without_debug_cons.
  destruct e; cbn [is_debug_line app]; rewrite ?stdout_of_cons, IH; done.
Qed.

Lemma sleep_without_debug (t : list event) :
  total_sleep (without_debug t) = total_sleep t.
Proof.
  induction t as [|e t IH]; [done|].
  rewrite without_debug_cons.
  destruct e; cbn [is_debug_line app]; rewrite ?total_sleep_cons, IH; done.
Qed.

Lemma attempts_without_debug (t : list event) :
  attempts_made (without_debug t) = attempts_made t.
Proof.
  induction t as [|e t IH]; [done|].
  rewrite without_debug_cons.
  destruct e; cbn [is_debug_line app]; rewrite ?attempts_made_cons, IH; done.
Qed.

Lemma queries_without_debug (t : list event) :
  fs_queries (without_debug t) = fs_queries t.
Proof.
  induction t as [|e t IH]; [done|].
  rewrite without_debug_cons.
  destruct e; cbn [is_debug_line app]; rewrite ?fs_queries_cons, IH; done.
Qed.

Lemma same_but_debug_refl {A : Type} (m : io A) : same_but_debug m m.
Proof. done. Qed.

Lemma same_but_debug_bind {A B : Type} (m m' : io A) (f f' : A → io B) :
  same_but_debug m m' →
  (∀ a, same_but_debug (f a) (f' a)) →
  same_but_debug (m ≫= f) (m' ≫= f').
Proof.
  destruct m as [t r], m' as [t' r']. intros [Hr Ht] Hf. cbn [fst snd] in Hr, Ht.
  subst r'. destruct r as [a|e]; [|done].
  rewrite !run_bind. destruct (Hf a) as [Hfr Hft]. split; cbn [fst snd]; [done|].
  by rewrite !without_debug_app, Ht, Hft.
Qed.

Lemma same_but_debug_log (d d' : bool) (msg : string) :
  same_but_debug (debug_log d msg) (debug_log d' msg).
Proof. by destruct d, d'. Qed.

Section DebugFlag.

Context `{lib : PyLib}.
Variable w : world.
Variables d d' : bool.

Lemma render_same (data : json) : same_but_debug (render d data) (render d' data).
Proof.
  unfold render. destruct (negb (truthy data)).
  - apply same_but_debug_bind; [apply same_but_debug_log | done].
  - apply same_but_debug_bind; [done|]. intros stats.
    apply same_but_debug_bind; [apply same_but_debug_log|]. intros _.
    match goal with |- context [if ?b then _ else _] => destruct b end.
    + apply same_but_debug_bind; [apply same_but_debug_log | done].
    + apply same_but_debug_bind; [apply same_but_debug_log | done].
Qed.

Lemma relocate_same : same_but_debug (relocate w d) (relocate w d').
Proof.
  unfold relocate. apply same_but_debug_bind; [apply same_but_debug_log | done].
Qed.

Lemma settle_same (self : DiagnosticsChecker) :
  same_but_debug (settle w self d) (settle w self d').
Proof.
  unfold settle. destruct (diagnostics_file self); [|apply relocate_same].
  apply same_but_debug_bind; [done|]. intros [|]; [done | apply relocate_same].
Qed.

Lemma generate_same (self : DiagnosticsChecker) :
  same_but_debug (generate_reason_markdown w self d) (generate_reason_markdown w self d').
Proof.
  unfold generate_reason_markdown.
  apply same_but_debug_bind; [apply same_but_debug_log|]. intros _.
  apply same_but_debug_bind; [apply same_but_debug_log|]. intros _.
  apply same_but_debug_bind; [done|]. intros _.
  apply same_but_debug_bind; [apply settle_same|]. intros self'.
  apply same_but_debug_bind.
  { unfold log_location. destruct (diagnostics_file self'); apply same_but_debug_log. }
  intros _. apply same_but_debug_bind; [done|]. intros data. apply render_same.
Qed.

Lemma dispatch_same (hook_input : json) :
  same_but_debug (dispatch w hook_input d) (dispatch w hook_input d').
Proof.
  unfold dispatch. apply same_but_debug_bind; [done|]. intros name.
  destruct (py_eq_str name "PostToolUse").
  - apply same_but_debug_bind; [done|]. intros checker.
    apply same_but_debug_bind; [|done]. unfold check_and_report.
    apply same_but_debug_bind; [apply generate_same | done].
  - destruct (py_eq_str name "UserPromptSubmit"); [|done].
    apply same_but_debug_bind; [done|]. intros checker.
    apply same_but_debug_bind; [apply generate_same | done].
Qed.

End DebugFlag.

Lemma main_same `{lib : PyLib} (w : world) (hook_input : json) (d d' : bool) :
  (main w hook_input d).2 = (main w hook_input d').2
  ∧ without_debug (main w hook_input d).1 = without_debug (main w hook_input d').1.
Proof.
  destruct (dispatch_same w d d' hook_input) as [Hr Ht]. unfold main.
  destruct (dispatch w hook_input d) as [t r], (dispatch w hook_input d') as [t' r'].
  cbn [fst snd] in Hr, Ht. subst r'. destruct r as [u|[]]; cbn [fst snd];
    rewrite ?without_debug_app, ?Ht; done.
Qed.

(** X8: the debug flag changes nothing but the debug lines on standard
    error: with and without it the hook ends with the same status and
    prints the same lines on standard output, sleeps as long and makes
    the same queries to the file system. *)
Theorem debug_flag_changes_only_debug_lines `{lib : PyLib} (w : world)
    (hook_input : json) (d d' : bool) :
  (main w hook_input d).2 = (main w hook_input d').2
  ∧ without_debug (main w hook_input d).1 = without_debug (main w hook_input d').1
  ∧ stdout_of (main w hook_input d).1 = stdout_of (main w hook_input d').1
  ∧ total_sleep (main w hook_input d).1 = total_sleep (main w hook_input d').1
  ∧ fs_queries (main w hook_input d).1 = fs_queries (main w hook_input d').1.
Proof.
  destruct (main_same w hook_input d d') as [Hs Ht].
  split; [exact Hs|]. split; [exact Ht|].
  rewrite <- (stdout_without_debug (main w hook_input d).1),
          <- (sleep_without_debug (main w hook_input d).1),
          <- (queries_without_debug (main w hook_input d).1), Ht.
  by rewrite stdout_without_debug, sleep_without_debug, queries_without_debug.
Qed.

(** ** No snapshot file anywhere *)

Section NoFile.

Context `{lib : PyLib}.
Variable w : world.

Lemma new_checker_none :
  nothing_located w AtInit →
  new_checker w = (EvQuery OpExists AtInit <$> w_possible_paths w, Ok (Checker None)).
Proof.
  intros H. unfold new_checker, _locate_diagnostics_file.
  rewrite (first_existing_none w AtInit _ H), run_bind. cbn [mret io_ret fst snd].
  by rewrite app_nil_r.
Qed.

Lemma generate_none_quiet :
  nothing_located w AtRelocate →
  generate_reason_markdown w (Checker None) false
  = (EvSleep 3 :: EvSleep 2 :: (EvQuery OpExists AtRelocate <$> w_possible_paths w),
     Ok None).
Proof.
  intros H. unfold generate_reason_markdown, settle, relocate, _locate_diagnostics_file.
  cbn [diagnostics_file debug_log]. rewrite (first_existing_none w AtRelocate _ H).
  unfold sleep, emit, mret, io_ret. rewrite !run_bind. cbn [fst snd].
  rewrite !run_bind. cbn [fst snd log_location diagnostics_file debug_log load_diagnostics].
  unfold mret, io_ret. rewrite !run_bind. cbn [fst snd render truthy negb debug_log].
  unfold mret, io_ret. rewrite !run_bind. cbn [fst snd app]. by rewrite !app_nil_r.
Qed.

Lemma main_none_quiet (hook_input : json) :
  diagnostics_event hook_input →
  nothing_located w AtInit →
  nothing_located w AtRelocate →
  main w hook_input false
  = ((EvQuery OpExists AtInit <$> w_possible_paths w)
       ++ EvSleep 3 :: EvSleep 2 :: (EvQuery OpExists AtRelocate <$> w_possible_paths w),
     0%Z).
Proof.
  intros Hev Hi Hr.
  assert (dispatch w hook_input false
          = ((EvQuery OpExists AtInit <$> w_possible_paths w)
               ++ EvSleep 3 :: EvSleep 2
               :: (EvQuery OpExists AtRelocate <$> w_possible_paths w), Ok tt)) as Hd.
  { unfold dispatch.
    destruct Hev as [Hev|Hev]; unfold event_name in Hev; rewrite Hev; unfold lift;
      rewrite run_bind; cbv beta.
    - change (py_eq_str (JStr "PostToolUse") "PostToolUse") with true. cbv iota.
      rewrite (new_checker_none Hi). cbn [fst snd app]. rewrite run_bind.
      unfold check_and_report. rewrite (generate_none_quiet Hr), !run_bind.
      cbn [fst snd report_present]. unfold mret, io_ret.
      unfold mbind, io_bind. cbn [fst snd app]. by rewrite ?app_nil_r.
    - change (py_eq_str (JStr "UserPromptSubmit") "PostToolUse") with false.
      change (py_eq_str (JStr "UserPromptSubmit") "UserPromptSubmit") with true.
      cbv iota. rewrite (new_checker_none Hi). cbn [fst snd app]. rewrite run_bind.
      rewrite (generate_none_quiet Hr), !run_bind.
      cbn [fst snd report_present]. unfold mret, io_ret.
      unfold mbind, io_bind. cbn [fst snd app]. by rewrite ?app_nil_r. }
  unfold main. by rewrite Hd.
Qed.

End NoFile.

Lemma sleep_of_queries (ph : phase) (paths : list string) :
  total_sleep (EvQuery OpExists ph <$> paths) = 0.
Proof. induction paths as [|p paths IH]; [done|]. by rewrite fmap_cons, total_sleep_cons. Qed.

Lemma stdout_of_queries (ph : phase) (paths : list string) :
  stdout_of (EvQuery OpExists ph <$> paths) = [].
Proof. induction paths as [|p paths IH]; [done|]. by rewrite fmap_cons, stdout_of_cons. Qed.

Lemma without_debug_queries (ph : phase) (paths : list string) :
  without_debug (EvQuery OpExists ph <$> paths) = EvQuery OpExists ph <$> paths.
Proof.
  induction paths as [|p paths IH]; [done|].
  by rewrite fmap_cons, without_debug_cons, IH.
Qed.

(** X9: when the hook runs for one of the two diagnostics events and no
    candidate location holds a snapshot file, neither when the checker
    is built nor at the second resolution, the hook probes every
    candidate once, waits 3 and then 2 seconds, probes every candidate
    again and ends with status 0: it never starts the retrying reader
    and prints nothing on standard output. *)
Theorem hook_without_file `{lib : PyLib} (w : world) (hook_input : json)
    (debug_mode : bool) :
  diagnostics_event hook_input →
  nothing_located w AtInit →
  nothing_located w AtRelocate →
  (main w hook_input debug_mode).2 = 0%Z
  ∧ without_debug (main w hook_input debug_mode).1
    = (EvQuery OpExists AtInit <$> w_possible_paths w)
        ++ EvSleep 3 :: EvSleep 2
        :: (EvQuery OpExists AtRelocate <$> w_possible_paths w)
  ∧ total_sleep (main w hook_input debug_mode).1 = 5
  ∧ stdout_of (main w hook_input debug_mode).1 = [].
Proof.
  intros Hev Hi Hr.
  destruct (main_same w hook_input debug_mode false) as [Hs Ht].
  rewrite (main_none_quiet w hook_input Hev Hi Hr) in Hs, Ht. cbn [fst snd] in Hs, Ht.
  rewrite without_debug_app, !without_debug_cons, !without_debug_queries in Ht.
  cbn [is_debug_line app] in Ht.
  split; [exact Hs|]. split; [exact Ht|].
  rewrite <- (sleep_without_debug (main w hook_input debug_mode).1),
          <- (stdout_without_debug (main w hook_input debug_mode).1), Ht.
  rewrite total_sleep_app, !total_sleep_cons, !sleep_of_queries.
  rewrite stdout_of_app, !stdout_of_cons, !stdout_of_queries. done.
Qed.

Lemma hook_without_file_witness :
  (main (lib := Demo.lib) Demo.world_absent Demo.post_tool_use true).2 = 0%Z
  ∧ total_sleep (main (lib := Demo.lib) Demo.world_absent Demo.post_tool_use true).1 = 5.
Proof.
  assert (Hn : ∀ ph, nothing_located Demo.world_absent ph).
  { intros ph path _. reflexivity. }
  destruct (hook_without_file (lib := Demo.lib) Demo.world_absent Demo.post_tool_use true)
    as (H1 & _ & H3 & _).
  - left. reflexivity.
  - apply Hn.
  - apply Hn.
  - split; [exact H1 | exact H3].
Defined.

(** ** The dispatch policy *)

Section Policy.

Context `{lib : PyLib}.
Variable w : world.

Lemma generate_report_present (self : DiagnosticsChecker) (debug_mode : bool)
      (report : string) :
  (generate_reason_markdown w self debug_mode).2 = Ok (Some report) →
  report_present (Some report) = Some report.
Proof.
  intros [rest ->]%generate_some. apply report_present_header.
Qed.

Lemma check_and_report_run (self : DiagnosticsChecker) (debug_mode : bool)
      (t : list event) (r : option string) :
  generate_reason_markdown w self debug_mode = (t, Ok r) →
  check_and_report w self debug_mode
  = match r with
    | Some report =>
        if w_encodable w (OutJson (block_decision report))
        then (t ++ [EvStdout (OutJson (block_decision report))], Ok true)
        else (t ++ [], Raise UnicodeEncodeError)
    | None => (t ++ [], Ok false)
    end.
Proof.
  intros Hgen. unfold check_and_report. rewrite Hgen, run_bind. cbv beta.
  destruct r as [report|]; [|done].
  rewrite (generate_report_present self debug_mode report); [|by rewrite Hgen].
  unfold print. by destruct (w_encodable w (OutJson (block_decision report))).
Qed.

End Policy.

(** X10: [check_and_report] returns [True] exactly when the generator
    produced a report, and then the block decision carrying that report
    is the one line it printed; it returns [False] exactly when there is
    no report, and then it printed nothing. *)
Theorem check_and_report_flag `{lib : PyLib} (w : world) (self : DiagnosticsChecker)
    (debug_mode b : bool) :
  (check_and_report w self debug_mode).2 = Ok b →
  if b
  then ∃ report,
      (generate_reason_markdown w self debug_mode).2 = Ok (Some report)
      ∧ stdout_of (check_and_report w self debug_mode).1
        = [OutJson (JObj [("decision", JStr "block"); ("reason", JStr report)])]
  else (generate_reason_markdown w self debug_mode).2 = Ok None
       ∧ stdout_of (check_and_report w self debug_mode).1 = [].
Proof.
  pose proof (generate_silent w self debug_mode) as Hsil.
  destruct (generate_reason_markdown w self debug_mode) as [t [r|e]] eqn:Hgen.
  - rewrite (check_and_report_run w self debug_mode t r Hgen). cbn [fst snd] in Hsil |- *.
    destruct r as [report|].
    + destruct (w_encodable w (OutJson (block_decision report))); cbn [fst snd];
        [|done]. intros [= <-]. exists report. split; [done|].
      rewrite stdout_of_app, Hsil. done.
    + cbn [fst snd]. intros [= <-]. split; [done|]. by rewrite app_nil_r.
  - unfold check_and_report. rewrite Hgen. done.
Qed.

Lemma check_and_report_flag_witness :
  ∃ report,
    (generate_reason_markdown (lib := Demo.lib) (Demo.world_with 0 Demo.scenario_a_text)
       Demo.checker false).2 = Ok (Some report)
    ∧ stdout_of (check_and_report (lib := Demo.lib)
                   (Demo.world_with 0 Demo.scenario_a_text) Demo.checker false).1
      = [OutJson (JObj [("decision", JStr "block"); ("reason", JStr report)])].
Proof.
  apply (check_and_report_flag (lib := Demo.lib)
           (Demo.world_with 0 Demo.scenario_a_text) Demo.checker false true).
  vm_compute. reflexivity.
Defined.

(** X11: on the post-action event the hook prints the block decision
    with the report when the generator produced one, and nothing when
    it produced none; it ends with status 0 in both cases, unless the
    console cannot encode the decision, which ends it with status 1 and
    nothing printed. *)
Theorem post_tool_use_blocks `{lib : PyLib} (w : world) (hook_input : json)
    (debug_mode : bool) (t0 t1 : list event) (checker : DiagnosticsChecker)
    (r : option string) :
  event_name hook_input = Ok (JStr "PostToolUse") →
  new_checker w = (t0, Ok checker) →
  generate_reason_markdown w checker debug_mode = (t1, Ok r) →
  match r with
  | Some report =>
      let decision :=
        OutJson (JObj [("decision", JStr "block"); ("reason", JStr report)]) in
      if w_encodable w decision
      then stdout_of (main w hook_input debug_mode).1 = [decision]
           ∧ (main w hook_input debug_mode).2 = 0%Z
      else stdout_of (main w hook_input debug_mode).1 = []
           ∧ (main w hook_input debug_mode).2 = 1%Z
  | None =>
      stdout_of (main w hook_input debug_mode).1 = []
      ∧ (main w hook_input debug_mode).2 = 0%Z
  end.
Proof.
  intros Hev Hnew Hgen.
  assert (stdout_of t0 = []) as Ht0.
  { pose proof (new_checker_silent w) as H. by rewrite Hnew in H. }
  assert (stdout_of t1 = []) as Ht1.
  { pose proof (generate_silent w checker debug_mode) as H. by rewrite Hgen in H. }
  unfold main, dispatch. unfold event_name in Hev. rewrite Hev, lift_bind.
  change (py_eq_str (JStr "PostToolUse") "PostToolUse") with true. cbv beta iota.
  rewrite Hnew, run_bind. cbv beta.
  rewrite (check_and_report_run w checker debug_mode t1 r Hgen).
  destruct r as [report|].
  - fold (block_decision report). cbv zeta.
    destruct (w_encodable w (OutJson (block_decision report))).
    + rewrite run_bind. cbn [fst snd mret io_ret].
      rewrite !stdout_of_app, Ht0, Ht1. done.
    + cbn [fst snd mbind io_bind]. rewrite !stdout_of_app, Ht0, Ht1. done.
  - rewrite run_bind. cbn [fst snd mret io_ret].
    rewrite !stdout_of_app, Ht0, Ht1. done.
Qed.

Lemma post_tool_use_blocks_witness :
  ∃ report,
    stdout_of (main (lib := Demo.lib) (Demo.world_with 0 Demo.scenario_a_text)
                 Demo.post_tool_use false).1
    = [OutJson (JObj [("decision", JStr "block"); ("reason", JStr report)])]
    ∧ (main (lib := Demo.lib) (Demo.world_with 0 Demo.scenario_a_text)
         Demo.post_tool_use false).2 = 0%Z.
Proof.
  eexists.
  exact (post_tool_use_blocks (lib := Demo.lib)
           (Demo.world_with 0 Demo.scenario_a_text) Demo.post_tool_use false
           _ _ _ (Some _) eq_refl eq_refl eq_refl).
Defined.

(** X12: for an event other than the two that read the diagnostics
    (a missing event name counts as [Unknown]) the hook only echoes the
    event name: one line on standard output and status 0, with the
    ASCII fallback line when the console cannot encode the first, and
    status 1 when it can encode neither.  It builds no checker, waits
    for nothing and does not touch the file system. *)
Theorem other_event_only_echoes `{lib : PyLib} (w : world) (hook_input name : json)
    (debug_mode : bool) :
  event_name hook_input = Ok name →
  other_event name →
  main w hook_input debug_mode
  = (if w_encodable w (echo_line name) then ([EvStdout (echo_line name)], 0%Z)
     else if w_encodable w (echo_fallback_line name)
          then ([EvStdout (echo_fallback_line name)], 0%Z)
          else ([EvHookException UnicodeEncodeError], 1%Z))
  ∧ total_sleep (main w hook_input debug_mode).1 = 0
  ∧ fs_queries (main w hook_input debug_mode).1 = [].
Proof.
  intros Hev [Hp Hu].
  assert (main w hook_input debug_mode
          = (if w_encodable w (echo_line name) then ([EvStdout (echo_line name)], 0%Z)
             else if w_encodable w (echo_fallback_line name)
                  then ([EvStdout (echo_fallback_line name)], 0%Z)
                  else ([EvHookException UnicodeEncodeError], 1%Z))) as Hmain.
  { unfold main, dispatch. unfold event_name in Hev. rewrite Hev, lift_bind.
    rewrite Hp, Hu. unfold try_except, print, echo_line, echo_fallback_line.
    destruct (w_encodable w (OutText (py_str name +:+ "：钩子触发"))); [done|].
    cbn [raise].
    by destruct (w_encodable w
                   (OutText (py_str name +:+ ": Hook Triggered (Encoding Fallback)"))). }
  split; [exact Hmain|]. rewrite Hmain.
  destruct (w_encodable w (echo_line name)); [done|].
  by destruct (w_encodable w (echo_fallback_line name)).
Qed.

Lemma other_event_only_echoes_witness :
  main (lib := Demo.lib) Demo.world_absent (JObj []) false
  = ([EvStdout (OutText "Unknown：钩子触发")], 0%Z).
Proof.
  destruct (other_event_only_echoes (lib := Demo.lib) Demo.world_absent (JObj [])
              (JStr "Unknown") false) as [H _].
  - reflexivity.
  - split; reflexivity.
  - exact H.
Defined.

(** ** The sources of the hook input *)

Section Sources.

Context `{lib : PyLib}.
Variable src : hook_sources.

Lemma hook_debug_result (msg : string) : (hook_debug src msg).2 = Ok tt.
Proof. unfold hook_debug. by destruct (args_debug src). Qed.

Lemma hook_debug_quiet (msg : string) : without_debug (hook_debug src msg).1 = [].
Proof. unfold hook_debug. by destruct (args_debug src). Qed.

(** A step that only writes debug lines does not show. *)
Lemma hook_debug_then {A : Type} (msg : string) (k : io A) :
  same_but_debug (hook_debug src msg;; k) k.
Proof.
  unfold hook_debug. destruct (args_debug src).
  - unfold emit. rewrite run_bind. split; [done|]. cbn [fst snd].
    by rewrite without_debug_app.
  - unfold mret, io_ret. rewrite run_bind. done.
Qed.

Lemma same_but_debug_trans {A : Type} (m1 m2 m3 : io A) :
  same_but_debug m1 m2 → same_but_debug m2 m3 → same_but_debug m1 m3.
Proof. intros [H1 H2] [H3 H4]. split; congruence. Qed.

(** What the block that reads standard input hands over. *)
Lemma read_stdin_same :
  same_but_debug (read_stdin src)
    (mret (match stdin src with
           | StdinPiped content =>
               if String.eqb (py_strip content) "" then None
               else
                 match json_loads (normalize_paths_in_json (py_strip content)) with
                 | Loaded data => Some data
                 | NotLoaded _ => None
                 end
           | _ => None
           end)).
Proof.
  unfold read_stdin. eapply same_but_debug_trans; [apply hook_debug_then|].
  destruct (stdin src) as [|content|text]; try apply hook_debug_then.
  cbv zeta. eapply same_but_debug_trans; [apply hook_debug_then|].
  destruct (String.eqb (py_strip content) ""); [done|]. unfold loads.
  destruct (json_loads (normalize_paths_in_json (py_strip content))) as [data|[| |]];
    apply hook_debug_then.
Qed.

Lemma default_event_same :
  same_but_debug (default_event src)
    (mret (event_dict (if any_indicator src then "PostToolUse" else "Unknown"))).
Proof.
  unfold default_event. destruct (any_indicator src).
  - eapply same_but_debug_trans; [apply hook_debug_then|]. apply hook_debug_then.
  - apply hook_debug_then.
Qed.

Lemma get_hook_input_named (event : string) :
  present (args_event src) = Some event
  ∨ (present (args_event src) = None ∧ present (env_hook_event src) = Some event) →
  same_but_debug (get_hook_input src) (mret (event_dict event)).
Proof.
  intros H. unfold get_hook_input.
  eapply same_but_debug_trans; [apply hook_debug_then|].
  destruct H as [->|[-> ->]]; apply hook_debug_then.
Qed.

Lemma get_hook_input_unnamed :
  present (args_event src) = None →
  present (env_hook_event src) = None →
  same_but_debug (get_hook_input src)
    (mret (match stdin src with
           | StdinPiped content =>
               if String.eqb (py_strip content) ""
               then event_dict (if any_indicator src then "PostToolUse" else "Unknown")
               else
                 match json_loads (normalize_paths_in_json (py_strip content)) with
                 | Loaded data => data
                 | NotLoaded _ =>
                     event_dict (if any_indicator src then "PostToolUse" else "Unknown")
                 end
           | _ => event_dict (if any_indicator src then "PostToolUse" else "Unknown")
           end)).
Proof.
  intros Ha He. unfold get_hook_input.
  eapply same_but_debug_trans; [apply hook_debug_then|]. rewrite Ha, He.
  destruct read_stdin_same as [Hr Ht].
  destruct (read_stdin src) as [t r]. cbn [fst snd mret io_ret] in Hr, Ht. subst r.
  rewrite run_bind. destruct default_event_same as [Hdr Hdt].
  cbn [fst snd mret io_ret] in Hdr, Hdt.
  unfold same_but_debug. cbn [fst snd mret io_ret]. rewrite without_debug_app, Ht.
  cbn [app].
  destruct (stdin src) as [|content|text]; try done.
  destruct (String.eqb (py_strip content) ""); [done|].
  by destruct (json_loads (normalize_paths_in_json (py_strip content))).
Qed.

(** The whole run, once the input is known apart from debug lines. *)
Lemma run_main_same (w : world) (debug_mode : bool) (hook_input : json) :
  same_but_debug (get_hook_input src) (mret hook_input) →
  (run_main src w debug_mode).2 = (main w hook_input debug_mode).2
  ∧ without_debug (run_main src w debug_mode).1
    = without_debug (main w hook_input debug_mode).1.
Proof.
  intros [Hr Ht]. unfold run_main.
  destruct (get_hook_input src) as [t r]. cbn [fst snd mret io_ret] in Hr, Ht.
  subst r. destruct (main w hook_input debug_mode) as [t' status]. cbn [fst snd].
  split; [done|]. by rewrite without_debug_app, Ht.
Qed.

End Sources.

(** X13: an event named on the command line decides the run, and with
    none there the event named in the environment does: the hook then
    behaves as [main] on the dict holding that name alone, whatever
    standard input holds. *)
Theorem named_event_decides `{lib : PyLib} (src : hook_sources) (event : string)
    (w : world) (debug_mode : bool) :
  names_event src event →
  (get_hook_input src).2 = Ok (JObj [("hook_event_name", JStr event)])
  ∧ (run_main src w debug_mode).2
    = (main w (JObj [("hook_event_name", JStr event)]) debug_mode).2
  ∧ without_debug (run_main src w debug_mode).1
    = without_debug (main w (JObj [("hook_event_name", JStr event)]) debug_mode).1.
Proof.
  intros H. pose proof (get_hook_input_named src event H) as Hin.
  split; [apply Hin|]. apply (run_main_same src w debug_mode _ Hin).
Qed.

Lemma named_event_decides_witness :
  (get_hook_input (lib := Demo.lib)
     (sources_with (Some "Stop") (Some "PostToolUse") (StdinPiped "5") None)).2
  = Ok (JObj [("hook_event_name", JStr "Stop")]).
Proof.
  apply (named_event_decides (lib := Demo.lib)
           (sources_with (Some "Stop") (Some "PostToolUse") (StdinPiped "5") None)
           "Stop" Demo.world_absent false).
  left. reflexivity.
Defined.

(** X14: with no event named, text on standard input that parses after
    its Windows paths are normalised is the hook input: the hook
    behaves as [main] on the parsed value. *)
Theorem stdin_payload_is_input `{lib : PyLib} (src : hook_sources) (data : json)
    (w : world) (debug_mode : bool) :
  unnamed src →
  stdin_payload src data →
  (get_hook_input src).2 = Ok data
  ∧ (run_main src w debug_mode).2 = (main w data debug_mode).2
  ∧ without_debug (run_main src w debug_mode).1
    = without_debug (main w data debug_mode).1.
Proof.
  intros [Ha He] (content & Hin & Hne & Hparse).
  pose proof (get_hook_input_unnamed src Ha He) as Hsame.
  rewrite Hin, Hparse in Hsame. apply String.eqb_neq in Hne. rewrite Hne in Hsame.
  split; [apply Hsame|]. apply (run_main_same src w debug_mode _ Hsame).
Qed.

Lemma stdin_payload_is_input_witness :
  (get_hook_input (lib := stdin_lib)
     (sources_with None None (StdinPiped stop_text) None)).2
  = Ok (JObj [("hook_event_name", JStr "Stop")]).
Proof.
  apply (stdin_payload_is_input (lib := stdin_lib)
           (sources_with None None (StdinPiped stop_text) None)
           (JObj [("hook_event_name", JStr "Stop")]) Demo.world_absent false).
  - split; reflexivity.
  - exists stop_text. split; [reflexivity|]. split; [discriminate | reflexivity].
Defined.

(** X15: with no event named and no payload on standard input (a
    terminal, a failing read, blank text or text that does not parse)
    the hook falls back on the post-action event when any of the
    indicators of the hook environment holds, and on [Unknown] when
    none does. *)
Theorem fallback_event `{lib : PyLib} (src : hook_sources) (w : world)
    (debug_mode : bool) :
  unnamed src →
  no_payload src →
  let event := if any_indicator src then "PostToolUse" else "Unknown" in
  (get_hook_input src).2 = Ok (JObj [("hook_event_name", JStr event)])
  ∧ (run_main src w debug_mode).2
    = (main w (JObj [("hook_event_name", JStr event)]) debug_mode).2
  ∧ without_debug (run_main src w debug_mode).1
    = without_debug (main w (JObj [("hook_event_name", JStr event)]) debug_mode).1.
Proof.
  intros [Ha He] Hno event.
  pose proof (get_hook_input_unnamed src Ha He) as Hsame.
  assert (same_but_debug (get_hook_input src) (mret (event_dict event))) as Hin.
  { unfold no_payload in Hno. destruct (stdin src) as [|content|text]; try exact Hsame.
    destruct Hno as [Hno|[why Hno]]; rewrite Hno in Hsame.
    - exact Hsame.
    - by destruct (String.eqb (py_strip content) ""). }
  split; [apply Hin|]. apply (run_main_same src w debug_mode _ Hin).
Qed.

Lemma fallback_event_witness :
  (get_hook_input (lib := Demo.lib)
     (sources_with None (Some "") (StdinPiped "{") (Some "/proj"))).2
  = Ok (JObj [("hook_event_name", JStr "PostToolUse")])
  ∧ (get_hook_input (lib := Demo.lib)
       (sources_with None None StdinTty None)).2
    = Ok (JObj [("hook_event_name", JStr "Unknown")]).
Proof.
  split.
  - apply (fallback_event (lib := Demo.lib)
             (sources_with None (Some "") (StdinPiped "{") (Some "/proj"))
             Demo.world_absent false).
    + split; reflexivity.
    + right. by eexists.
  - apply (fallback_event (lib := Demo.lib) (sources_with None None StdinTty None)
             Demo.world_absent false).
    + split; reflexivity.
    + exact I.
Defined.

(** X16: a payload on standard input that is valid JSON but not an
    object (an array, a string, a number, [null]) ends the hook with
    status 1: reading the event name fails with [AttributeError], before
    anything is printed on standard output, any wait or any query to the
    file system. *)
Theorem non_object_payload_fails `{lib : PyLib} (src : hook_sources) (data : json)
    (w : world) (debug_mode : bool) :
  unnamed src →
  stdin_payload src data →
  is_object data = false →
  (run_main src w debug_mode).2 = 1%Z
  ∧ without_debug (run_main src w debug_mode).1 = [EvHookException AttributeError].
Proof.
  intros [Ha He] (content & Hin & Hne & Hparse) Hobj.
  pose proof (get_hook_input_unnamed src Ha He) as Hsame.
  rewrite Hin, Hparse in Hsame. apply String.eqb_neq in Hne. rewrite Hne in Hsame.
  destruct (run_main_same src w debug_mode _ Hsame) as [-> ->].
  by destruct data.
Qed.

Lemma non_object_payload_fails_witness :
  (run_main (lib := Demo.lib) (sources_with None None (StdinPiped "[]") (Some "/proj"))
     (Demo.world_with 0 Demo.scenario_a_text) false).2 = 1%Z.
Proof.
  apply (non_object_payload_fails (lib := Demo.lib)
           (sources_with None None (StdinPiped "[]") (Some "/proj")) (JArr [])
           (Demo.world_with 0 Demo.scenario_a_text) false).
  - split; reflexivity.
  - exists "[]". split; [reflexivity|]. split; [discriminate | reflexivity].
  - reflexivity.
Defined.

(** ** Invariants of the aggregator *)

Lemma sum_counts_insert_fresh (k : string) (n : nat) (c : gmap string nat) :
  c !! k = None → sum_counts (<[k := n]> c) = n + sum_counts c.
Proof.
  intros H. unfold sum_counts. apply (map_fold_insert_L (λ _ n acc, n + acc)); [|done].
  intros. lia.
Qed.

Lemma sum_counts_incr (k : string) (c : gmap string nat) :
  sum_counts (counter_incr k c) = sum_counts c + 1.
Proof.
  unfold counter_incr, counter_get. destruct (c !! k) as [n|] eqn:Hk; cbn [default from_option id].
  - rewrite <- insert_delete_eq.
    rewrite sum_counts_insert_fresh by apply lookup_delete_eq.
    rewrite <- (insert_delete_id c k n Hk) at 2.
    rewrite sum_counts_insert_fresh by apply lookup_delete_eq. lia.
  - rewrite sum_counts_insert_fresh by done. lia.
Qed.

Lemma count_diags_sum (ds : list json) (c c' : gmap string nat) :
  foldlM count_diag c ds = Ok c' → sum_counts c' = sum_counts c + length ds.
Proof.
  revert c. induction ds as [|d ds IH]; intros c; cbn [foldlM length].
  - intros [= <-]. lia.
  - destruct (count_diag c d) as [c1|e] eqn:Hd; cbn [mbind result_bind]; [|done].
    intros H%IH. rewrite H. unfold count_diag in Hd.
    destruct (severity_name d) as [sev|e]; cbn [mbind result_bind] in Hd; [|done].
    injection Hd as <-. rewrite sum_counts_incr. lia.
Qed.

(** [len] counts what a loop visits. *)
Lemma py_len_iter (v : json) (n : nat) (xs : list json) :
  py_len v = Ok n → py_iter v = Ok xs → length xs = n.
Proof.
  destruct v; try done; cbn [py_len py_iter]; intros [= <-] [= <-];
    by rewrite ?length_fmap.
Qed.

Lemma count_file_sum (acc acc' : stats) (f : json) :
  count_file acc f = Ok acc' →
  sum_counts (by_severity acc) = total_diagnostics acc →
  sum_counts (by_severity acc') = total_diagnostics acc'.
Proof.
  unfold count_file. destruct (dict_get f "diagnostics" (JArr [])) as [v|e]; [|done].
  cbn [mbind result_bind].
  destruct (py_len v) as [n|e] eqn:Hn; [|done]. cbn [mbind result_bind].
  destruct (py_iter v) as [ds|e] eqn:Hds; [|done]. cbn [mbind result_bind].
  destruct (foldlM count_diag (by_severity acc) ds) as [c|e] eqn:Hc; [|done].
  cbn [mbind result_bind]. intros [= <-] Hacc. cbn [by_severity total_diagnostics].
  rewrite (count_diags_sum ds _ c Hc), (py_len_iter v n ds Hn Hds). lia.
Qed.

Lemma count_files_sum (fs : list json) (acc acc' : stats) :
  foldlM count_file acc fs = Ok acc' →
  sum_counts (by_severity acc) = total_diagnostics acc →
  sum_counts (by_severity acc') = total_diagnostics acc'.
Proof.
  revert acc. induction fs as [|f fs IH]; intros acc; cbn [foldlM].
  - by intros [= <-].
  - destruct (count_file acc f) as [acc1|e] eqn:Hf; [|done]. cbn [mbind result_bind].
    intros H Hacc. apply (IH acc1 H). by apply (count_file_sum acc acc1 f).
Qed.

Lemma count_files_total (fs : list json) (acc acc' : stats) :
  foldlM count_file acc fs = Ok acc' →
  total_files acc' = total_files acc + length fs.
Proof.
  revert acc. induction fs as [|f fs IH]; intros acc; cbn [foldlM length].
  - intros [= <-]. lia.
  - destruct (count_file acc f) as [acc1|e] eqn:Hf; [|done]. cbn [mbind result_bind].
    intros H%IH. rewrite H. revert Hf. unfold count_file.
    destruct (dict_get f "diagnostics" (JArr [])) as [v|?]; [|done].
    cbn [mbind result_bind]. destruct (py_len v); [|done].
    cbn [mbind result_bind]. destruct (py_iter v); [|done].
    cbn [mbind result_bind]. destruct (foldlM count_diag _ _); [|done].
    cbn [mbind result_bind]. intros [= <-]. cbn [total_files]. lia.
Qed.

(** X17: whenever the aggregator returns, whatever the shape of the
    data, the counts of the severity labels add up to the total number
    of diagnostics, and the number of files is the number of elements
    it visited: no entry is counted without a label or under two. *)
Theorem analyze_counts_add_up (data : json) (s : stats) :
  analyze_statistics data = Ok s →
  sum_counts (by_severity s) = total_diagnostics s
  ∧ ∃ files, py_iter data = Ok files ∧ total_files s = length files.
Proof.
  unfold analyze_statistics. destruct (py_iter data) as [files|e]; [|done].
  cbn [mbind result_bind]. intros H. split.
  - by apply (count_files_sum files (Stats 0 0 ∅) s H).
  - exists files. split; [done|]. by rewrite (count_files_total files _ s H).
Qed.

Lemma analyze_counts_add_up_witness :
  ∃ s, analyze_statistics Demo.no_severity = Ok s
       ∧ sum_counts (by_severity s) = total_diagnostics s.
Proof.
  eexists. split; [exact (analyze_snapshot Demo.no_severity eq_refl)|].
  apply (analyze_counts_add_up Demo.no_severity _
           (analyze_snapshot Demo.no_severity eq_refl)).
Defined.

(** ** Files without diagnostics *)

Lemma foldlM_app {A B : Type} (f : A → B → result A) (acc : A) (xs ys : list B) :
  foldlM f acc (xs ++ ys) = (acc' ← foldlM f acc xs; foldlM f acc' ys).
Proof.
  revert acc. induction xs as [|x xs IH]; intros acc; cbn [app foldlM]; [done|].
  destruct (f acc x) as [acc1|e]; cbn [mbind result_bind]; [apply IH | done].
Qed.

Lemma mapMr_app {A B : Type} (f : A → result B) (xs ys : list A) :
  mapMr f (xs ++ ys) = (us ← mapMr f xs; vs ← mapMr f ys; Ok (us ++ vs)).
Proof.
  induction xs as [|x xs IH]; cbn [app mapMr].
  - cbn [mbind result_bind]. by destruct (mapMr f ys).
  - destruct (f x) as [y|e]; cbn [mbind result_bind]; [|done]. rewrite IH.
    destruct (mapMr f xs) as [us|e]; cbn [mbind result_bind]; [|done].
    by destruct (mapMr f ys).
Qed.

Lemma count_file_none (acc : stats) (f : json) :
  no_diagnostics f → count_file acc f = Ok (one_more_file acc).
Proof.
  intros (kvs & -> & H). unfold count_file, dict_get, one_more_file.
  destruct H as [-> | ->]; cbn [default from_option id py_len py_iter mbind result_bind
                                 foldlM length]; by rewrite Nat.add_0_r.
Qed.

Lemma count_file_one_more (acc : stats) (f : json) :
  count_file (one_more_file acc) f
  = match count_file acc f with
    | Ok s => Ok (one_more_file s)
    | Raise e => Raise e
    end.
Proof.
  unfold count_file. destruct (dict_get f "diagnostics" (JArr [])) as [v|e];
    cbn [mbind result_bind]; [|done].
  destruct (py_len v) as [n|e]; cbn [mbind result_bind]; [|done].
  destruct (py_iter v) as [ds|e]; cbn [mbind result_bind]; [|done].
  cbn [one_more_file by_severity total_files total_diagnostics].
  by destruct (foldlM count_diag (by_severity acc) ds).
Qed.

Lemma count_files_one_more (fs : list json) (acc : stats) :
  foldlM count_file (one_more_file acc) fs
  = match foldlM count_file acc fs with
    | Ok s => Ok (one_more_file s)
    | Raise e => Raise e
    end.
Proof.
  revert acc. induction fs as [|f fs IH]; intros acc; cbn [foldlM]; [done|].
  rewrite count_file_one_more.
  destruct (count_file acc f) as [acc1|e]; cbn [mbind result_bind]; [apply IH | done].
Qed.

Lemma analyze_skips (pre post : list json) (f : json) :
  no_diagnostics f →
  analyze_statistics (JArr (pre ++ f :: post))
  = match analyze_statistics (JArr (pre ++ post)) with
    | Ok s => Ok (one_more_file s)
    | Raise e => Raise e
    end.
Proof.
  intros Hf. unfold analyze_statistics. cbn [py_iter mbind result_bind].
  rewrite !foldlM_app.
  destruct (foldlM count_file (Stats 0 0 ∅) pre) as [acc|e]; cbn [mbind result_bind];
    [|done].
  cbn [foldlM]. rewrite (count_file_none acc f Hf). cbn [mbind result_bind].
  apply count_files_one_more.
Qed.

Section Skipping.

Context `{lib : PyLib}.

Lemma file_lines_none (f : json) : no_diagnostics f → file_lines f = Ok [].
Proof.
  intros (kvs & -> & H). unfold file_lines, dict_get.
  by destruct H as [-> | ->].
Qed.

Lemma detail_lines_skips (pre post : list json) (f : json) :
  no_diagnostics f →
  detail_lines (JArr (pre ++ f :: post)) = detail_lines (JArr (pre ++ post)).
Proof.
  intros Hf. unfold detail_lines. cbn [py_iter mbind result_bind].
  rewrite !mapMr_app. cbn [mapMr]. rewrite (file_lines_none f Hf).
  cbn [mbind result_bind].
  destruct (mapMr file_lines pre) as [us|e]; cbn [mbind result_bind]; [|done].
  destruct (mapMr file_lines post) as [vs|e]; cbn [mbind result_bind]; [|done].
  by rewrite !concat_app.
Qed.

End Skipping.

(** X18: a file object that lists no diagnostics (no [diagnostics]
    field, or an empty list) is counted as a file and nothing else:
    wherever it stands in the data, the totals of the entries and the
    counts of the labels are those of the data without it, and so is
    what the renderer returns, report or not.  Such a file needs no
    [file] field. *)
Theorem file_without_diagnostics_is_skipped `{lib : PyLib} (pre post : list json)
    (f : json) (debug_mode : bool) :
  no_diagnostics f →
  analyze_statistics (JArr (pre ++ f :: post))
  = match analyze_statistics (JArr (pre ++ post)) with
    | Ok s => Ok (Stats (total_files s + 1) (total_diagnostics s) (by_severity s))
    | Raise e => Raise e
    end
  ∧ (render debug_mode (JArr (pre ++ f :: post))).2
    = (render debug_mode (JArr (pre ++ post))).2.
Proof.
  intros Hf. split; [exact (analyze_skips pre post f Hf)|].
  rewrite !render_result, (analyze_skips pre post f Hf), (detail_lines_skips pre post f Hf).
  destruct (negb (truthy (JArr (pre ++ post)))) eqn:Hempty.
  - destruct pre as [|p pre]; [|done]. destruct post as [|p post]; [|done].
    cbn [app truthy negb]. unfold analyze_statistics.
    cbn [py_iter mbind result_bind foldlM]. done.
  - assert (negb (truthy (JArr (pre ++ f :: post))) = false) as ->.
    { by destruct pre. }
    destruct (analyze_statistics (JArr (pre ++ post))) as [s|e]; [|done].
    cbn [mbind result_bind one_more_file by_severity]. done.
Qed.

Lemma file_without_diagnostics_is_skipped_witness :
  (render (lib := Demo.lib) false
     (JArr ([Demo.no_severity_file] ++ JObj [] :: []))).2
  = (render (lib := Demo.lib) false (JArr ([Demo.no_severity_file] ++ []))).2.
Proof.
  apply (file_without_diagnostics_is_skipped (lib := Demo.lib)
           [Demo.no_severity_file] [] (JObj []) false).
  exists []. split; [reflexivity|]. left. reflexivity.
Defined.

(** ** The snapshot file in place *)

Section Ready.

Context `{lib : PyLib}.
Variable w : world.

Lemma render_quiet (data : json) : (render false data).1 = [].
Proof.
  unfold render. destruct (negb (truthy data)); [done|].
  unfold lift. destruct (analyze_statistics data) as [stats|e]; [|done].
  rewrite run_bind. cbn [fst app debug_log].
  match goal with |- context [if ?b then _ else _] => destruct b end; [done|].
  cbn [mbind io_bind mret io_ret]. unfold lift.
  by destruct (detail_lines data).
Qed.

Lemma load_first_parsed (path : string) (i : nat) (v : json) :
  i < 5 →
  (∀ j, j < i → goes_on (outcome w path j) = true) →
  outcome w path i = Parsed v →
  ∃ t, load_diagnostics w (Checker (Some path)) = (t, Ok v)
       ∧ attempts_made t = i + 1
       ∧ total_sleep t = i.
Proof.
  intros Hi Hpre Hv. unfold load_diagnostics. cbn [diagnostics_file].
  destruct (retry_first_parsed w path i 5 v Hi Hpre Hv) as (t & -> & Ha & _ & Hs & _).
  rewrite sleeps_before_fifth in Hs by done. by exists t.
Qed.

Lemma generate_ready_quiet (path : string) (t : list event) (v : json) :
  w_exists w AtSettle path = SysOk true →
  load_diagnostics w (Checker (Some path)) = (t, Ok v) →
  generate_reason_markdown w (Checker (Some path)) false
  = (EvSleep 3 :: EvQuery OpExists AtSettle path :: t, (render false v).2).
Proof.
  intros Hex Hload. unfold generate_reason_markdown, settle.
  cbn [diagnostics_file debug_log]. rewrite (fs_exists_run w AtSettle path true Hex).
  unfold sleep, emit, mret, io_ret. rewrite !run_bind. cbn [fst snd].
  rewrite !run_bind. cbn [fst snd log_location diagnostics_file debug_log].
  unfold mret, io_ret. rewrite run_bind, Hload, run_bind, render_quiet.
  cbn [fst snd app]. by rewrite !app_nil_r.
Qed.

End Ready.

(** X19: when the checker holds the location of the snapshot file, the
    file is there after the settle period and attempt [i] of the reader
    is the first whose content parses, after attempts that waited or
    failed with a caught exception, the generator returns what the
    renderer makes of that content, after 3 seconds for the settle
    period and [i] for the reader (none for a second resolution of the
    location) and [i + 1] attempts. *)
Theorem generate_ready_file `{lib : PyLib} (w : world) (path : string) (i : nat)
    (v : json) (debug_mode : bool) :
  w_exists w AtSettle path = SysOk true →
  i < 5 →
  (∀ j, j < i → goes_on (outcome w path j) = true) →
  outcome w path i = Parsed v →
  (generate_reason_markdown w (Checker (Some path)) debug_mode).2
  = (render debug_mode v).2
  ∧ total_sleep (generate_reason_markdown w (Checker (Some path)) debug_mode).1 = 3 + i
  ∧ attempts_made (generate_reason_markdown w (Checker (Some path)) debug_mode).1 = i + 1.
Proof.
  intros Hex Hi Hpre Hv.
  destruct (load_first_parsed w path i v Hi Hpre Hv) as (t & Hload & Ha & Hs).
  destruct (generate_same w debug_mode false (Checker (Some path))) as [Hr Ht].
  rewrite (generate_ready_quiet w path t v Hex Hload) in Hr, Ht. cbn [fst snd] in Hr, Ht.
  split; [|split].
  - rewrite Hr. symmetry. apply render_same.
  - rewrite <- sleep_without_debug, Ht, sleep_without_debug, !total_sleep_cons, Hs. lia.
  - rewrite <- attempts_without_debug, Ht, attempts_without_debug, !attempts_made_cons, Ha.
    cbn [is_attempt]. lia.
Qed.

Lemma generate_ready_file_witness :
  total_sleep (generate_reason_markdown (lib := Demo.lib)
                 (Demo.world_with 2 Demo.scenario_a_text)
                 (Checker (Some Demo.snapshot_path)) true).1 = 3 + 2
  ∧ attempts_made (generate_reason_markdown (lib := Demo.lib)
                     (Demo.world_with 2 Demo.scenario_a_text)
                     (Checker (Some Demo.snapshot_path)) true).1 = 2 + 1.
Proof.
  destruct (generate_ready_file (lib := Demo.lib) (Demo.world_with 2 Demo.scenario_a_text)
              Demo.snapshot_path 2 Demo.scenario_a true) as (_ & Hs & Ha).
  - reflexivity.
  - lia.
  - intros [|[|j]] Hj; [reflexivity | reflexivity | lia].
  - reflexivity.
  - split; [exact Hs | exact Ha].
Defined.

(** ** The missing [file] field *)

Lemma mapMr_raises {A B : Type} (f : A → result B) (xs : list A) (e : exn) :
  mapMr f xs = Raise e → ∃ x, In x xs ∧ f x = Raise e.
Proof.
  induction xs as [|x xs IH]; cbn [mapMr]; [done|].
  destruct (f x) as [y|e'] eqn:Hx; cbn [mbind result_bind].
  - destruct (mapMr f xs) as [ys|e'']; cbn [mbind result_bind]; [done|].
    intros [= ->]. destruct (IH eq_refl) as (x' & Hin & Hx'). exists x'. by split; [right|].
  - intros [= ->]. exists x. by split; [left|].
Qed.

Lemma dict_get_raises (d : json) (k : string) (dflt : json) (e : exn) :
  dict_get d k dflt = Raise e → e = AttributeError.
Proof. destruct d; cbn [dict_get]; congruence. Qed.

Lemma dict_get_truthy (d : json) (k : string) (v : json) :
  dict_get d k JNull = Ok v → truthy v = true → dict_item d k = Ok v.
Proof.
  destruct d as [| | | | | |kvs]; try done. cbn [dict_get dict_item].
  destruct (assoc k kvs) as [v'|]; cbn [default from_option id]; [congruence|].
  by intros [= <-].
Qed.

Lemma severity_name_raises (d : json) (e : exn) :
  severity_name d = Raise e → e ≠ KeyError.
Proof.
  unfold severity_name. destruct (dict_get d "severity" (JInt 0)) as [sev|e'] eqn:Hd;
    cbn [mbind result_bind].
  - unfold int_dict_get. destruct (hashable sev); congruence.
  - intros [= ->]. by rewrite (dict_get_raises _ _ _ _ Hd).
Qed.

Lemma count_severity_raises (k : Z) (v : json) (e : exn) :
  count_severity k v = Raise e → e ≠ KeyError.
Proof.
  unfold count_severity. destruct (py_iter v) as [ds|e'] eqn:Hv; cbn [mbind result_bind].
  - destruct (mapMr (explicit_severity k) ds) as [flags|e'] eqn:Hm;
      cbn [mbind result_bind]; [done|].
    intros [= ->]. apply mapMr_raises in Hm as (d & _ & Hd). revert Hd.
    unfold explicit_severity.
    destruct (dict_get d "severity" JNull) as [sev|e'] eqn:Hs; cbn [mbind result_bind];
      [done|]. intros [= ->]. by rewrite (dict_get_raises _ _ _ _ Hs).
  - intros [= ->]. destruct v; cbn [py_iter] in Hv; congruence.
Qed.

Section KeyErrors.

Context `{lib : PyLib}.

(** The two subscripts of a diagnostic are guarded by a test of the
    same field, so they find their key. *)
Lemma diagnostic_lines_raises (file_path : string) (d : json) (e : exn) :
  diagnostic_lines file_path d = Raise e → e ≠ KeyError.
Proof.
  unfold diagnostic_lines.
  destruct (severity_name d) as [name|e'] eqn:Hn; cbn [mbind result_bind];
    [|intros [= ->]; by apply (severity_name_raises d)].
  repeat match goal with
  | |- context [dict_get ?x ?k ?dflt ≫= _] =>
      let H := fresh "H" in
      let v := fresh "v" in
      destruct (dict_get x k dflt) as [v|?] eqn:H; cbn [mbind result_bind];
        [|intros [= ->]; by rewrite (dict_get_raises _ _ _ _ H)]
  | |- context [if truthy ?v then _ else _] =>
      let H := fresh "H" in
      destruct (truthy v) eqn:H; cbn [mbind result_bind]
  | |- context [dict_item ?x ?k ≫= _] =>
      erewrite (dict_get_truthy x k) by eassumption; cbn [mbind result_bind]
  end;
    (destruct (_relativize file_path) as [relative|e'] eqn:Hrel;
     cbn [mbind result_bind]; [done|]);
    intros [= ->]; by destruct (relativize_raises file_path e Hrel) as [-> _].
Qed.

End KeyErrors.

(** X20: the lines of a file object fail with [KeyError] exactly when
    the object lists diagnostics (the field holds something that counts
    as true) and has no [file] field; a file without diagnostics is
    skipped before the field is read, and no other lookup of the
    renderer raises it. *)
Theorem file_lines_key_error `{lib : PyLib} (f : json) :
  file_lines f = Raise KeyError
  ↔ ∃ kvs, f = JObj kvs
           ∧ truthy (default (JArr []) (assoc "diagnostics" kvs)) = true
           ∧ assoc "file" kvs = None.
Proof.
  split.
  - destruct f as [| | | | | |kvs]; try done. intros H. exists kvs. split; [done|].
    revert H. unfold file_lines, dict_get, dict_item. cbn [mbind result_bind].
    destruct (truthy (default (JArr []) (assoc "diagnostics" kvs))); cbn [negb]; [|done].
    destruct (assoc "file" kvs) as [path|]; cbn [mbind result_bind]; [|done].
    intros H. exfalso. revert H.
    destruct (path_of path) as [p|e] eqn:Hp; cbn [mbind result_bind];
      [|destruct path; cbn [path_of] in Hp; congruence].
    repeat match goal with
    | |- context [count_severity ?k ?v ≫= _] =>
        let H := fresh "H" in
        destruct (count_severity k v) as [?|?] eqn:H; cbn [mbind result_bind];
          [|intros [= ->]; by apply (count_severity_raises _ _ _ H)]
    end.
    destruct (py_iter _) as [ds|e] eqn:Hds; cbn [mbind result_bind];
      [|intros [= ->];
        destruct (default (JArr []) (assoc "diagnostics" kvs)); cbn [py_iter] in Hds;
        congruence].
    destruct (mapMr (diagnostic_lines p) ds) as [entries|e] eqn:Hm;
      cbn [mbind result_bind]; [done|].
    intros [= ->]. apply mapMr_raises in Hm as (d & _ & Hd).
    by apply (diagnostic_lines_raises p d KeyError Hd).
  - intros (kvs & -> & Ht & Hf). unfold file_lines, dict_get, dict_item.
    cbn [mbind result_bind]. by rewrite Ht, Hf.
Qed.
